(** * AnvilFusion2: form input controls and the grid view

    A shallow embedding of [client_code/components/FormInputs.py] and
    [client_code/components/GridView.py].  Python objects become records,
    attribute mutation becomes explicit state passing in a small
    state-and-exception monad, and the widgets of the JS toolkit become
    property maps. *)

From Stdlib Require Import ZArith Lia Ascii.
From stdpp Require Import base option list gmap strings.

Set Warnings "-register-all".
Local Open Scope string_scope.
Local Open Scope Z_scope.

(** ** Python values *)

(** The values that flow through the two components.  A [datetime.date] is
    kept as its day number counted from 1970-01-01, a naive
    [datetime.datetime] as that day number with the clock fields, and a JS
    [Date] proxy as its epoch milliseconds. *)
Inductive PyVal : Type :=
| PyNone
| PyBool (b : bool)
| PyInt (z : Z)
| PyStr (s : string)
| PyDate (day : Z)
| PyDateTime (day hour minute second microsecond : Z)
| JsDate (ms : Z)
| PyList (l : list PyVal)
| PyDict (d : list (string * PyVal))
| PyFunc (f : string).

(** [x is True] *)
Definition is_True (v : PyVal) : bool :=
  match v with PyBool true => true | _ => false end.

(** [x is not None] *)
Definition is_not_None (v : PyVal) : bool :=
  match v with PyNone => false | _ => true end.

(** [bool(x)] *)
Definition truthy (v : PyVal) : bool :=
  match v with
  | PyNone => false
  | PyBool b => b
  | PyInt z => negb (z =? 0)
  | PyStr s => negb (String.eqb s "")
  | PyList l => match l with [] => false | _ => true end
  | PyDict d => match d with [] => false | _ => true end
  | PyDate _ | PyDateTime _ _ _ _ _ | JsDate _ | PyFunc _ => true
  end.

(** [d.get(k)] / [k in d] on a dict kept as an association list *)
Fixpoint assoc {A} (k : string) (d : list (string * A)) : option A :=
  match d with
  | [] => None
  | (k', v) :: d' => if String.eqb k k' then Some v else assoc k d'
  end.

(** [a == b].  [True == 1] holds in Python; dicts compare without regard to
    the order of their keys. *)
Fixpoint py_eq (a b : PyVal) {struct a} : bool :=
  match a, b with
  | PyNone, PyNone => true
  | PyBool x, PyBool y => Bool.eqb x y
  | PyBool x, PyInt z | PyInt z, PyBool x => z =? (if x then 1 else 0)
  | PyInt x, PyInt y => x =? y
  | PyStr x, PyStr y => String.eqb x y
  | PyDate x, PyDate y => x =? y
  | PyDateTime d h m s u, PyDateTime d' h' m' s' u' =>
      (d =? d') && (h =? h') && (m =? m') && (s =? s') && (u =? u')
  | JsDate x, JsDate y => x =? y
  | PyFunc f, PyFunc g => String.eqb f g
  | PyList l, PyList l' =>
      (fix go (l l' : list PyVal) : bool :=
         match l, l' with
         | [], [] => true
         | x :: t, y :: t' => py_eq x y && go t t'
         | _, _ => false
         end) l l'
  | PyDict d, PyDict d' =>
      (length d =? length d')%nat &&
      (fix go (d : list (string * PyVal)) : bool :=
         match d with
         | [] => true
         | (k, v) :: t =>
             match assoc k d' with
             | Some v' => py_eq v v' && go t
             | None => false
             end
         end) d
  | _, _ => false
  end.

(** ** Exceptions and the state monad *)

Inductive Exn : Type :=
| AttributeError (obj attr : string)
| KeyError (key : string)
| TypeError (msg : string)
| ValueError (msg : string)
| RecursionError.

Inductive result (A : Type) : Type :=
| Ok (a : A)
| Raise (e : Exn).
Arguments Ok {A} a.
Arguments Raise {A} e.

(** A method body: it reads and writes a state [S] and may raise. *)
Definition M (S A : Type) : Type := S -> result (A * S).

Definition ret {S A} (a : A) : M S A := fun s => Ok (a, s).
Definition bind {S A B} (m : M S A) (k : A -> M S B) : M S B :=
  fun s => match m s with
           | Ok (a, s') => k a s'
           | Raise e => Raise e
           end.
Definition raise {S A} (e : Exn) : M S A := fun _ => Raise e.
Definition get {S} : M S S := fun s => Ok (s, s).
Definition modify {S} (f : S -> S) : M S unit := fun s => Ok (tt, f s).

Notation "'let*' x ':=' c1 'in' c2" := (bind c1 (fun x => c2))
  (at level 10, x name, c1 at level 100, c2 at level 200).
Notation "'run' c1 'then' c2" := (bind c1 (fun _ => c2))
  (at level 10, c1 at level 100, c2 at level 200).

(** [for x in xs: body x] *)
Fixpoint for_each {S A} (xs : list A) (body : A -> M S unit) : M S unit :=
  match xs with
  | [] => ret tt
  | x :: t => run body x then for_each t body
  end.

(** Sequencing of plain results. *)
Definition and_then {A B} (r : result A) (k : A -> result B) : result B :=
  match r with Ok a => k a | Raise e => Raise e end.

Notation "'let?' x ':=' c1 'in' c2" := (and_then c1 (fun x => c2))
  (at level 10, x name, c1 at level 100, c2 at level 200).

(** [[f(x) for x in xs]] *)
Fixpoint comprehension {A B} (f : A -> result B) (xs : list A) : result (list B) :=
  match xs with
  | [] => Ok []
  | x :: t =>
      let? y := f x in
      let? ys := comprehension f t in
      Ok (y :: ys)
  end.

(** ** Dicts and iteration *)

(** [d[k]] for a string key *)
Definition getitem (d : PyVal) (k : string) : result PyVal :=
  match d with
  | PyDict l =>
      match assoc k l with
      | Some v => Ok v
      | None => Raise (KeyError k)
      end
  | _ => Raise (TypeError "subscript")
  end.

(** [d.get(k, dflt)] *)
Definition dict_get (d : PyVal) (k : string) (dflt : PyVal) : result PyVal :=
  match d with
  | PyDict l => Ok (default dflt (assoc k l))
  | _ => Raise (AttributeError "object" "get")
  end.

(** [d[k] = v] on a dict kept in insertion order *)
Fixpoint setitem {A} (k : string) (v : A) (d : list (string * A)) : list (string * A) :=
  match d with
  | [] => [(k, v)]
  | (k', v') :: d' =>
      if String.eqb k k' then (k, v) :: d' else (k', v') :: setitem k v d'
  end.

(** [a or b] *)
Definition py_or (a b : PyVal) : PyVal := if truthy a then a else b.

(** [for item in v] *)
Definition py_iter (v : PyVal) : result (list PyVal) :=
  match v with
  | PyList l => Ok l
  | PyDict d => Ok (map (fun kv => PyStr (fst kv)) d)
  | PyStr s0 =>
      Ok ((fix chars (s : string) : list PyVal :=
             match s with
             | EmptyString => []
             | String a r => PyStr (String a EmptyString) :: chars r
             end) s0)
  | _ => Raise (TypeError "not iterable")
  end.

Fixpoint prefix_of (p s : string) : bool :=
  match p, s with
  | EmptyString, _ => true
  | String a p', String b s' => Ascii.eqb a b && prefix_of p' s'
  | _, _ => false
  end.

Fixpoint infix_of (p s : string) : bool :=
  prefix_of p s ||
  match s with
  | EmptyString => false
  | String _ s' => infix_of p s'
  end.

(** ['k' in v] for a string [k] *)
Definition py_in (k : string) (v : PyVal) : result bool :=
  match v with
  | PyList l => Ok (existsb (py_eq (PyStr k)) l)
  | PyDict d => Ok (match assoc k d with Some _ => true | None => false end)
  | PyStr s => Ok (infix_of k s)
  | _ => Raise (TypeError "not iterable")
  end.

(** The double quote of the markup that the components write. *)
Definition dq : string := String "034"%char EmptyString.

(** ** The JS side: widgets, dates and the document *)

(** A toolkit widget seen through [anvil.js] is an object with named
    properties; user interaction may change any of them. *)
Abbreviation JsObject := (gmap string PyVal).

(** What reading a property that the JS object does not have gives on the
    Python side: the proxy either raises [AttributeError] or hands back
    [None] for [undefined]. *)
Inductive MissingPolicy : Type := RaisesAttributeError | YieldsNone.

(** The parts of the platform the components call but do not define.  The
    local time zone is seen through two functions on seconds: [localtime]
    takes the seconds since the epoch to the reading of the local clock,
    counted in seconds from 1970-01-01 00:00, and is what [fromtimestamp]
    and the getters of a JS [Date] go by; [mktime] takes a reading of the
    local clock to the seconds since the epoch and is what [strftime('%s')]
    goes by.  Where the clock is put forward or back the two do not undo
    each other.  [float_us] is the microsecond that [fromtimestamp] rounds
    the fraction of the double [epoch / 1000] to.  The rest: how the proxy
    treats a missing property, the two ISO parsers of [datetime] ([None]
    stands for their [ValueError]), the hex digits of the n-th
    [uuid.uuid4()] drawn, [string.capwords], [str] of a list of strings,
    and the depth of recursion the interpreter allows. *)
Record Platform : Type := {
  localtime : Z -> Z;
  mktime : Z -> Z;
  float_us : Z -> Z;
  missing : MissingPolicy;
  date_fromisoformat : string -> option Z;
  datetime_fromisoformat : string -> option (Z * Z * Z * Z * Z);
  uuid4_hex : nat -> string;
  capwords : string -> string;
  str_of_list : list string -> string;
  recursion_limit : nat
}.

(** Constructor defaults of the toolkit classes, as far as the components
    read them: the text, number, picker, dropdown, signature and uploader
    widgets start enabled with no value; the check box and the radio button
    start unchecked and not disabled. *)
Definition widget_defaults (kind : string) : JsObject :=
  if String.eqb kind "CheckBox" || String.eqb kind "RadioButton"
  then {[ "checked" := PyBool false; "disabled" := PyBool false ]}
  else {[ "value" := PyNone; "enabled" := PyBool true ]}.

(** [ej.<ns>.<kind>({...})] *)
Definition ej_new (kind : string) (props : list (string * PyVal)) : JsObject :=
  list_to_map props ∪ widget_defaults kind.

(** * FormInputs.py *)

(** The classes of the file with their [control], [enabled] and [value]
    properties and their [create_control], [show], [hide] and [destroy]
    methods.  A class is a constructor of [InputClass]; a method that a
    subclass overrides is one definition per class that has it, and the
    definitions named after the method alone look it up the way Python
    does. *)

Module FormInputs.

Inductive InputClass : Type :=
| BaseInput | TextInput | MultiLineInput | NumberInput
| DateInput | DateTimeInput | TimeInput
| CheckboxInput | RadioButtonInput
| DropdownInput | LookupInput
| SignatureInput | FileUploadInput | InlineMessage.

(** One entry of [RadioButtonInput.options]; [opt_control] is the
    ['control'] key, absent until [create_control] has run. *)
Record RadioOption : Type := {
  opt_value : PyVal;
  opt_label : option PyVal;
  opt_el_id : string;
  opt_control : option JsObject
}.

(** The instance attributes of an input object.  The attributes of the
    subclasses are carried by every object and ignored by the classes that
    do not have them. *)
Record Input : Type := {
  cls : InputClass;
  name : PyVal;
  label : PyVal;
  shadow_label : string;
  float_label : PyVal;
  _value : PyVal;
  _enabled : PyVal;
  el_id : string;
  container_id : string;
  html : string;
  _control : option JsObject;
  visible : bool;
  label_position : PyVal;
  options : list RadioOption;
  select : PyVal;
  fields : PyVal;
  _options : PyVal;
  add_item_form : PyVal;
  add_item_model : PyVal;
  add_item_label : string;
  add_el_id : PyVal;
  multiple : PyVal;
  message : PyVal
}.

Definition with_value (v : PyVal) (c : Input) : Input :=
  {| cls := cls c; name := name c; label := label c;
     shadow_label := shadow_label c; float_label := float_label c;
     _value := v; _enabled := _enabled c; el_id := el_id c;
     container_id := container_id c; html := html c;
     _control := _control c; visible := visible c;
     label_position := label_position c; options := options c;
     select := select c; fields := fields c; _options := _options c;
     add_item_form := add_item_form c; add_item_model := add_item_model c;
     add_item_label := add_item_label c; add_el_id := add_el_id c;
     multiple := multiple c; message := message c |}.

Definition with_enabled (v : PyVal) (c : Input) : Input :=
  {| cls := cls c; name := name c; label := label c;
     shadow_label := shadow_label c; float_label := float_label c;
     _value := _value c; _enabled := v; el_id := el_id c;
     container_id := container_id c; html := html c;
     _control := _control c; visible := visible c;
     label_position := label_position c; options := options c;
     select := select c; fields := fields c; _options := _options c;
     add_item_form := add_item_form c; add_item_model := add_item_model c;
     add_item_label := add_item_label c; add_el_id := add_el_id c;
     multiple := multiple c; message := message c |}.

Definition with_control (w : option JsObject) (c : Input) : Input :=
  {| cls := cls c; name := name c; label := label c;
     shadow_label := shadow_label c; float_label := float_label c;
     _value := _value c; _enabled := _enabled c; el_id := el_id c;
     container_id := container_id c; html := html c;
     _control := w; visible := visible c;
     label_position := label_position c; options := options c;
     select := select c; fields := fields c; _options := _options c;
     add_item_form := add_item_form c; add_item_model := add_item_model c;
     add_item_label := add_item_label c; add_el_id := add_el_id c;
     multiple := multiple c; message := message c |}.

Definition with_visible (b : bool) (c : Input) : Input :=
  {| cls := cls c; name := name c; label := label c;
     shadow_label := shadow_label c; float_label := float_label c;
     _value := _value c; _enabled := _enabled c; el_id := el_id c;
     container_id := container_id c; html := html c;
     _control := _control c; visible := b;
     label_position := label_position c; options := options c;
     select := select c; fields := fields c; _options := _options c;
     add_item_form := add_item_form c; add_item_model := add_item_model c;
     add_item_label := add_item_label c; add_el_id := add_el_id c;
     multiple := multiple c; message := message c |}.

Definition with_options (o : list RadioOption) (c : Input) : Input :=
  {| cls := cls c; name := name c; label := label c;
     shadow_label := shadow_label c; float_label := float_label c;
     _value := _value c; _enabled := _enabled c; el_id := el_id c;
     container_id := container_id c; html := html c;
     _control := _control c; visible := visible c;
     label_position := label_position c; options := o;
     select := select c; fields := fields c; _options := _options c;
     add_item_form := add_item_form c; add_item_model := add_item_model c;
     add_item_label := add_item_label c; add_el_id := add_el_id c;
     multiple := multiple c; message := message c |}.

Definition with_add_el_id (v : PyVal) (c : Input) : Input :=
  {| cls := cls c; name := name c; label := label c;
     shadow_label := shadow_label c; float_label := float_label c;
     _value := _value c; _enabled := _enabled c; el_id := el_id c;
     container_id := container_id c; html := html c;
     _control := _control c; visible := visible c;
     label_position := label_position c; options := options c;
     select := select c; fields := fields c; _options := _options c;
     add_item_form := add_item_form c; add_item_model := add_item_model c;
     add_item_label := add_item_label c; add_el_id := v;
     multiple := multiple c; message := message c |}.

Definition with_message (v : PyVal) (c : Input) : Input :=
  {| cls := cls c; name := name c; label := label c;
     shadow_label := shadow_label c; float_label := float_label c;
     _value := _value c; _enabled := _enabled c; el_id := el_id c;
     container_id := container_id c; html := html c;
     _control := _control c; visible := visible c;
     label_position := label_position c; options := options c;
     select := select c; fields := fields c; _options := _options c;
     add_item_form := add_item_form c; add_item_model := add_item_model c;
     add_item_label := add_item_label c; add_el_id := add_el_id c;
     multiple := multiple c; message := v |}.

(** What a method can touch: the object itself, the [innerHTML] of the
    document's elements by id, the toolkit methods called so far (newest
    first), and how many ids [new_el_id] has handed out. *)
Record St : Type := {
  self : Input;
  document : gmap string PyVal;
  calls : list (string * list PyVal);
  ids_made : nat
}.

Definition on_self (f : Input -> Input) (st : St) : St :=
  {| self := f (self st); document := document st;
     calls := calls st; ids_made := ids_made st |}.

Definition with_document (d : gmap string PyVal) (st : St) : St :=
  {| self := self st; document := d; calls := calls st; ids_made := ids_made st |}.

Definition log_call (m : string) (args : list PyVal) (st : St) : St :=
  {| self := self st; document := document st;
     calls := (m, args) :: calls st; ids_made := ids_made st |}.

Definition next_id (st : St) : St :=
  {| self := self st; document := document st;
     calls := calls st; ids_made := S (ids_made st) |}.

(** A reading of the local clock, in seconds from 1970-01-01 00:00. *)
Definition clock_reading (day hour minute second : Z) : Z :=
  day * 86400 + hour * 3600 + minute * 60 + second.

(** The days of the years 1 to 9999, which are all that [datetime] holds,
    counted from 1970-01-01. *)
Definition valid_day (d : Z) : bool := (-719162 <=? d) && (d <=? 2932896).

Section Methods.

Context (P : Platform).

(** *** Attribute access *)

Definition self_attr {A} (f : Input -> A) : M St A :=
  fun st => Ok (f (self st), st).

Definition set_self (f : Input -> Input) : M St unit := modify (on_self f).

Definition when (b : bool) (m : M St unit) : M St unit :=
  if b then m else ret tt.

(** [self._control is not None] (also [bool(self._control)]: a proxy of a
    JS object is truthy) *)
Definition control_is_not_None (c : Input) : bool :=
  match _control c with Some _ => true | None => false end.

(** [w.attr] on a proxy *)
Definition js_get (w : JsObject) (attr : string) : result PyVal :=
  match w !! attr with
  | Some v => Ok v
  | None =>
      match missing P with
      | RaisesAttributeError => Raise (AttributeError "JsProxy" attr)
      | YieldsNone => Ok PyNone
      end
  end.

(** [self.control.attr] *)
Definition control_get (attr : string) : M St PyVal :=
  fun st =>
    match _control (self st) with
    | None => Raise (AttributeError "NoneType" attr)
    | Some w =>
        match js_get w attr with
        | Ok v => Ok (v, st)
        | Raise e => Raise e
        end
    end.

(** [self.control.attr = v] *)
Definition control_set (attr : string) (v : PyVal) : M St unit :=
  fun st =>
    match _control (self st) with
    | None => Raise (AttributeError "NoneType" attr)
    | Some w => Ok (tt, on_self (with_control (Some (<[attr := v]> w))) st)
    end.

(** [self.control.meth(args)] for the toolkit methods whose effect is
    outside the object ([appendTo], [destroy]) *)
Definition control_call (meth : string) (args : list PyVal) : M St unit :=
  fun st =>
    match _control (self st) with
    | None => Raise (AttributeError "NoneType" meth)
    | Some _ => Ok (tt, log_call meth args st)
    end.

(** [document.getElementById(id).innerHTML = content]; the elements that
    the markup declares come to exist, empty. *)
Definition set_innerHTML (id : string) (content : PyVal)
    (declared : list string) : M St unit :=
  fun st =>
    match document st !! id with
    | None => Raise (AttributeError "NoneType" "innerHTML")
    | Some _ =>
        let d := foldr (fun i d => <[i := PyStr ""]> d) (document st) declared in
        Ok (tt, with_document (<[id := content]> d) st)
    end.

(** [document.getElementById(id).innerHTML = ''] on the container of a
    control that is visible: [show()] had put the markup of the control
    there, and the elements [gone] that the markup declared go with it. *)
Definition clear_innerHTML (id : string) (gone : list string) : M St unit :=
  fun st =>
    match document st !! id with
    | None => Raise (AttributeError "NoneType" "innerHTML")
    | Some _ =>
        let d := foldr (fun i d => delete i d) (document st) gone in
        Ok (tt, with_document (<[id := PyStr ""]> d) st)
    end.

(** [new_el_id()] *)
Definition new_el_id : M St string :=
  fun st => Ok ("q" +:+ uuid4_hex P (ids_made st), next_id st).

(** The ids in the [id=] attributes of the markup in [self.html]. *)
Definition declared_ids (c : Input) : list string :=
  match cls c with
  | RadioButtonInput => map opt_el_id (options c)
  | SignatureInput => ["parent-" +:+ el_id c; el_id c]
  | _ => [el_id c]
  end.

(** *** Dates across the bridge *)

(** [v.getTime()] *)
Definition getTime (v : PyVal) : M St Z :=
  match v with
  | JsDate ms => ret ms
  | _ => raise (AttributeError "object" "getTime")
  end.

(** A plain result within a method body. *)
Definition lift {A} (r : result A) : M St A :=
  fun st => match r with Ok a => Ok (a, st) | Raise e => Raise e end.

(** [datetime.date.fromtimestamp(epoch / 1000)]: the local day of the
    timestamp, or a [ValueError] where [datetime] has no such year. *)
Definition date_fromtimestamp (epoch : Z) : result PyVal :=
  let day := localtime P (epoch / 1000) / 86400 in
  if valid_day day then Ok (PyDate day)
  else Raise (ValueError "year is out of range").

(** [datetime.datetime.fromtimestamp(epoch / 1000)]: the division is exact
    for a whole number of seconds; otherwise the microsecond is what the
    rounding of the double gives. *)
Definition datetime_fromtimestamp (epoch : Z) : result PyVal :=
  let t := localtime P (epoch / 1000) in
  if valid_day (t / 86400) then
    Ok (PyDateTime (t / 86400) (t mod 86400 / 3600) (t mod 3600 / 60) (t mod 60)
          (if epoch mod 1000 =? 0 then 0 else float_us P epoch))
  else Raise (ValueError "year is out of range").

(** [int(dt.strftime('%s'))]: the whole seconds since the epoch that
    [mktime] makes of a naive local date-time; the microseconds play no
    part. *)
Definition strftime_s (day hour minute second : Z) : Z :=
  mktime P (clock_reading day hour minute second).

(** [Date.prototype.getHours], [getMinutes], [getSeconds] *)
Definition getHours (ms : Z) : Z := localtime P (ms / 1000) mod 86400 / 3600.
Definition getMinutes (ms : Z) : Z := localtime P (ms / 1000) mod 3600 / 60.
Definition getSeconds (ms : Z) : Z := localtime P (ms / 1000) mod 60.

(** *** The [control] property *)

Definition control_setter (w : option JsObject) : M St unit :=
  run set_self (with_control w) then
  match w with
  | None => ret tt
  | Some _ =>
      run control_set "change" (PyFunc "change") then
      let* fl := self_attr float_label in
      when (is_True fl) (control_set "floatLabelType" (PyStr "Always"))
  end.

(** *** The [enabled] property *)

Definition BaseInput_enabled_get : M St PyVal :=
  let* c := self_attr id in
  if control_is_not_None c then
    let* e := control_get "enabled" in
    run set_self (with_enabled e) then
    self_attr _enabled
  else ret PyNone.

Definition BaseInput_enabled_set (value : PyVal) : M St unit :=
  run set_self (with_enabled value) then
  let* c := self_attr id in
  when (control_is_not_None c) (control_set "enabled" value).

(** [not x] *)
Definition py_not (v : PyVal) : PyVal := PyBool (negb (truthy v)).

Definition CheckboxInput_enabled_get : M St PyVal :=
  let* c := self_attr id in
  if control_is_not_None c then
    let* d := control_get "disbled" in
    run set_self (with_enabled (py_not d)) then
    self_attr _enabled
  else ret PyNone.

Definition CheckboxInput_enabled_set (value : PyVal) : M St unit :=
  run set_self (with_enabled value) then
  let* c := self_attr id in
  when (control_is_not_None c) (control_set "disabled" (py_not value)).

Definition enabled_get : M St PyVal :=
  let* k := self_attr cls in
  match k with
  | CheckboxInput => CheckboxInput_enabled_get
  | _ => BaseInput_enabled_get
  end.

Definition enabled_set (value : PyVal) : M St unit :=
  let* k := self_attr cls in
  match k with
  | CheckboxInput => CheckboxInput_enabled_set value
  | _ => BaseInput_enabled_set value
  end.

(** *** The [value] property, class by class *)

Definition BaseInput_value_get : M St PyVal :=
  let* c := self_attr id in
  run when (control_is_not_None c)
        (let* v := control_get "value" in set_self (with_value v)) then
  self_attr _value.

Definition BaseInput_value_set (value : PyVal) : M St unit :=
  let* c := self_attr id in
  when (control_is_not_None c) (control_set "value" value).

Definition DateInput_value_get : M St PyVal :=
  let* c := self_attr id in
  run when (control_is_not_None c)
        (let* v := control_get "value" in
         when (is_not_None v)
           (let* epoch := getTime v in
            let* d := lift (date_fromtimestamp epoch) in
            set_self (with_value d))) then
  self_attr _value.

(** [isinstance(v, datetime.date)]; a [datetime] is a [date] too. *)
Definition is_date (v : PyVal) : bool :=
  match v with PyDate _ | PyDateTime _ _ _ _ _ => true | _ => false end.

(** [isinstance(v, datetime.datetime)] *)
Definition is_datetime (v : PyVal) : bool :=
  match v with PyDateTime _ _ _ _ _ => true | _ => false end.

Definition DateInput_value_set (value : PyVal) : M St unit :=
  match value with
  | PyNone =>
      run set_self (with_value PyNone) then
      let* c := self_attr id in
      when (control_is_not_None c) (control_set "value" PyNone)
  | _ =>
      run (if is_date value then set_self (with_value value)
           else match value with
                | PyStr iso =>
                    match date_fromisoformat P iso with
                    | Some d => set_self (with_value (PyDate d))
                    | None => raise (ValueError iso)
                    end
                | _ =>
                    let* epoch := getTime value in
                    let* d := lift (date_fromtimestamp epoch) in
                    set_self (with_value d)
                end) then
      let* c := self_attr id in
      when (control_is_not_None c)
        match _value c with
        | PyDate d | PyDateTime d _ _ _ _ =>
            control_set "value" (JsDate (strftime_s d 0 0 0 * 1000))
        | _ => raise (TypeError "combine")
        end
  end.

Definition DateTimeInput_value_get : M St PyVal :=
  let* c := self_attr id in
  run when (control_is_not_None c)
        (let* v := control_get "value" in
         when (is_not_None v)
           (let* epoch := getTime v in
            let* d := lift (datetime_fromtimestamp epoch) in
            set_self (with_value d))) then
  self_attr _value.

Definition DateTimeInput_value_set (value : PyVal) : M St unit :=
  match value with
  | PyNone =>
      run set_self (with_value PyNone) then
      let* c := self_attr id in
      when (control_is_not_None c) (control_set "value" PyNone)
  | _ =>
      run (if is_datetime value then set_self (with_value value)
           else match value with
                | PyStr iso =>
                    match datetime_fromisoformat P iso with
                    | Some (d, h, m, se, u) =>
                        set_self (with_value (PyDateTime d h m se u))
                    | None => raise (ValueError iso)
                    end
                | _ =>
                    let* epoch := getTime value in
                    let* d := lift (datetime_fromtimestamp epoch) in
                    set_self (with_value d)
                end) then
      let* c := self_attr id in
      when (control_is_not_None c)
        match _value c with
        | PyDateTime d h m se _ =>
            control_set "value" (JsDate (strftime_s d h m se * 1000))
        | _ => raise (TypeError "strftime")
        end
  end.

Definition TimeInput_value_get : M St PyVal :=
  let* c := self_attr id in
  run when (control_is_not_None c)
        (let* v := control_get "value" in
         when (is_not_None v)
           (let* epoch := getTime v in
            let hours := getHours epoch in
            let minutes := getMinutes epoch in
            set_self (with_value (PyDateTime 0 hours minutes 0 0)))) then
  self_attr _value.

Definition TimeInput_value_set (value : PyVal) : M St unit :=
  match value with
  | PyNone =>
      run set_self (with_value PyNone) then
      let* c := self_attr id in
      when (control_is_not_None c) (control_set "value" PyNone)
  | _ =>
      run (if is_datetime value then set_self (with_value value)
           else match value with
                | PyStr iso =>
                    match datetime_fromisoformat P iso with
                    | Some (d, h, m, se, u) =>
                        set_self (with_value (PyDateTime d h m se u))
                    | None => raise (ValueError iso)
                    end
                | _ =>
                    let* epoch := getTime value in
                    let* d := lift (datetime_fromtimestamp epoch) in
                    set_self (with_value d)
                end) then
      let* c := self_attr id in
      when (control_is_not_None c)
        match _value c with
        | PyDateTime d h m se _ =>
            control_set "value" (JsDate (strftime_s d h m se * 1000))
        | _ => raise (TypeError "strftime")
        end
  end.

Definition CheckboxInput_value_get : M St PyVal :=
  let* c := self_attr id in
  run when (control_is_not_None c)
        (let* v := control_get "checked" in set_self (with_value v)) then
  self_attr _value.

Definition CheckboxInput_value_set (value : PyVal) : M St unit :=
  run set_self (with_value value) then
  let* c := self_attr id in
  when (control_is_not_None c) (control_set "checked" (_value c)).

Definition with_opt_control (w : option JsObject) (o : RadioOption) : RadioOption :=
  {| opt_value := opt_value o; opt_label := opt_label o;
     opt_el_id := opt_el_id o; opt_control := w |}.

(** The loop of the getter: the last option whose button is checked wins. *)
Definition RadioButtonInput_value_get : M St PyVal :=
  let* c := self_attr id in
  run for_each (options c) (fun option =>
        match opt_control option with
        | None => ret tt
        | Some w =>
            match js_get w "checked" with
            | Raise e => raise e
            | Ok checked =>
                if is_True checked then
                  match js_get w "value" with
                  | Raise e => raise e
                  | Ok v => set_self (with_value v)
                  end
                else ret tt
            end
        end) then
  self_attr _value.

Definition RadioButtonInput_value_set (value : PyVal) : M St unit :=
  run set_self (with_value value) then
  set_self (fun c =>
    with_options
      (map (fun option =>
              match opt_control option with
              | Some w =>
                  if py_eq (opt_value option) (_value c)
                  then with_opt_control (Some (<["checked" := PyBool true]> w)) option
                  else option
              | None => option
              end) (options c)) c).

Definition DropdownInput_value_get : M St PyVal :=
  let* c := self_attr id in
  run when (control_is_not_None c)
        (let* v := control_get "value" in
         when (is_not_None v) (set_self (with_value v))) then
  self_attr _value.

Definition DropdownInput_value_set (value : PyVal) : M St unit :=
  run set_self (with_value value) then
  let* c := self_attr id in
  when (control_is_not_None c) (control_set "value" value).

(** The toolkit's [getDataByValue]: the item of the data source whose value
    field equals [v], [None] when there is none. *)
Definition getDataByValue (w : JsObject) (v : PyVal) : PyVal :=
  match w !! "dataSource", w !! "fields" with
  | Some (PyList items), Some (PyDict f) =>
      match assoc "value" f with
      | Some (PyStr key) =>
          default PyNone
            (List.find (fun item =>
                     match item with
                     | PyDict d =>
                         match assoc key d with
                         | Some x => py_eq x v
                         | None => false
                         end
                     | _ => false
                     end) items)
      | _ => PyNone
      end
  | _, _ => PyNone
  end.

(** [v['uid']] *)
Definition getitem_uid (v : PyVal) : result PyVal := getitem v "uid".

Definition LookupInput_value_get : M St PyVal :=
  let* c := self_attr id in
  run match _control c with
      | None => ret tt
      | Some w =>
          let* v := control_get "value" in
          when (is_not_None v)
            (if py_eq (select c) (PyStr "single")
             then set_self (with_value (getDataByValue w v))
             else
               let* items := lift (py_iter v) in
               set_self (with_value (PyList (map (getDataByValue w) items))))
      end then
  self_attr _value.

Definition LookupInput_value_set (value : PyVal) : M St unit :=
  let* c := self_attr id in
  when (control_is_not_None c)
    (if truthy value then
       if py_eq (select c) (PyStr "single")
       then let* u := lift (getitem_uid value) in control_set "value" u
       else
         let* items := lift (py_iter value) in
         let* us := lift (comprehension getitem_uid items) in
         control_set "value" (PyList us)
     else control_set "value" PyNone).

(** The drawing surface keeps what [load] gave it or what was drawn since
    under the widget's [signature]; [getSignature] hands that back, the
    empty payload for a blank surface. *)
Definition SignatureInput_value_get : M St PyVal :=
  let* c := self_attr id in
  match _control c with
  | Some w =>
      run control_call "getSignature" [PyDict []] then
      run set_self (with_value (default (PyStr "") (w !! "signature"))) then
      self_attr _value
  | None => ret PyNone
  end.

Definition SignatureInput_value_set (value : PyVal) : M St unit :=
  run set_self (with_value value) then
  let* c := self_attr id in
  when (control_is_not_None c && is_not_None value)
    (run control_set "signature" value then control_call "load" [value]).

Definition FileUploadInput_value_get : M St PyVal := self_attr _value.

Definition FileUploadInput_value_set (value : PyVal) : M St unit :=
  set_self (with_value value).

Definition InlineMessage_value_get : M St PyVal :=
  run set_self (fun c => with_value (message c) c) then
  self_attr _value.

Definition InlineMessage_value_set (value : PyVal) : M St unit :=
  run set_self (with_message value) then
  let* c := self_attr id in
  set_innerHTML (el_id c) (message c) [].

(** Attribute lookup along the class hierarchy. *)
Definition value_get : M St PyVal :=
  let* k := self_attr cls in
  match k with
  | BaseInput | TextInput | MultiLineInput | NumberInput => BaseInput_value_get
  | DateInput => DateInput_value_get
  | DateTimeInput => DateTimeInput_value_get
  | TimeInput => TimeInput_value_get
  | CheckboxInput => CheckboxInput_value_get
  | RadioButtonInput => RadioButtonInput_value_get
  | DropdownInput => DropdownInput_value_get
  | LookupInput => LookupInput_value_get
  | SignatureInput => SignatureInput_value_get
  | FileUploadInput => FileUploadInput_value_get
  | InlineMessage => InlineMessage_value_get
  end.

Definition value_set (value : PyVal) : M St unit :=
  let* k := self_attr cls in
  match k with
  | BaseInput | TextInput | MultiLineInput | NumberInput => BaseInput_value_set value
  | DateInput => DateInput_value_set value
  | DateTimeInput => DateTimeInput_value_set value
  | TimeInput => TimeInput_value_set value
  | CheckboxInput => CheckboxInput_value_set value
  | RadioButtonInput => RadioButtonInput_value_set value
  | DropdownInput => DropdownInput_value_set value
  | LookupInput => LookupInput_value_set value
  | SignatureInput => SignatureInput_value_set value
  | FileUploadInput => FileUploadInput_value_set value
  | InlineMessage => InlineMessage_value_set value
  end.

(** *** Widget creation *)

Definition placeholder (c : Input) : list (string * PyVal) :=
  [("placeholder", label c)].

Definition DropdownInput_create_control : M St unit :=
  let* c := self_attr id in
  if py_eq (select c) (PyStr "single") then
    control_setter (Some (ej_new "DropDownList"
      [("placeholder", label c); ("showClearButton", PyBool true);
       ("fields", fields c); ("dataSource", _options c);
       ("allowFiltering", PyBool true)]))
  else if py_eq (select c) (PyStr "multi") then
    control_setter (Some (ej_new "MultiSelect"
      [("placeholder", label c); ("showClearButton", PyBool true);
       ("fields", fields c); ("dataSource", _options c);
       ("showDropDownIcon", PyBool true); ("allowFiltering", PyBool true)]))
  else ret tt.

Definition LookupInput_create_control : M St unit :=
  run DropdownInput_create_control then
  let* c := self_attr id in
  when (is_not_None (add_item_form c) || is_not_None (add_item_model c))
    (let* i := new_el_id in
     run set_self (with_add_el_id (PyStr i)) then
     run control_set "footerTemplate"
           (PyStr ("<button class=" +:+ dq +:+ "e-control e-btn e-lib e-flat" +:+ dq +:+
                   " type=" +:+ dq +:+ "button" +:+ dq +:+ " id=" +:+ dq +:+ i +:+ dq +:+
                   ">+ " +:+ add_item_label c +:+ "</button>")) then
     run control_set "open" (PyFunc "control_open") then
     control_set "close" (PyFunc "control_close")).

Definition RadioButtonInput_create_control : M St unit :=
  run set_self (fun c =>
        with_options
          (map (fun option =>
                  with_opt_control
                    (Some (ej_new "RadioButton"
                       [("name", name c); ("value", opt_value option);
                        ("label", default (opt_value option) (opt_label option));
                        ("change", PyFunc "change")])) option)
               (options c)) c) then
  let* c := self_attr id in
  RadioButtonInput_value_set (_value c).

Definition create_control : M St unit :=
  let* c := self_attr id in
  match cls c with
  | BaseInput | InlineMessage => ret tt
  | TextInput | MultiLineInput =>
      control_setter (Some (ej_new "TextBox" (placeholder c)))
  | NumberInput =>
      control_setter (Some (ej_new "NumericTextBox"
        (placeholder c ++ [("showSpinButton", PyBool false)])))
  | DateInput => control_setter (Some (ej_new "DatePicker" (placeholder c)))
  | DateTimeInput => control_setter (Some (ej_new "DateTimePicker" (placeholder c)))
  | TimeInput => control_setter (Some (ej_new "TimePicker" (placeholder c)))
  | CheckboxInput =>
      control_setter (Some (ej_new "CheckBox"
        [("label", label c); ("labelPosition", label_position c);
         ("cssClass", PyStr "pm-checkbox-input")]))
  | RadioButtonInput => RadioButtonInput_create_control
  | DropdownInput => DropdownInput_create_control
  | LookupInput => LookupInput_create_control
  | SignatureInput => control_setter (Some (ej_new "Signature" (placeholder c)))
  | FileUploadInput =>
      control_setter (Some (ej_new "Uploader"
        [("multiple", multiple c); ("selected", PyFunc "upload_files");
         ("removing", PyFunc "remove_upload")]))
  end.

(** *** show, hide, destroy *)

Definition BaseInput_show : M St unit :=
  let* c := self_attr id in
  when (negb (visible c))
    (run set_innerHTML (container_id c) (PyStr (html c +:+ shadow_label c))
           (declared_ids c) then
     run when (negb (control_is_not_None c)) create_control then
     run control_call "appendTo" [PyStr ("#" +:+ el_id c)] then
     let* c1 := self_attr id in
     run value_set (_value c1) then
     run set_self (with_visible true) then
     let* c2 := self_attr id in
     enabled_set (_enabled c2)).

Definition RadioButtonInput_show : M St unit :=
  let* c := self_attr id in
  when (negb (visible c))
    (run set_innerHTML (container_id c) (PyStr (html c)) (declared_ids c) then
     run create_control then
     let* c1 := self_attr id in
     run for_each (options c1) (fun option =>
           match opt_control option with
           | Some _ => modify (log_call "appendTo" [PyStr ("#" +:+ opt_el_id option)])
           | None => raise (KeyError "control")
           end) then
     run value_set (_value c1) then
     set_self (with_visible true)).

Definition InlineMessage_show : M St unit :=
  let* c := self_attr id in
  when (negb (visible c))
    (run set_innerHTML (container_id c) (PyStr (html c)) (declared_ids c) then
     run set_innerHTML (el_id c) (message c) [] then
     set_self (with_visible true)).

Definition show : M St unit :=
  let* k := self_attr cls in
  match k with
  | RadioButtonInput => RadioButtonInput_show
  | InlineMessage => InlineMessage_show
  | _ => BaseInput_show
  end.

Definition hide : M St unit :=
  let* c := self_attr id in
  when (visible c)
    (run clear_innerHTML (container_id c) (declared_ids c) then
     set_self (with_visible false)).

Definition destroy : M St unit :=
  let* c := self_attr id in
  when (control_is_not_None c)
    (run control_call "destroy" [] then
     set_self (with_control None)).

End Methods.

(** [BaseInput.__init__] as far as the attributes above go; the attributes
    of the subclasses start at the defaults of their constructors. *)
Definition init (k : InputClass) (name label value enabled : PyVal)
    (el_id container_id html : string) : Input :=
  {| cls := k; name := name; label := label; shadow_label := "";
     float_label := PyBool true;
     _value := match k with FileUploadInput => PyList [] | _ => value end;
     _enabled := enabled; el_id := el_id; container_id := container_id;
     html := html; _control := None; visible := false;
     label_position := PyStr "After"; options := [];
     select := PyStr "single";
     fields := PyDict [("text", PyStr "name"); ("value", PyStr "uid")];
     _options := PyNone; add_item_form := PyNone; add_item_model := PyNone;
     add_item_label := "Add Item"; add_el_id := PyNone;
     multiple := PyBool false; message := PyNone |}.

(** An object in a document that holds its container. *)
Definition world (c : Input) : St :=
  {| self := c; document := {[ container_id c := PyStr "" ]};
     calls := []; ids_made := 0%nat |}.

(** ** Vocabulary of the properties *)

(** What a method returns, without the state it leaves. *)
Definition result_of {A} (r : result (A * St)) : result A :=
  match r with Ok (a, _) => Ok a | Raise e => Raise e end.

(** The state that a method which returns leaves.  The monad keeps no
    state of a run that raises; there the starting state stands in, and the
    properties use [state_after] on runs that return only. *)
Definition state_after {A} (m : M St A) (st : St) : St :=
  match m st with Ok (_, st') => st' | Raise _ => st end.

(** The classes whose widget lives in [_control]: [RadioButtonInput] keeps
    one button per option instead, [InlineMessage] has none, and
    [BaseInput.create_control] creates nothing. *)
Definition keeps_widget (k : InputClass) : bool :=
  match k with
  | BaseInput | RadioButtonInput | InlineMessage => false
  | _ => true
  end.

(** The controls whose setter hands the value to the widget as it is and
    whose [create_control] always yields a widget. *)
Definition plain_value (c : Input) : bool :=
  match cls c with
  | TextInput | MultiLineInput | NumberInput | CheckboxInput | FileUploadInput => true
  | DropdownInput => py_eq (select c) (PyStr "single") || py_eq (select c) (PyStr "multi")
  | _ => false
  end.


(** The widget property that carries the enabled flag [e], and its value. *)
Definition enabled_prop (k : InputClass) (e : PyVal) : string * PyVal :=
  match k with
  | CheckboxInput => ("disabled", py_not e)
  | _ => ("enabled", e)
  end.

(** The widget property that carries the value of a control with a plain
    value; the uploader is handed none. *)
Definition value_prop (k : InputClass) : option string :=
  match k with
  | CheckboxInput => Some "checked"
  | FileUploadInput => None
  | _ => Some "value"
  end.

(** What the methods that do not change the class, the enabled flag or the
    visibility, and do not drop the widget, leave alone. *)
Definition frame (st st' : St) : Prop :=
  cls (self st') = cls (self st) /\
  _enabled (self st') = _enabled (self st) /\
  visible (self st') = visible (self st) /\
  (control_is_not_None (self st) = true -> control_is_not_None (self st') = true).

Definition keeps {A} (m : M St A) : Prop :=
  forall st a st', m st = Ok (a, st') -> frame st st'.

Definition clock (h m s : Z) : bool :=
  (0 <=? h) && (h <? 24) && (0 <=? m) && (m <? 60) && (0 <=? s) && (s <? 60).

(** "The local clock shows the reading [t]": [strftime('%s')] and the
    readers of the local time agree on it.  A reading that the clock skips
    when it is put forward is not shown; [mktime] moves it on or back. *)
Definition on_local_clock (P : Platform) (t : Z) : bool :=
  localtime P (mktime P t) =? t.

(** "The timestamp that [strftime('%s')] gives for the midnight of the day
    [d] falls on that day": so it does wherever the clock shows that
    midnight, and wherever a skipped midnight is moved on. *)
Definition midnight_falls_on (P : Platform) (d : Z) : bool :=
  localtime P (mktime P (clock_reading d 0 0 0)) / 86400 =? d.

(** The values that a widget hands back as they were pushed into it: any
    value for most classes; for the date picker a calendar date whose
    midnight [strftime('%s')] puts on that day, for the date-time picker a
    date-time of whole seconds that the local clock shows, for the time
    picker an hour and minute on 1970-01-01 that the local clock shows, each
    of the years 1 to 9999, or [None] for the three; for the signature pad
    anything but [None], which the setter does not load. *)
Definition domain_value (P : Platform) (k : InputClass) (v : PyVal) : bool :=
  match k with
  | DateInput =>
      match v with
      | PyNone => true
      | PyDate d => valid_day d && midnight_falls_on P d
      | _ => false
      end
  | DateTimeInput =>
      match v with
      | PyNone => true
      | PyDateTime d h m s u =>
          valid_day d && clock h m s && (u =? 0) && on_local_clock P (clock_reading d h m s)
      | _ => false
      end
  | TimeInput =>
      match v with
      | PyNone => true
      | PyDateTime d h m s u =>
          (d =? 0) && clock h m s && (s =? 0) && (u =? 0)
          && on_local_clock P (clock_reading 0 h m 0)
      | _ => false
      end
  | SignatureInput => is_not_None v
  | _ => true
  end.

(** "The widget [w] of a lookup finds [v] again": [v] is empty, or it is
    the option that [getDataByValue] gives for its own [uid]; for a
    multiple selection, a list of such options. *)
Definition finds_again (select : PyVal) (w : JsObject) (v : PyVal) : Prop :=
  truthy v = false \/
  (py_eq select (PyStr "single") = true /\
   exists u, getitem v "uid" = Ok u /\ is_not_None u = true /\ getDataByValue w u = v) \/
  (py_eq select (PyStr "single") = false /\
   exists items, v = PyList items /\
     Forall (fun item => exists u, getitem item "uid" = Ok u /\ getDataByValue w u = item)
       items).

(** "The widget [w] of the control [c] hands [v] back as it was pushed". *)
Definition restorable (P : Platform) (c : Input) (w : JsObject) (v : PyVal) : Prop :=
  domain_value P (cls c) v = true /\
  (cls c = LookupInput -> finds_again (select c) w v).

(** The controls for which [create_control] makes a widget and keeps it in
    [_control]: a dropdown or lookup makes one for a single or a multiple
    selection only. *)
Definition creates_widget (c : Input) : bool :=
  match cls c with
  | BaseInput | RadioButtonInput | InlineMessage => false
  | DropdownInput | LookupInput =>
      py_eq (select c) (PyStr "single") || py_eq (select c) (PyStr "multi")
  | _ => true
  end.

(** What [getDataByValue] goes by in the widget that a dropdown or lookup
    creates: the options and the field names of the control. *)
Definition lookup_source (c : Input) : JsObject :=
  {[ "dataSource" := _options c; "fields" := fields c ]}.



(** The user acts on the widget: a property of it changes and, no
    [on_change] being given, the object is not told. *)
Definition user_sets (attr : string) (v : PyVal) (st : St) : St :=
  on_self (fun c => with_control (insert attr v <$> _control c) c) st.



(** "Setting [v] leaves a widget timestamp without seconds". *)
Definition drops_seconds_on_write (P : Platform) (st : St) (v : PyVal) : Prop :=
  forall st1 w1 ms,
    value_set P v st = Ok (tt, st1) ->
    _control (self st1) = Some w1 ->
    w1 !! "value" = Some (JsDate ms) ->
    getSeconds P ms = 0.

(** "Pushing [v] into the widget of [st] changes the widget only, and [v]
    reads back from any later state of the object whose widget still
    holds what was pushed". *)
Definition pushed_and_read (P : Platform) (st : St) (v : PyVal) : Prop :=
  exists w2 l2,
    value_set P v st
    = Ok (tt, {| self := with_control (Some w2) (self st); document := document st;
                 calls := l2; ids_made := ids_made st |}) /\
    forall w3 d3 l3 n3 vis3 e3,
      w3 !! "value" = w2 !! "value" ->
      w3 !! "checked" = w2 !! "checked" ->
      w3 !! "signature" = w2 !! "signature" ->
      w3 !! "dataSource" = w2 !! "dataSource" ->
      w3 !! "fields" = w2 !! "fields" ->
      result_of (value_get P
                   {| self := with_enabled e3 (with_visible vis3
                                 (with_control (Some w3) (self st)));
                      document := d3; calls := l3; ids_made := n3 |}) = Ok v.

(** "Once the control has been shown, the cached flag reads again". *)
Definition flag_reads_once_shown (P : Platform) (st : St) : Prop :=
  forall st', show P st = Ok (tt, st') ->
    result_of (enabled_get P st') = Ok (_enabled (self st)).

End FormInputs.

(** * GridView.py *)

(** [get_model_attribute], the constructor of [GridView] and its
    [grid_action_handler], [add_edit_row] and [update_grid], over the
    metadata of the model classes, a backing store and the toolkit grid. *)

Module GridView.

(** ** Strings *)

(** ['.' in s] *)
Fixpoint has_dot (s : string) : bool :=
  match s with
  | EmptyString => false
  | String a r => Ascii.eqb a "."%char || has_dot r
  end.

(** [s.split('.')] *)
Fixpoint split_dot (s : string) : list string :=
  match s with
  | EmptyString => [""]
  | String a r =>
      if Ascii.eqb a "."%char then "" :: split_dot r
      else match split_dot r with
           | h :: t => String a h :: t
           | [] => [String a ""]
           end
  end.

(** ['.'.join(l)] *)
Definition join_dot (l : list string) : string := String.concat "." l.

(** [s.replace("_", " ")] *)
Fixpoint underscores_to_spaces (s : string) : string :=
  match s with
  | EmptyString => EmptyString
  | String a r =>
      String (if Ascii.eqb a "_"%char then " "%char else a) (underscores_to_spaces r)
  end.

Definition is_upper (a : Ascii.ascii) : bool :=
  let n := Ascii.nat_of_ascii a in (65 <=? n)%nat && (n <=? 90)%nat.

(** [re.findall('[A-Z][^A-Z]*', s)]: [cur] is the match being read, if any. *)
Fixpoint findall_words (cur : option string) (s : string) : list string :=
  match s with
  | EmptyString => match cur with Some w => [w] | None => [] end
  | String a r =>
      if is_upper a then
        match cur with
        | Some w => w :: findall_words (Some (String a "")) r
        | None => findall_words (Some (String a "")) r
        end
      else
        match cur with
        | Some w => findall_words (Some (w +:+ String a "")) r
        | None => findall_words None r
        end
  end.

(** [utils.camel_to_title] *)
Definition camel_to_title (s : string) : string :=
  String.concat " " (findall_words None s).

(** ** Model metadata *)

(** Modelled from the spec: the members of [dmtypes.FieldTypes], which the
    sources only use.  Each metadata entry carries a semantic type and a
    default display format; the grid reads them as [GridType] and
    [GridFormat] and compares the member with [FieldTypes.BOOLEAN]. *)
Record FieldType : Type := {
  GridType : PyVal;
  GridFormat : PyVal;
  is_BOOLEAN : bool
}.

Record Attribute : Type := { field_type : FieldType }.

Record Relationship : Type := { class_name : string }.

(** Modelled from the spec: a model class of the data model, which the
    sources only use, by the attribute, computed and relationship metadata
    maps keyed by field name and the designated title attribute; the three
    dicts keep their insertion order. *)
Record ModelClass : Type := {
  _title : string;
  _attributes : list (string * Attribute);
  _computes : list (string * Attribute);
  _relationships : list (string * Relationship)
}.

(** The second component of what [get_model_attribute] returns: the name
    as it was, or the list it was split into. *)
Inductive AttrName : Type :=
| Name (s : string)
| Segments (l : list string).

Section Resolver.

(** [AppEnv.data_models]: the model classes by name. *)
Context (data_models : gmap string ModelClass).

(** [get_model_attribute]; [depth] is the number of frames the interpreter
    still allows. *)
Fixpoint get_model_attribute (depth : nat) (cname attr_name : string)
    : result (option Attribute * AttrName) :=
  match depth with
  | O => Raise RecursionError
  | S depth' =>
      match data_models !! cname with
      | None => Raise (AttributeError "data_models" cname)
      | Some cls =>
          let attr_name :=
            if String.eqb attr_name "_title" then _title cls else attr_name in
          match assoc attr_name (_attributes cls) with
          | Some a => Ok (Some a, Name attr_name)
          | None =>
              match assoc attr_name (_computes cls) with
              | Some a => Ok (Some a, Name attr_name)
              | None =>
                  if has_dot attr_name then
                    let segs := split_dot attr_name in
                    match assoc (hd "" segs) (_attributes cls) with
                    | Some a => Ok (Some a, Segments segs)
                    | None =>
                        match assoc (hd "" segs) (_relationships cls) with
                        | Some r =>
                            match get_model_attribute depth' (class_name r)
                                    (join_dot (tl segs)) with
                            | Ok (attr, _) => Ok (attr, Segments segs)
                            | Raise e => Raise e
                            end
                        | None => Ok (None, Segments segs)
                        end
                    end
                  else Ok (None, Name attr_name)
              end
          end
      end
  end.

End Resolver.

(** ** Module constants *)

Definition GRID_DEFAULT_FILTER_SETTINGS : PyVal := PyDict [("type", PyStr "Menu")].

Definition GRID_DEFAULT_TOOLBAR_ITEMS : PyVal :=
  PyList
    [PyDict [("id", PyStr "search-on"); ("text", PyStr ""); ("prefixIcon", PyStr "e-search");
             ("tooltipText", PyStr "Search"); ("align", PyStr "Right")];
     PyDict [("id", PyStr "add"); ("text", PyStr ""); ("prefixIcon", PyStr "e-add");
             ("tooltipText", PyStr "Add"); ("align", PyStr "Right")]].

Definition GRID_DEFAULT_MODES : PyVal :=
  PyList (map PyStr ["Sort"; "Filter"; "InfiniteScroll"; "Toolbar"; "Edit";
                     "ForeignKey"; "Selection"]).

Definition GRID_MODE_TO_SWITCH : list (string * string) :=
  [("Sort", "allowSorting"); ("Filter", "allowFiltering");
   ("Group", "allowGrouping"); ("Page", "allowPaging");
   ("InfiniteScroll", "enableInfiniteScrolling");
   ("ExcelExport", "allowExcelExport"); ("PdfExport", "allowPdfExport");
   ("Reorder", "allowReordering"); ("Resize", "allowResizing");
   ("RowDD", "allowRowDragAndDrop"); ("Selection", "allowSelection")].

Definition GRID_DEFAULT_EDIT_SETTINGS : PyVal :=
  PyDict [("allowAdding", PyBool true); ("allowEditing", PyBool true);
          ("allowDeleting", PyBool true); ("mode", PyStr "Dialog");
          ("allowEditOnDblClick", PyBool true); ("showConfirmDialog", PyBool true);
          ("showDeleteConfirmDialog", PyBool true); ("allowScrolling", PyBool true)].

Definition GRID_DEFAULT_SELECTION_SETTINGS : PyVal :=
  PyDict [("type", PyStr "Multiple"); ("mode", PyStr "Row");
          ("checkboxOnly", PyBool true); ("persistSelection", PyBool true)].

Definition GRID_DEFAULT_COLUMN_WIDTH : PyVal := PyInt 150.

(** The two columns the constructor writes out itself. *)
Definition uid_column : PyVal :=
  PyDict [("field", PyStr "uid"); ("headerText", PyStr "UID");
          ("visible", PyBool false); ("isPrimaryKey", PyBool true);
          ("width", PyStr "0px")].

Definition checkbox_column : PyVal :=
  PyDict [("type", PyStr "checkbox"); ("width", PyInt 30)].

(** ** The application environment and the grid object *)

(** [AppEnv] as the grid reads it: the model classes, the stored views of
    [appGridViews] by name with their [config] already parsed, the
    [grid_settings] dict, and the names registered in [AppEnv.forms]. *)
Record AppEnv : Type := {
  data_models : gmap string ModelClass;
  appGridViews : gmap string PyVal;
  grid_settings : list (string * PyVal);
  forms : gset string
}.

(** The toolkit grid: the column list and the data source it was handed,
    and the rest of its configuration. *)
Record Grid : Type := {
  columns : list PyVal;
  dataSource : list PyVal;
  config : list (string * PyVal);
  toolbar : list PyVal
}.

(** A [GridView] object.  [grid_columns] is the one list object that both
    [grid_view['config']['columns']] and [grid_config['columns']] refer to;
    [grid_view_config] and [grid_config] hold the other keys of those two
    dicts. *)
Record GridView : Type := {
  container_id : PyVal;
  model : string;
  search_queries : PyVal;
  filters : PyVal;
  view_config : PyVal;
  grid_columns : list PyVal;
  grid_view_config : list (string * PyVal);
  grid_title : string;
  grid_config : list (string * PyVal);
  toolbar_items : list PyVal;
  grid_data : list PyVal;
  grid : Grid
}.

Section Constructor.

Context (P : Platform) (env : AppEnv).

Definition as_str (v : PyVal) : result string :=
  match v with PyStr s => Ok s | _ => Raise (TypeError "str expected") end.

(** [getattr(self.app_model, name)] *)
Definition get_class (name : PyVal) : result ModelClass :=
  let? n := as_str name in
  match data_models env !! n with
  | Some c => Ok c
  | None => Raise (AttributeError "data_models" n)
  end.

(** [model_members = a.copy(); model_members.update(b)], keys only *)
Definition member_names (c : ModelClass) : list string :=
  map fst (fold_left (fun d kv => setitem (fst kv) (snd kv) d) (_computes c)
             (_attributes c)).

(** [string.capwords(attr_name.replace("_", " "))] *)
Definition column_label (attr_name : string) : PyVal :=
  PyStr (capwords P (underscores_to_spaces attr_name)).

(** [f"{attr_name}.{title_name}"] *)
Definition relationship_column_name (attr_name : string) (title_name : AttrName) : string :=
  attr_name +:+ "." +:+
  match title_name with
  | Name s => s
  | Segments l => str_of_list P l
  end.

(** The [else] branch of the constructor: the columns derived from the
    model's metadata. *)
Definition derive_view_columns (c : ModelClass) : result (list PyVal) :=
  let members :=
    map (fun attr_name =>
           PyDict [("name", PyStr attr_name); ("label", column_label attr_name)])
        (member_names c) in
  let? related :=
    comprehension (fun kv =>
        let? r := get_model_attribute (data_models env) (recursion_limit P)
                    (class_name (snd kv)) "_title" in
        Ok (PyDict [("name", PyStr (relationship_column_name (fst kv) (snd r)));
                    ("label", column_label (fst kv))]))
      (_relationships c) in
  Ok (members ++ related)%list.

(** Lines 105-130: [self.view_config] and [self.model]. *)
Definition resolve_view_config (model view_name view_config : PyVal)
    : result (PyVal * string) :=
  if truthy view_name || truthy view_config then
    let? vc :=
      if is_not_None view_config then Ok view_config
      else match view_name with
           | PyStr n =>
               match appGridViews env !! n with
               | Some cfg => Ok cfg
               | None => Raise (TypeError "subscript")
               end
           | _ => Raise (TypeError "subscript")
           end in
    let? m := getitem vc "model" in
    let? _ := get_class m in
    let? mname := as_str m in
    Ok (vc, mname)
  else
    let? c := get_class model in
    let? mname := as_str model in
    let? view_columns := derive_view_columns c in
    Ok (PyDict [("model", model); ("columns", PyList view_columns)], mname).

(** The body of the loop over [self.view_config['columns']]: [None] for a
    column that is skipped, the grid column otherwise. *)
Definition grid_column_of (model : string) (column : PyVal) : result (option PyVal) :=
  let? row_action := dict_get column "row_action" (PyBool false) in
  if truthy row_action then Ok None
  else
    let? cname := getitem column "name" in
    let? cname := as_str cname in
    let? r := get_model_attribute (data_models env) (recursion_limit P) model cname in
    let field := if has_dot cname then hd "" (split_dot cname) else cname in
    let? header := getitem column "label" in
    match fst r with
    | None => Raise (AttributeError "NoneType" "field_type")
    | Some col_attr =>
        let? fmt := dict_get column "format" PyNone in
        let? width := dict_get column "width" PyNone in
        Ok (Some (PyDict
          [("field", PyStr field);
           ("headerText", header);
           ("type", GridType (field_type col_attr));
           ("format", py_or fmt (GridFormat (field_type col_attr)));
           ("displayAsCheckBox", PyBool (is_BOOLEAN (field_type col_attr)));
           ("textAlign", PyStr "Left");
           ("customAttributes", PyDict [("class", PyStr "align-top")]);
           ("width", py_or width GRID_DEFAULT_COLUMN_WIDTH)]))
    end.

(** Lines 132-165: the hidden key column, then one column per entry of the
    view that is not a row action. *)
Fixpoint append_grid_columns (model : string) (cols : list PyVal)
    (grid_columns : list PyVal) : result (list PyVal) :=
  match cols with
  | [] => Ok grid_columns
  | column :: rest =>
      let? g := grid_column_of model column in
      match g with
      | None => append_grid_columns model rest grid_columns
      | Some grid_column => append_grid_columns model rest (grid_columns ++ [grid_column])%list
      end
  end.

Definition build_grid_columns (model : string) (vc : PyVal) : result (list PyVal) :=
  let? cols := getitem vc "columns" in
  let? cols := py_iter cols in
  append_grid_columns model cols [uid_column].

(** The loop over the modes: one switch of the grid configuration per mode
    that has one.  [Grid.Inject] registers the mode's module with the
    toolkit and leaves the object alone. *)
Fixpoint apply_modes (modes : list PyVal) (grid_config : list (string * PyVal))
    : result (list (string * PyVal)) :=
  match modes with
  | [] => Ok grid_config
  | grid_mode :: rest =>
      match grid_mode with
      | PyList _ | PyDict _ => Raise (TypeError "unhashable")
      | PyStr m =>
          match assoc m GRID_MODE_TO_SWITCH with
          | Some switch => apply_modes rest (setitem switch (PyBool true) grid_config)
          | None => apply_modes rest grid_config
          end
      | _ => apply_modes rest grid_config
      end
  end.

(** [GridView.__init__] *)
Definition __init__ (container_id : PyVal) (title : option string)
    (model view_name view_config search_queries filters grid_modes
     toolbar_items : PyVal) : result GridView :=
  let? r := resolve_view_config model view_name view_config in
  let vc := fst r in
  let mname := snd r in
  let? grid_columns := build_grid_columns mname vc in
  let? vcl := match vc with PyDict l => Ok l | _ => Raise (TypeError "copy") end in
  let grid_title := match title with Some t => t | None => camel_to_title mname end in
  (* configure grid settings *)
  let gvc :=
    match assoc "modes" vcl with
    | Some _ => vcl
    | None =>
        setitem "modes"
          (py_or grid_modes (default GRID_DEFAULT_MODES (assoc "modes" (grid_settings env))))
          vcl
    end in
  let? modes := getitem (PyDict gvc) "modes" in
  let? mode_list := py_iter modes in
  let? grid_config := apply_modes mode_list [] in
  let? paged := py_in "Page" modes in
  let? grid_config :=
    if paged then
      let? size := getitem (PyDict gvc) "pageSize" in
      Ok (setitem "pageSettings" (PyDict [("pageSize", size)])
            (setitem "allowPaging" (PyBool true) grid_config))
    else Ok (setitem "pageSettings" (PyDict [("pageSize", PyInt 1000000)]) grid_config) in
  let? edit := py_in "Edit" modes in
  let grid_config :=
    if edit then
      setitem "editSettings"
        (default GRID_DEFAULT_EDIT_SETTINGS (assoc "editSettings" gvc)) grid_config
    else grid_config in
  let? with_toolbar := py_in "Toolbar" modes in
  let? items :=
    if with_toolbar then
      match py_or (py_or toolbar_items
                     (default (default PyNone (assoc "toolbar_items" (grid_settings env)))
                        (assoc "toolbar" gvc)))
                  GRID_DEFAULT_TOOLBAR_ITEMS with
      | PyList l => Ok l
      | _ => Raise (AttributeError "object" "copy")
      end
    else Ok [] in
  let grid_config := setitem "toolbarClick" (PyFunc "toolbar_click") grid_config in
  let items :=
    PyDict [("id", PyStr "title");
            ("template",
             PyStr ("<div class=" +:+ dq +:+ "h4 a-grid-view-title" +:+ dq +:+ ">" +:+
                    grid_title +:+ "</div>"));
            ("align", PyStr "Left")] :: items in
  let? filter := py_in "Filter" modes in
  let grid_config :=
    if filter then setitem "filterSettings" GRID_DEFAULT_FILTER_SETTINGS grid_config
    else grid_config in
  let? selection := py_in "Selection" modes in
  let grid_config :=
    if selection
    then setitem "selectionSettings" GRID_DEFAULT_SELECTION_SETTINGS grid_config
    else grid_config in
  let grid_columns :=
    if selection then checkbox_column :: grid_columns else grid_columns in
  let grid_config :=
    setitem "actionComplete" (PyFunc "grid_action_handler")
      (setitem "actionBegin" (PyFunc "grid_action_handler")
         (setitem "height" (PyStr "100%")
            (setitem "width" (PyStr "100%")
               (setitem "allowTextWrap" (PyBool true)
                  (setitem "showColumnMenu" (PyBool true) grid_config))))) in
  Ok {| container_id := container_id; model := mname;
        search_queries := search_queries; filters := filters;
        view_config := vc; grid_columns := grid_columns;
        grid_view_config := gvc; grid_title := grid_title;
        grid_config := grid_config; toolbar_items := items;
        grid_data := [];
        grid := {| columns := grid_columns; dataSource := [];
                   config := grid_config; toolbar := items |} |}.

End Constructor.

(** ** The toolkit grid *)

(** The field of the column marked [isPrimaryKey]. *)
Definition is_primary_key (column : PyVal) : bool :=
  match column with
  | PyDict d =>
      match assoc "isPrimaryKey" d with
      | Some (PyBool true) => true
      | _ => false
      end
  | _ => false
  end.

Definition primary_key (g : Grid) : option PyVal :=
  match List.find is_primary_key (columns g) with
  | Some (PyDict d) => assoc "field" d
  | _ => None
  end.

(** Whether a row carries [key] in the primary key field [pk]. *)
Definition has_key (pk key : PyVal) (row : PyVal) : bool :=
  match pk, row with
  | PyStr f, PyDict d =>
      match assoc f d with
      | Some v => py_eq v key
      | None => false
      end
  | _, _ => false
  end.

Fixpoint replace_first {A} (p : A -> bool) (x : A) (l : list A) : list A :=
  match l with
  | [] => []
  | y :: t => if p y then x :: t else y :: replace_first p x t
  end.

Definition with_dataSource (rows : list PyVal) (g : Grid) : Grid :=
  {| columns := columns g; dataSource := rows; config := config g;
     toolbar := toolbar g |}.

(** Modelled from the spec: the toolkit's [grid.addRecord(row)], which
    inserts the row as a new grid record at the top. *)
Definition addRecord (row : PyVal) (g : Grid) : Grid :=
  with_dataSource (row :: dataSource g) g.

(** Modelled from the spec: the toolkit's [grid.setRowData(key, row)],
    which replaces the existing row identified by the primary key, in
    place; with no such row, or no key column, the rows stay as they are. *)
Definition setRowData (key row : PyVal) (g : Grid) : Grid :=
  match primary_key g with
  | Some pk => with_dataSource (replace_first (has_key pk key) row (dataSource g)) g
  | None => g
  end.

(** ** Row actions *)

(** Modelled from the spec: a record of the backing model, by its id and
    its field values. *)
Record DbRow : Type := {
  uid : string;
  row_fields : list (string * PyVal)
}.

(** What the handlers do to their collaborators, newest first. *)
Inductive Event : Type :=
| DialogClosed
| FormShown (form : string) (form_data : option DbRow) (form_action : string)
| Deleted (row : DbRow)
| Printed (msg : string).

(** The grid view, the field values of the records of [self.grid_class]
    in the backing store by uid, and the events so far. *)
Record World : Type := {
  this : GridView;
  store : gmap string (list (string * PyVal));
  events : list Event
}.

(** The argument the toolkit hands to the action handlers. *)
Record ActionArgs : Type := {
  requestType : PyVal;
  type : PyVal;
  data : PyVal;
  rowData : PyVal
}.

Section Handlers.

Context (P : Platform) (env : AppEnv).

(** The record's [get_row_view(columns, include_row=False)], which the
    data model defines. *)
Context (get_row_view : DbRow -> PyVal -> PyVal).

Definition emit (e : Event) : M World unit :=
  modify (fun w => {| this := this w; store := store w; events := e :: events w |}).

(** [row.attr] on the proxy of a JS row object *)
Definition js_attr (row : PyVal) (attr : string) : result PyVal :=
  match row with
  | PyNone => Raise (AttributeError "NoneType" attr)
  | PyDict d =>
      match assoc attr d with
      | Some v => Ok v
      | None =>
          match missing P with
          | RaisesAttributeError => Raise (AttributeError "JsProxy" attr)
          | YieldsNone => Ok PyNone
          end
      end
  | _ => Raise (AttributeError "object" attr)
  end.

Definition lift {A} (r : result A) : M World A :=
  fun w => match r with Ok a => Ok (a, w) | Raise e => Raise e end.

(** Modelled from the spec: the data model's [get(id) -> record | null],
    called as [self.grid_class.get(uid)]. *)
Definition grid_class_get (u : PyVal) : M World (option DbRow) :=
  fun w =>
    Ok (match u with
        | PyStr k => (fun f => {| uid := k; row_fields := f |}) <$> store w !! k
        | _ => None
        end, w).

(** Modelled from the spec: the data model's [delete(record)], called as
    [db_row.delete()]; the record leaves the backing store. *)
Definition delete_row (r : DbRow) : M World unit :=
  run modify (fun w => {| this := this w; store := delete (uid r) (store w);
                          events := events w |}) then
  emit (Deleted r).

Definition add_edit_row (args : option ActionArgs) : M World unit :=
  let* action_data :=
    match args with
    | Some a =>
        if py_eq (requestType a) (PyStr "beginEdit") then
          let* u := lift (js_attr (rowData a) "uid") in
          let* r := grid_class_get u in
          ret ("edit", r)
        else
          run emit (Printed "Add row") then ret ("add", None)
    | None => run emit (Printed "Add row") then ret ("add", None)
    end in
  let* w := get in
  let form_name := model (this w) +:+ "Form" in
  if decide (form_name ∈ forms env) then
    run emit (Printed "Dialog form") then
    emit (FormShown form_name (snd action_data) (fst action_data))
  else emit (FormShown "FormBase" (snd action_data) (fst action_data)).

Definition one_of (v : PyVal) (l : list string) : bool :=
  existsb (fun s => py_eq v (PyStr s)) l.

Definition grid_action_handler (args : ActionArgs) : M World unit :=
  if one_of (requestType args) ["beginEdit"; "add"; "delete"]
     && py_eq (type args) (PyStr "actionComplete") then
    if one_of (requestType args) ["beginEdit"; "add"] then
      run emit DialogClosed then
      add_edit_row (Some args)
    else if py_eq (requestType args) (PyStr "delete") then
      let* rows := lift (py_iter (data args)) in
      for_each rows (fun gird_row =>
        let* u := lift (js_attr gird_row "uid") in
        let* db_row := grid_class_get u in
        match db_row with
        | Some r => delete_row r
        | None => ret tt
        end)
    else emit (Printed "Unknown requestType")
  else ret tt.

Definition with_grid (g : Grid) (v : GridView) : GridView :=
  {| container_id := container_id v; model := model v;
     search_queries := search_queries v; filters := filters v;
     view_config := view_config v; grid_columns := grid_columns v;
     grid_view_config := grid_view_config v; grid_title := grid_title v;
     grid_config := grid_config v; toolbar_items := toolbar_items v;
     grid_data := grid_data v; grid := g |}.

Definition on_grid (f : Grid -> Grid) : M World unit :=
  modify (fun w => {| this := with_grid (f (grid (this w))) (this w);
                      store := store w; events := events w |}).

Definition update_grid (data_row : DbRow) (add_new : PyVal) : M World unit :=
  let* w := get in
  let* cols := lift (getitem (view_config (this w)) "columns") in
  let grid_row := get_row_view data_row cols in
  if truthy add_new then on_grid (addRecord grid_row)
  else
    let* key := lift (getitem grid_row "uid") in
    on_grid (setRowData key grid_row).

End Handlers.

(** ** Vocabulary of the properties *)

(** "Resolving [attr_name] on the class [cname] fails". *)
Definition resolution_fails (dm : gmap string ModelClass) (depth : nat)
    (cname attr_name : string) : Prop :=
  exists e, get_model_attribute dm depth cname attr_name = Raise e.

(** The body of the loop in the [delete] branch of the handler. *)
Definition delete_one (P : Platform) (gird_row : PyVal) : M World unit :=
  let* u := lift (js_attr P gird_row "uid") in
  let* db_row := grid_class_get u in
  match db_row with
  | Some r => delete_row r
  | None => ret tt
  end.

(** The records that the delete loop removes when it is handed the rows
    with these uids, in the order it removes them. *)
Fixpoint deleted_rows (s : gmap string (list (string * PyVal))) (uids : list string)
    : list DbRow :=
  match uids with
  | [] => []
  | u :: t =>
      match s !! u with
      | Some f => {| uid := u; row_fields := f |} :: deleted_rows (delete u s) t
      | None => deleted_rows s t
      end
  end.

(** How [rows'] comes from [rows] when the first row with the key [key], if
    there is one, gives way to [row]. *)
Definition patched (key row : PyVal) (rows rows' : list PyVal) : Prop :=
  (Forall (fun r => has_key (PyStr "uid") key r = false) rows /\ rows' = rows) \/
  (exists before old after,
     rows = (before ++ old :: after)%list /\
     Forall (fun r => has_key (PyStr "uid") key r = false) before /\
     has_key (PyStr "uid") key old = true /\
     rows' = (before ++ row :: after)%list).

End GridView.

(** * Sample objects *)

Module Samples.

Import FormInputs.

(** A platform on UTC whose proxies raise on a missing property. *)
Definition utc : Platform :=
  {| localtime := fun t => t; mktime := fun t => t;
     float_us := fun epoch => epoch mod 1000 * 1000;
     missing := RaisesAttributeError;
     date_fromisoformat := fun _ => None;
     datetime_fromisoformat := fun _ => None;
     uuid4_hex := fun _ => "0";
     capwords := fun s => s;
     str_of_list := String.concat ", ";
     recursion_limit := 1000 |}.

(** A platform whose clock is put forward: one hour east of UTC until
    02:00 UTC of 1970-01-01, two hours east from then on, so that the local
    clock goes from 03:00 straight to 04:00; [mktime] reads a time of the
    skipped hour with the offset from before the change. *)
Definition spring_forward : Platform :=
  {| localtime := fun t => if t <? 7200 then t + 3600 else t + 7200;
     mktime := fun t => if t <? 14400 then t - 3600 else t - 7200;
     float_us := fun epoch => epoch mod 1000 * 1000;
     missing := RaisesAttributeError;
     date_fromisoformat := fun _ => None;
     datetime_fromisoformat := fun _ => None;
     uuid4_hex := fun _ => "0";
     capwords := fun s => s;
     str_of_list := String.concat ", ";
     recursion_limit := 1000 |}.

(** [TextInput(name='title', label='Title', value=v0)] *)
Definition text_input (v0 : PyVal) : Input :=
  init TextInput (PyStr "title") (PyStr "Title") v0 (PyBool true)
       "el" "box" "<input>".

(** [CheckboxInput(name='done', label='Done', value=False)] *)
Definition checkbox_input : Input :=
  init CheckboxInput (PyStr "done") (PyStr "Done") (PyBool false) (PyBool true)
       "el" "box" "<input>".

(** [TimeInput(name='start', label='Start')] *)
Definition time_input : Input :=
  init TimeInput (PyStr "start") (PyStr "Start") PyNone (PyBool true)
       "el" "box" "<input>".

(** [DropdownInput(name='colour', label='Colour', options=['red', 'blue'])] *)
Definition dropdown_input : Input :=
  {| cls := DropdownInput; name := PyStr "colour"; label := PyStr "Colour";
     shadow_label := ""; float_label := PyBool true;
     _value := PyNone; _enabled := PyBool true;
     el_id := "el"; container_id := "box"; html := "<input>";
     _control := None; visible := false;
     label_position := PyStr "After"; options := [];
     select := PyStr "single";
     fields := PyDict [("text", PyStr "text"); ("value", PyStr "value")];
     _options := PyList [PyDict [("text", PyStr "red"); ("value", PyStr "red")];
                         PyDict [("text", PyStr "blue"); ("value", PyStr "blue")]];
     add_item_form := PyNone; add_item_model := PyNone;
     add_item_label := "Add Item"; add_el_id := PyNone;
     multiple := PyBool false; message := PyNone |}.


(** The text input after [show()], and after [show(); hide()]. *)
Definition shown_text : St := state_after (show utc) (world (text_input PyNone)).

Definition hidden_text : St :=
  state_after (run show utc then hide) (world (text_input PyNone)).

(** The time input after [show()]. *)
Definition shown_time : St := state_after (show utc) (world time_input).

(** A model [Order] with the attributes [name] and [amount], the computed
    attribute [total] and the relationship [customer] to [Customer], whose
    title is [name]. *)
Definition string_type : GridView.FieldType :=
  {| GridView.GridType := PyStr "string"; GridView.GridFormat := PyNone;
     GridView.is_BOOLEAN := false |}.

Definition number_type : GridView.FieldType :=
  {| GridView.GridType := PyStr "number"; GridView.GridFormat := PyStr "N2";
     GridView.is_BOOLEAN := false |}.

Definition Order : GridView.ModelClass :=
  {| GridView._title := "name";
     GridView._attributes :=
       [("name", {| GridView.field_type := string_type |});
        ("amount", {| GridView.field_type := number_type |})];
     GridView._computes := [("total", {| GridView.field_type := number_type |})];
     GridView._relationships := [("customer", {| GridView.class_name := "Customer" |})] |}.

Definition Customer : GridView.ModelClass :=
  {| GridView._title := "name";
     GridView._attributes := [("name", {| GridView.field_type := string_type |})];
     GridView._computes := [];
     GridView._relationships := [] |}.

Definition app_env : GridView.AppEnv :=
  {| GridView.data_models := {[ "Order" := Order; "Customer" := Customer ]};
     GridView.appGridViews := ∅;
     GridView.grid_settings := [];
     GridView.forms := ∅ |}.

(** An explicit view of the orders by name, without selection, and an
    environment that stores it as [names]. *)
Definition names_view : PyVal :=
  PyDict [("model", PyStr "Order");
          ("columns", PyList [PyDict [("name", PyStr "name"); ("label", PyStr "Name")]]);
          ("modes", PyList [PyStr "Sort"; PyStr "Filter"])].

Definition stored_env : GridView.AppEnv :=
  {| GridView.data_models := {[ "Order" := Order; "Customer" := Customer ]};
     GridView.appGridViews := {[ "names" := names_view ]};
     GridView.grid_settings := [];
     GridView.forms := ∅ |}.

(** What [__init__] returned, or an empty object if it raised. *)
Definition constructed (r : result GridView.GridView) : GridView.GridView :=
  match r with
  | Ok g => g
  | Raise _ =>
      {| GridView.container_id := PyNone; GridView.model := "";
         GridView.search_queries := PyNone; GridView.filters := PyNone;
         GridView.view_config := PyNone; GridView.grid_columns := [];
         GridView.grid_view_config := []; GridView.grid_title := "";
         GridView.grid_config := []; GridView.toolbar_items := [];
         GridView.grid_data := [];
         GridView.grid := {| GridView.columns := []; GridView.dataSource := [];
                             GridView.config := []; GridView.toolbar := [] |} |}
  end.

(** [GridView(container_id='box', model='Order')] *)
Definition order_grid : GridView.GridView :=
  constructed (GridView.__init__ utc app_env (PyStr "box") None (PyStr "Order")
                 PyNone PyNone PyNone PyNone PyNone PyNone).

(** The row view of a record: its uid and its fields. *)
Definition row_view (r : GridView.DbRow) (cols : PyVal) : PyVal :=
  PyDict (("uid", PyStr (GridView.uid r)) :: GridView.row_fields r).

(** The order grid over a store that holds the orders [o1] and [o2]. *)
Definition order_world : GridView.World :=
  {| GridView.this := order_grid;
     GridView.store := {[ "o1" := [("name", PyStr "first")];
                          "o2" := [("name", PyStr "second")] ]};
     GridView.events := [] |}.

(** The same grid showing three orders, the row of [o1] between the rows
    of [o2] and [o3]. *)
Definition listed_rows : list PyVal :=
  [PyDict [("uid", PyStr "o2"); ("name", PyStr "second")];
   PyDict [("uid", PyStr "o1"); ("name", PyStr "first")];
   PyDict [("uid", PyStr "o3"); ("name", PyStr "third")]].

Definition listed_orders : GridView.World :=
  {| GridView.this :=
       GridView.with_grid
         (GridView.with_dataSource listed_rows (GridView.grid order_grid)) order_grid;
     GridView.store := GridView.store order_world;
     GridView.events := [] |}.

End Samples.

(** * FormInputs.py: change events, grid editing, options and uploads *)

(** The methods of the input classes beside the [value], [enabled] and
    [show] life cycle: the [change] handler, the four hooks a grid column
    calls to edit a cell with the control, [serialized] of the date
    classes, the [options] of a dropdown, the [data] of a lookup and the
    removal of an uploaded file. *)

Module InputHooks.

Import FormInputs.

(** An input object with the attributes these methods use on top of
    [FormInputs.Input]: [on_change] ([None] or a callable), [grid_data],
    [edit_el] and [text_field]; with them, the [DotDict]s handed to
    [on_change] and the calls made to [AppEnv.aws_s3.delete_files], newest
    first. *)
Record Obj : Type := {
  base : St;
  on_change : PyVal;
  grid_data : PyVal;
  edit_el : PyVal;
  text_field : PyVal;
  notified : list PyVal;
  s3_deleted : list (PyVal * PyVal)
}.

Definition with_base (s : St) (o : Obj) : Obj :=
  {| base := s; on_change := on_change o; grid_data := grid_data o;
     edit_el := edit_el o; text_field := text_field o;
     notified := notified o; s3_deleted := s3_deleted o |}.

Definition with_grid_data (v : PyVal) (o : Obj) : Obj :=
  {| base := base o; on_change := on_change o; grid_data := v;
     edit_el := edit_el o; text_field := text_field o;
     notified := notified o; s3_deleted := s3_deleted o |}.

Definition with_edit_el (v : PyVal) (o : Obj) : Obj :=
  {| base := base o; on_change := on_change o; grid_data := grid_data o;
     edit_el := v; text_field := text_field o;
     notified := notified o; s3_deleted := s3_deleted o |}.

Definition notify (v : PyVal) (o : Obj) : Obj :=
  {| base := base o; on_change := on_change o; grid_data := grid_data o;
     edit_el := edit_el o; text_field := text_field o;
     notified := v :: notified o; s3_deleted := s3_deleted o |}.

Definition log_s3_delete (key bucket : PyVal) (o : Obj) : Obj :=
  {| base := base o; on_change := on_change o; grid_data := grid_data o;
     edit_el := edit_el o; text_field := text_field o;
     notified := notified o; s3_deleted := (key, bucket) :: s3_deleted o |}.

(** [self._options = o] *)
Definition with__options (o : PyVal) (c : Input) : Input :=
  {| cls := cls c; name := name c; label := label c;
     shadow_label := shadow_label c; float_label := float_label c;
     _value := _value c; _enabled := _enabled c; el_id := el_id c;
     container_id := container_id c; html := html c;
     _control := _control c; visible := visible c;
     label_position := label_position c; options := options c;
     select := select c; fields := fields c; _options := o;
     add_item_form := add_item_form c; add_item_model := add_item_model c;
     add_item_label := add_item_label c; add_el_id := add_el_id c;
     multiple := multiple c; message := message c |}.

(** The argument of the [write] hook of a grid column: [args.column.field]
    and the row object [args.rowData] by its properties. *)
Record EditArgs : Type := {
  column_field : string;
  rowData : list (string * PyVal)
}.

Section Methods.

Context (P : Platform).

(** The [isoformat] of [datetime.date] and of [datetime.datetime]. *)
Context (date_isoformat : Z -> string).
Context (datetime_isoformat : Z -> Z -> Z -> Z -> Z -> string).

(** [LookupInput.compute_option]: a callable, or [None]. *)
Context (compute_option : option (PyVal -> result PyVal)).

(** Whether [AppEnv.aws_s3], which starts as [None], has been set to the
    storage client. *)
Context (aws_s3 : bool).

(** A method of [FormInputs] run on the object. *)
Definition on_base {A} (m : M St A) : M Obj A :=
  fun o =>
    match m (base o) with
    | Ok (a, s) => Ok (a, with_base s o)
    | Raise e => Raise e
    end.

Definition attr {A} (f : Obj -> A) : M Obj A := fun o => Ok (f o, o).

Definition lift {A} (r : result A) : M Obj A :=
  fun o => match r with Ok a => Ok (a, o) | Raise e => Raise e end.

(** *** BaseInput.change *)

(** [args] is the event of the widget, read with [args.get('value')]. *)
Definition change (args : PyVal) : M Obj unit :=
  let* cb := attr on_change in
  if is_not_None cb then
    let* n := on_base (self_attr name) in
    let* changed := lift (dict_get args "value" PyNone) in
    let* v := if truthy changed then on_base (value_get P) else ret PyNone in
    modify (notify (PyDict [("name", n); ("value", v)]))
  else ret tt.

(** *** The hooks of a grid column *)

(** [anvil.js.window.document.createElement('input')] *)
Definition createElement (tag : string) : PyVal := PyDict [("tagName", PyStr tag)].

(** [args.data] is passed as it is. *)
Definition grid_edit_create (args_data : PyVal) : M Obj PyVal :=
  run modify (with_grid_data args_data) then
  run modify (with_edit_el (createElement "input")) then
  attr edit_el.

Definition BaseInput_grid_edit_read : M Obj PyVal := on_base (control_get P "value").

Definition CheckboxInput_grid_edit_read : M Obj PyVal := on_base (control_get P "checked").

(** The two arguments [input_element] and [input_value] are not used. *)
Definition grid_edit_read : M Obj PyVal :=
  let* k := on_base (self_attr cls) in
  match k with
  | CheckboxInput => CheckboxInput_grid_edit_read
  | _ => BaseInput_grid_edit_read
  end.

Definition grid_edit_write (args : EditArgs) : M Obj unit :=
  run on_base (create_control P) then
  let* el := attr edit_el in
  run on_base (control_call "appendTo" [el]) then
  match assoc (column_field args) (rowData args) with
  | Some v => on_base (control_set "value" v)
  | None => ret tt
  end.

Definition grid_edit_destroy : M Obj unit := ret tt.

(** *** serialized *)

(** [v.isoformat()] *)
Definition isoformat (v : PyVal) : result PyVal :=
  match v with
  | PyDate d => Ok (PyStr (date_isoformat d))
  | PyDateTime d h m s u => Ok (PyStr (datetime_isoformat d h m s u))
  | _ => Raise (AttributeError "object" "isoformat")
  end.

(** The property of [DateInput], [DateTimeInput] and [TimeInput]; the other
    classes have none. *)
Definition serialized : M St PyVal :=
  let* c := self_attr id in
  match cls c with
  | DateInput | DateTimeInput | TimeInput =>
      if is_not_None (_value c) then
        let* v := value_get P in
        FormInputs.lift (isoformat v)
      else ret PyNone
  | _ => raise (AttributeError "object" "serialized")
  end.

(** *** DropdownInput.options *)

(** The classes that have the property: [DropdownInput] and, by
    inheritance, [LookupInput]. *)
Definition is_dropdown (k : InputClass) : bool :=
  match k with DropdownInput | LookupInput => true | _ => false end.

Definition DropdownInput_options_get : M St PyVal := self_attr _options.

Definition DropdownInput_options_set (options : PyVal) : M St unit :=
  run set_self (with__options options) then
  let* c := self_attr id in
  when (control_is_not_None c) (control_set "dataSource" options).

(** *** LookupInput.data *)

(** [self.text_field.split('.', 1)[0]] *)
Definition first_segment (text_field : PyVal) : result string :=
  match text_field with
  | PyStr s => Ok (hd "" (GridView.split_dot s))
  | _ => Raise (AttributeError "object" "split")
  end.

(** One entry of the list that [get_options] builds. *)
Definition option_of (text_field : PyVal) (option : PyVal) : result PyVal :=
  let? n :=
    match compute_option with
    | Some f => f option
    | None => let? k := first_segment text_field in getitem option k
    end in
  let? u := getitem option "uid" in
  Ok (PyDict [("name", n); ("uid", u)]).

Definition LookupInput_get_options (data : PyVal) : M Obj PyVal :=
  let* tf := attr text_field in
  let* items := lift (py_iter data) in
  let* opts := lift (comprehension (option_of tf) items) in
  ret (PyList opts).

Definition LookupInput_data_get : M Obj PyVal := on_base DropdownInput_options_get.

Definition LookupInput_data_set (data : PyVal) : M Obj unit :=
  if truthy data then
    let* opts := LookupInput_get_options data in
    on_base (DropdownInput_options_set opts)
  else on_base (DropdownInput_options_set PyNone).

(** *** FileUploadInput.remove_upload *)

(** [l.remove(x)]: the first element equal to [x] goes. *)
Fixpoint list_remove (x : PyVal) (l : list PyVal) : list PyVal :=
  match l with
  | [] => []
  | y :: t => if py_eq y x then t else y :: list_remove x t
  end.

(** The loop of [remove_upload] over the entries that are left to visit;
    [removed_name] is [args['filesData'][0].name].  In the call to
    [delete_files] the method is looked up on [AppEnv.aws_s3] before the
    arguments are evaluated. *)
Fixpoint remove_upload_from (removed_name : PyVal) (files : list PyVal) : M Obj unit :=
  match files with
  | [] => ret tt
  | file :: rest =>
      let* n := lift (getitem file "name") in
      if py_eq n removed_name then
        run (if aws_s3 then ret tt
             else raise (AttributeError "NoneType" "delete_files")) then
        let* storage := lift (getitem file "storage") in
        let* key := lift (getitem storage "key") in
        let* bucket := lift (getitem storage "bucket") in
        run modify (log_s3_delete (PyList [key]) bucket) then
        let* v := on_base (self_attr _value) in
        run match v with
            | PyList l => on_base (set_self (with_value (PyList (list_remove file l))))
            | _ => raise (AttributeError "object" "remove")
            end then
        on_base (control_call "remove" [file])
      else remove_upload_from removed_name rest
  end.

(** [args] holds the file being removed as [args['filesData'][0]]. *)
Definition remove_upload (removed_name : PyVal) : M Obj unit :=
  let* v := on_base (self_attr _value) in
  let* files := lift (py_iter v) in
  remove_upload_from removed_name files.

End Methods.

End InputHooks.

(** ** Vocabulary of the further properties of the form inputs *)

Module InputVocabulary.

Import FormInputs.

(** The calendar day that [DateInput] makes of a value it is given: a date,
    a date-time, an ISO string, or a JS [Date] whose local day is of the
    years 1 to 9999. *)
Definition day_of (P : Platform) (v : PyVal) : option Z :=
  match v with
  | PyDate d | PyDateTime d _ _ _ _ => Some d
  | PyStr iso => date_fromisoformat P iso
  | JsDate ms =>
      let d := localtime P (ms / 1000) / 86400 in
      if valid_day d then Some d else None
  | _ => None
  end.

(** The day and clock time that [DateTimeInput] makes of a value it is
    given: a date-time, an ISO string, or a JS [Date] whose local day is of
    the years 1 to 9999. *)
Definition moment_of (P : Platform) (v : PyVal) : option (Z * Z * Z * Z) :=
  match v with
  | PyDateTime d h m s _ => Some (d, h, m, s)
  | PyStr iso =>
      match datetime_fromisoformat P iso with
      | Some (d, h, m, s, _) => Some (d, h, m, s)
      | None => None
      end
  | JsDate ms =>
      let t := localtime P (ms / 1000) in
      if valid_day (t / 86400)
      then Some (t / 86400, t mod 86400 / 3600, t mod 3600 / 60, t mod 60)
      else None
  | _ => None
  end.

(** What a method of an object with hooks returns, without the state. *)
Definition returned {S A} (r : result (A * S)) : result A :=
  match r with Ok (a, _) => Ok a | Raise e => Raise e end.

(** The classes whose [create_control] makes one widget that holds the
    [value] a grid cell is written to, and nothing else on the object. *)
Definition has_value_editor (c : Input) : bool :=
  match cls c with
  | TextInput | MultiLineInput | NumberInput | DateInput | DateTimeInput | TimeInput
  | SignatureInput | FileUploadInput => true
  | DropdownInput => py_eq (select c) (PyStr "single") || py_eq (select c) (PyStr "multi")
  | _ => false
  end.

(** An uploaded file as [upload_files] records it in [_value]. *)
Record Upload : Type := {
  up_name : string;
  up_size : Z;
  up_type : string;
  up_bucket : string;
  up_key : string
}.

Definition upload_entry (u : Upload) : PyVal :=
  PyDict [("name", PyStr (up_name u)); ("size", PyInt (up_size u));
          ("type", PyStr (up_type u));
          ("storage", PyDict [("type", PyStr "aws_s3");
                              ("bucket", PyStr (up_bucket u));
                              ("key", PyStr (up_key u))])].

End InputVocabulary.

(** ** Vocabulary of the further properties of the grid view *)

Module GridVocabulary.

Import GridView.

(** [column.get('row_action', False)] as a condition; a column that is not
    a dict counts as none. *)
Definition is_row_action (column : PyVal) : bool :=
  match dict_get column "row_action" (PyBool false) with
  | Ok v => truthy v
  | Raise _ => false
  end.

(** The toolbar item that carries the title of the grid. *)
Definition title_item (grid_title : string) : PyVal :=
  PyDict [("id", PyStr "title");
          ("template",
           PyStr ("<div class=" +:+ dq +:+ "h4 a-grid-view-title" +:+ dq +:+ ">" +:+
                  grid_title +:+ "</div>"));
          ("align", PyStr "Left")].

End GridVocabulary.

(** * tools/utils.py: names *)

(** The helpers that turn the name of a model class into the forms the
    application shows and stores. *)

Module Utils.

(** [s.endswith(suffix)] *)
Fixpoint endswith (s suffix : string) : bool :=
  String.eqb s suffix ||
  match s with
  | EmptyString => false
  | String _ r => endswith r suffix
  end.

(** [s[:-k]] for a positive [k] *)
Definition drop_end (k : nat) (s : string) : string :=
  String.substring 0 (String.length s - k) s.

(** [s[-k:]] for a positive [k] *)
Definition take_end (k : nat) (s : string) : string :=
  String.substring (String.length s - k) k s.

(** [get_plural_name]; [None] stands for the [IndexError] that [name[-1]]
    raises on the empty string. *)
Definition get_plural_name (name : string) : option string :=
  if endswith name "y" then Some (drop_end 1 name +:+ "ies")
  else
    match take_end 1 name with
    | EmptyString => None
    | last =>
        if infix_of last "sx"
           || String.eqb (take_end 2 name) "sh" || String.eqb (take_end 2 name) "ch"
        then Some (name +:+ "es")
        else Some (name +:+ "s")
    end.

(** [get_singular_name] *)
Definition get_singular_name (name : string) : string :=
  if endswith name "ies" then drop_end 3 name +:+ "y"
  else if endswith name "es" then drop_end 2 name
  else if endswith name "s" then drop_end 1 name
  else name.

(** What "Title Case" comes to for [camel_to_title]: the name from its
    first capital on, with a space put before every later capital. *)
Fixpoint space_capitals (s : string) : string :=
  match s with
  | EmptyString => EmptyString
  | String a r =>
      if GridView.is_upper a then String " " (String a (space_capitals r))
      else String a (space_capitals r)
  end.

Fixpoint from_first_capital (s : string) : string :=
  match s with
  | EmptyString => EmptyString
  | String a r => if GridView.is_upper a then s else from_first_capital r
  end.

Definition title_case (s : string) : string :=
  match from_first_capital s with
  | EmptyString => EmptyString
  | String a r => String a (space_capitals r)
  end.

End Utils.

(** * Further sample objects *)

Module Examples.

Import FormInputs InputHooks InputVocabulary Samples.

(** A control whose widget has been created, in a document that holds its
    container. *)
Definition mounted (c : Input) (w : JsObject) : St := world (with_control (Some w) c).

Definition text_widget : JsObject := ej_new "TextBox" [("placeholder", PyStr "Title")].

Definition mounted_text : St := mounted (text_input PyNone) text_widget.

(** [DateInput(name='due', label='Due')] and its picker *)
Definition date_input : Input :=
  init DateInput (PyStr "due") (PyStr "Due") PyNone (PyBool true) "el" "box" "<input>".

Definition mounted_date : St :=
  mounted date_input (ej_new "DatePicker" [("placeholder", PyStr "Due")]).

(** The date picker after the user has picked 1970-01-02. *)
Definition picked_date : St := user_sets "value" (JsDate 86400000) mounted_date.




(** [TextInput(name='title', label='Title', enabled=False)], never shown *)
Definition disabled_text : St := world (with_enabled (PyBool false) (text_input PyNone)).

(** [DateTimeInput(name='at', label='At')] and its picker *)
Definition datetime_input : Input :=
  init DateTimeInput (PyStr "at") (PyStr "At") PyNone (PyBool true) "el" "box" "<input>".

Definition mounted_datetime : St :=
  mounted datetime_input (ej_new "DateTimePicker" [("placeholder", PyStr "At")]).

(** [SignatureInput(name='sign', label='Sign')] *)
Definition signature_input : Input :=
  init SignatureInput (PyStr "sign") (PyStr "Sign") PyNone (PyBool true)
       "el" "box" "<canvas>".

(** [InlineMessage(name='note')], shown *)
Definition message_input : Input :=
  init InlineMessage (PyStr "note") PyNone PyNone (PyBool true) "el" "box" "<div>".

Definition shown_message : St :=
  {| self := with_visible true message_input;
     document := {[ "box" := PyStr "<div>"; "el" := PyNone ]};
     calls := []; ids_made := 0%nat |}.

(** [RadioButtonInput(name='answer', options=['yes', 'no'])] *)
Definition radio_input : Input :=
  with_options
    [ {| opt_value := PyStr "yes"; opt_label := Some (PyStr "yes");
         opt_el_id := "q1"; opt_control := None |};
      {| opt_value := PyStr "no"; opt_label := Some (PyStr "no");
         opt_el_id := "q2"; opt_control := None |} ]
    (init RadioButtonInput (PyStr "answer") (PyStr "Answer") PyNone (PyBool true)
          "el" "box" "<div>").

(** [LookupInput(name='customer', label='Customer')] and its records *)
Definition lookup_input : Input :=
  init LookupInput (PyStr "customer") (PyStr "Customer") PyNone (PyBool true)
       "el" "box" "<input>".

Definition mounted_lookup : St :=
  mounted lookup_input (ej_new "DropDownList" [("placeholder", PyStr "Customer")]).

Definition ann : PyVal := PyDict [("uid", PyStr "c1"); ("name", PyStr "Ann")].
Definition bob : PyVal := PyDict [("uid", PyStr "c2"); ("name", PyStr "Bob")].

(** The objects with their hooks: no [on_change] unless said, and
    [text_field='name']. *)
Definition hooked (st : St) (on_change : PyVal) : Obj :=
  {| base := st; on_change := on_change; grid_data := PyNone; edit_el := PyNone;
     text_field := PyStr "name"; notified := []; s3_deleted := [] |}.

(** The cell of the column [title] in a row of the grid. *)
Definition title_cell : EditArgs :=
  {| column_field := "title"; rowData := [("uid", PyStr "r1"); ("title", PyStr "Hello")] |}.

(** An upload control that has recorded two files. *)
Definition report : Upload :=
  {| up_name := "report.pdf"; up_size := 10; up_type := "application/pdf";
     up_bucket := "files"; up_key := "t/1/report.pdf" |}.

Definition photo : Upload :=
  {| up_name := "photo.png"; up_size := 20; up_type := "image/png";
     up_bucket := "files"; up_key := "t/2/photo.png" |}.

Definition upload_input : Input :=
  with_value (PyList (map upload_entry [report; photo]))
    (init FileUploadInput (PyStr "files") (PyStr "Files") PyNone (PyBool true)
          "el" "box" "<input>").

Definition mounted_upload : St :=
  mounted upload_input (ej_new "Uploader" [("multiple", PyBool true)]).

(** The view configuration that the order grid derived from its model, and
    its columns from the key column on. *)
Definition order_view : list (string * PyVal) :=
  Eval vm_compute in match GridView.view_config order_grid with
                     | PyDict l => l
                     | _ => []
                     end.

Definition order_columns : list PyVal :=
  Eval vm_compute in match GridView.grid_columns order_grid with
                     | _ :: l => l
                     | [] => []
                     end.

(** The toolkit reports that the row of the order [o1] has been deleted,
    and the world that the handler leaves. *)
Definition delete_o1 : GridView.ActionArgs :=
  {| GridView.requestType := PyStr "delete"; GridView.type := PyStr "actionComplete";
     GridView.data := PyList [PyDict [("uid", PyStr "o1")]];
     GridView.rowData := PyNone |}.

Definition after_delete_o1 : GridView.World :=
  {| GridView.this := order_grid;
     GridView.store := delete "o1" (GridView.store order_world);
     GridView.events :=
       [GridView.Deleted {| GridView.uid := "o1";
                            GridView.row_fields := [("name", PyStr "first")] |}] |}.

End Examples.

(** * Properties of the form inputs *)

Module FormInputsFacts.

Import FormInputs Samples Examples.

(** ** Reasoning about method bodies *)

Lemma bind_Ok {S A B} (m : M S A) (k : A -> M S B) st b st' :
  bind m k st = Ok (b, st') ->
  exists a st1, m st = Ok (a, st1) /\ k a st1 = Ok (b, st').
Proof.
  unfold bind. destruct (m st) as [[a st1]|e]; [|discriminate].
  intros H. exists a, st1. split; [reflexivity|exact H].
Qed.

Lemma frame_refl st : frame st st.
Proof. repeat split; auto. Qed.

Lemma frame_trans a b c : frame a b -> frame b c -> frame a c.
Proof.
  intros (H1 & H2 & H3 & H4) (G1 & G2 & G3 & G4).
  repeat split; try congruence. auto.
Qed.

Lemma keeps_ret {A} (a : A) : keeps (ret a).
Proof. intros st x st' H. inversion H. apply frame_refl. Qed.

Lemma keeps_raise {A} e : keeps (@raise St A e).
Proof. intros st x st' H. discriminate. Qed.

Lemma keeps_bind {A B} (m : M St A) (k : A -> M St B) :
  keeps m -> (forall a, keeps (k a)) -> keeps (bind m k).
Proof.
  intros Hm Hk st b st' H. apply bind_Ok in H as (a & st1 & H1 & H2).
  eapply frame_trans; [eapply Hm | eapply Hk]; eauto.
Qed.

Lemma keeps_self_attr {A} (f : Input -> A) : keeps (self_attr f).
Proof. intros st x st' H. inversion H. apply frame_refl. Qed.

Lemma keeps_lift {A} (r : result A) : keeps (lift r).
Proof.
  intros st x st' H. unfold lift in H. destruct r; inversion H. apply frame_refl.
Qed.

Lemma keeps_getTime v : keeps (getTime v).
Proof. destruct v; first [apply keeps_ret | apply keeps_raise]. Qed.

Lemma keeps_with_value (f : Input -> PyVal) :
  keeps (set_self (fun c => with_value (f c) c)).
Proof. intros st x st' H. inversion H. repeat split; auto. Qed.

Lemma keeps_with_message v : keeps (set_self (with_message v)).
Proof. intros st x st' H. inversion H. repeat split; auto. Qed.

Lemma keeps_with_add_el_id v : keeps (set_self (with_add_el_id v)).
Proof. intros st x st' H. inversion H. repeat split; auto. Qed.

Lemma keeps_with_options (f : Input -> list RadioOption) :
  keeps (set_self (fun c => with_options (f c) c)).
Proof. intros st x st' H. inversion H. repeat split; auto. Qed.

Lemma keeps_control_set attr v : keeps (control_set attr v).
Proof.
  intros st x st' H. unfold control_set in H.
  destruct (_control (self st)) eqn:E; inversion H. repeat split; auto.
Qed.

Lemma keeps_control_get P attr : keeps (control_get P attr).
Proof.
  intros st x st' H. unfold control_get in H.
  destruct (_control (self st)); [|discriminate].
  destruct (js_get P g attr); inversion H. apply frame_refl.
Qed.

Lemma keeps_control_call m args : keeps (control_call m args).
Proof.
  intros st x st' H. unfold control_call in H.
  destruct (_control (self st)) eqn:E; inversion H. repeat split; auto.
Qed.

Lemma keeps_set_innerHTML i c d : keeps (set_innerHTML i c d).
Proof.
  intros st x st' H. unfold set_innerHTML in H.
  destruct (document st !! i); inversion H. repeat split; auto.
Qed.

Lemma keeps_new_el_id P : keeps (new_el_id P).
Proof. intros st x st' H. inversion H. repeat split; auto. Qed.

Lemma keeps_when b m : keeps m -> keeps (when b m).
Proof. intros H. destruct b; [exact H | apply keeps_ret]. Qed.

Lemma keeps_control_setter w : keeps (control_setter (Some w)).
Proof.
  intros st x st' H.
  unfold control_setter, bind, set_self, modify, self_attr, when, control_set in H.
  cbn in H. destruct (is_True (float_label (self st)));
    inversion H; repeat split; auto.
Qed.

Ltac keeps_step :=
  first
    [ apply keeps_control_setter
    | apply keeps_bind; [|intros ?]
    | apply keeps_ret | apply keeps_raise | apply keeps_self_attr
    | apply keeps_lift | apply keeps_getTime
    | apply (keeps_with_value (fun _ => _)) | apply keeps_with_value
    | apply keeps_with_message | apply keeps_with_options
    | apply keeps_with_add_el_id | apply keeps_new_el_id
    | apply keeps_control_set | apply keeps_control_get
    | apply keeps_control_call | apply keeps_set_innerHTML
    | apply keeps_when
    | match goal with
      | |- keeps (match ?x with _ => _ end) => destruct x
      | |- keeps (if ?b then _ else _) => destruct b
      end ].

Lemma keeps_value_set P v : keeps (value_set P v).
Proof.
  unfold value_set. apply keeps_bind; [apply keeps_self_attr|]. intros k.
  destruct k;
    unfold BaseInput_value_set, DateInput_value_set, DateTimeInput_value_set,
      TimeInput_value_set, CheckboxInput_value_set, RadioButtonInput_value_set,
      DropdownInput_value_set, LookupInput_value_set, SignatureInput_value_set,
      FileUploadInput_value_set, InlineMessage_value_set;
    repeat keeps_step.
Qed.

Lemma keeps_create_control P : keeps (create_control P).
Proof.
  unfold create_control. apply keeps_bind; [apply keeps_self_attr|]. intros c.
  destruct (cls c);
    unfold DropdownInput_create_control, LookupInput_create_control,
      RadioButtonInput_create_control, RadioButtonInput_value_set;
    repeat keeps_step.
Qed.

(** ** The enabled flag *)

Lemma enabled_set_result v st st' :
  enabled_set v st = Ok (tt, st') ->
  visible (self st') = visible (self st) /\ _enabled (self st') = v /\
  (control_is_not_None (self st) = true ->
   exists w', _control (self st') = Some w' /\
     w' !! fst (enabled_prop (cls (self st)) v)
       = Some (snd (enabled_prop (cls (self st)) v))).
Proof.
  destruct st as [c d l n]. destruct c. cbn.
  unfold enabled_set, bind, self_attr. cbn.
  destruct cls0;
    unfold BaseInput_enabled_set, CheckboxInput_enabled_set, bind, set_self,
      modify, self_attr, when, control_is_not_None, control_set; cbn;
    destruct _control0; intros H; inversion H; cbn;
    (split; [reflexivity | split; [reflexivity|]]); intros Hc; try discriminate;
    eexists; (split; [reflexivity | apply lookup_insert_eq]).
Qed.

(** Once shown, the controls with [BaseInput]'s getter read the cached flag
    back from the widget. *)
Lemma enabled_after_show (P : Platform) (v0 e : PyVal) :
  result_of ((run show P then enabled_get P)
               (world (init TextInput (PyStr "title") (PyStr "Title") v0 e
                         "el" "box" "<input>"))) = Ok e.
Proof. vm_compute. reflexivity. Qed.


(** ** Setting a value before the control is shown *)

(** The setter that [TextInput], [MultiLineInput] and [NumberInput] inherit
    does nothing at all while there is no widget. *)
Lemma BaseInput_value_set_without_widget (P : Platform) (st : St) (v : PyVal) :
  match cls (self st) with
  | BaseInput | TextInput | MultiLineInput | NumberInput => True
  | _ => False
  end ->
  _control (self st) = None ->
  value_set P v st = Ok (tt, st) /\ value_get P st = Ok (_value (self st), st).
Proof.
  intros Hk Hc.
  unfold value_set, value_get, bind, self_attr.
  destruct (cls (self st)); try contradiction;
    unfold BaseInput_value_set, BaseInput_value_get, bind, self_attr, when,
      control_is_not_None; cbn; rewrite Hc; cbn; split; reflexivity.
Qed.

(** The sibling setters do store the value first. *)
Lemma caching_value_set_without_widget (P : Platform) (st : St) (v : PyVal) :
  match cls (self st) with
  | CheckboxInput | DropdownInput | FileUploadInput => True
  | _ => False
  end ->
  _control (self st) = None ->
  (run value_set P v then value_get P) st = Ok (v, on_self (with_value v) st).
Proof.
  intros Hk Hc. destruct st as [c d l n]. destruct c. cbn in *. subst.
  destruct cls0; try contradiction; reflexivity.
Qed.

(** C1, at a text input that has never been shown: [value = v] followed by
    a read of [value] gives the value of the constructor, not [v]; the
    object is exactly as it was. *)
Theorem TextInput_value_set_before_show_is_lost (P : Platform) (v0 v : PyVal) :
  (run value_set P v then value_get P) (world (text_input v0))
  = Ok (v0, world (text_input v0)).
Proof. reflexivity. Qed.

(** The same slip seen through [hide(); show()]: a value set while the text
    input is visible reads back, but [show()] pushes the cache, which the
    setter left alone, so afterwards the read gives the value of the
    constructor again; the enabled flag survives. *)
Lemma TextInput_hide_show_loses_set_value (P : Platform) (v0 v e : PyVal) :
  let shown := run show P then run value_set P v then enabled_set e in
  result_of ((run shown then value_get P) (world (text_input v0))) = Ok v /\
  result_of ((run shown then run hide then run show P then value_get P)
               (world (text_input v0))) = Ok v0 /\
  result_of ((run shown then run hide then run show P then enabled_get P)
               (world (text_input v0))) = Ok e.
Proof. repeat split; vm_compute; reflexivity. Qed.

(** ** destroy() *)




(** A [show()] that returns from a control that is not visible and has no
    widget leaves it visible with a widget carrying the cached flag. *)
Lemma show_mounts (P : Platform) (st st' : St) :
  keeps_widget (cls (self st)) = true ->
  visible (self st) = false ->
  show P st = Ok (tt, st') ->
  visible (self st') = true /\ _enabled (self st') = _enabled (self st) /\
  exists w', _control (self st') = Some w' /\
    w' !! fst (enabled_prop (cls (self st)) (_enabled (self st)))
      = Some (snd (enabled_prop (cls (self st)) (_enabled (self st)))).
Proof.
  intros Hk Hv Hs.
  assert (Hshow : BaseInput_show P st = Ok (tt, st')).
  { revert Hs. unfold show, bind, self_attr. cbn.
    destruct (cls (self st)); try discriminate; auto. }
  clear Hs. unfold BaseInput_show in Hshow.
  apply bind_Ok in Hshow as (c & s0 & H0 & Hshow).
  inversion H0; subst c s0; clear H0.
  rewrite Hv in Hshow. cbn [negb when] in Hshow.
  apply bind_Ok in Hshow as (u1 & s1 & H1 & Hshow).
  apply bind_Ok in Hshow as (u2 & s2 & H2 & Hshow).
  apply bind_Ok in Hshow as (u3 & s3 & H3 & Hshow).
  apply bind_Ok in Hshow as (c1 & s4 & H4 & Hshow).
  inversion H4; subst c1 s4; clear H4.
  apply bind_Ok in Hshow as (u5 & s5 & H5 & Hshow).
  apply bind_Ok in Hshow as (u6 & s6 & H6 & Hshow).
  apply bind_Ok in Hshow as (c2 & s7 & H7 & Hshow).
  inversion H7; subst c2 s7; clear H7.
  apply keeps_set_innerHTML in H1.
  assert (F2 : frame s1 s2).
  { revert H2. apply keeps_when. apply keeps_create_control. }
  assert (C3 : control_is_not_None (self s3) = true /\ frame s2 s3).
  { split; [|eapply keeps_control_call; eauto].
    unfold control_call in H3. destruct (_control (self s2)) eqn:E; inversion H3.
    unfold control_is_not_None. cbn. rewrite E. reflexivity. }
  destruct C3 as [C3 F3].
  apply keeps_value_set in H5.
  inversion H6; subst u6 s6; clear H6.
  pose proof (frame_trans _ _ _ (frame_trans _ _ _ H1 F2) (frame_trans _ _ _ F3 H5))
    as (Fc & Fe & Fv & Fn).
  destruct H5 as (_ & _ & _ & Hn5).
  apply enabled_set_result in Hshow as (Gv & Ge & Gw).
  cbn in Gv, Ge, Gw.
  rewrite Fe in Ge, Gw. rewrite Fc in Gw.
  split; [exact Gv|]. split; [exact Ge|].
  apply Gw. apply Hn5. exact C3.
Qed.

Lemma create_control_plain (P : Platform) (st : St) :
  plain_value (self st) = true ->
  exists w, create_control P st = Ok (tt, on_self (with_control (Some w)) st).
Proof.
  destruct st as [c d l n]. destruct c. unfold plain_value. cbn. intros Hp.
  unfold create_control, bind, self_attr. cbn.
  destruct cls0; try discriminate; cbn.
  5: { unfold DropdownInput_create_control, bind, self_attr. cbn.
       destruct (py_eq select0 (PyStr "single"));
         [|destruct (py_eq select0 (PyStr "multi")); [|discriminate Hp]]. 
       all: unfold control_setter, bind, self_attr, set_self, modify, when, control_set; cbn.
       all: destruct (is_True float_label0); cbn; eexists; reflexivity. }
  all: unfold control_setter, bind, self_attr, set_self, modify, when, control_set; cbn.
  all: destruct (is_True float_label0); cbn; eexists; reflexivity.
Qed.

Lemma value_set_plain (P : Platform) (st : St) (w : JsObject) :
  plain_value (self st) = true ->
  _control (self st) = Some w ->
  exists w',
    value_set P (_value (self st)) st = Ok (tt, on_self (with_control (Some w')) st) /\
    forall p, value_prop (cls (self st)) = Some p -> w' !! p = Some (_value (self st)).
Proof.
  destruct st as [c d l n]. destruct c. unfold plain_value. cbn. intros Hp Hc. subst.
  unfold value_set, bind, self_attr. cbn.
  destruct cls0; try discriminate; cbn;
    unfold BaseInput_value_set, CheckboxInput_value_set, DropdownInput_value_set,
      FileUploadInput_value_set, bind, self_attr, set_self, modify, when, control_set; cbn;
    eexists; (split; [reflexivity|]); intros p Hp'; inversion Hp'; subst;
    apply lookup_insert_eq.
Qed.

Lemma value_get_plain (P : Platform) (st : St) (w : JsObject) :
  plain_value (self st) = true ->
  _control (self st) = Some w ->
  (forall p, value_prop (cls (self st)) = Some p -> w !! p = Some (_value (self st))) ->
  result_of (value_get P st) = Ok (_value (self st)).
Proof.
  destruct st as [c d l n]. destruct c. unfold plain_value. cbn. intros Hp Hc Hw. subst.
  unfold value_get, bind, self_attr. cbn.
  destruct cls0; try discriminate; cbn in *;
    unfold BaseInput_value_get, CheckboxInput_value_get, DropdownInput_value_get,
      FileUploadInput_value_get, bind, self_attr, set_self, modify, when, control_get, js_get;
    cbn; try rewrite (Hw _ eq_refl); cbn; try reflexivity.
  destruct (is_not_None _value0); reflexivity.
Qed.

Lemma enabled_set_mounted (v : PyVal) (st : St) (w : JsObject) :
  _control (self st) = Some w ->
  enabled_set v st =
  Ok (tt, on_self (with_control
                     (Some (<[fst (enabled_prop (cls (self st)) v)
                              := snd (enabled_prop (cls (self st)) v)]> w)))
            (on_self (with_enabled v) st)).
Proof.
  destruct st as [c d l n]. destruct c. cbn. intros Hc. subst.
  unfold enabled_set, bind, self_attr. cbn.
  destruct cls0; reflexivity.
Qed.


(** ** The check box *)

(** The setter writes the negated flag to the widget's [disabled]. *)
Lemma CheckboxInput_enabled_set_negates (st : St) (w : JsObject) (b : bool) :
  cls (self st) = CheckboxInput ->
  _control (self st) = Some w ->
  exists st' w', enabled_set (PyBool b) st = Ok (tt, st') /\
    _control (self st') = Some w' /\ w' !! "disabled" = Some (PyBool (negb b)).
Proof.
  intros Hk Hc. rewrite (enabled_set_mounted _ st w Hc). rewrite Hk. cbn.
  eexists. eexists. split; [reflexivity|]. split; [reflexivity|].
  apply lookup_insert_eq.
Qed.

(** The getter does not read [disabled]: whatever that flag is, a widget
    without a [disbled] property makes the read raise or come back [True]. *)
Lemma CheckboxInput_enabled_get_ignores_disabled (P : Platform) (st : St) (w : JsObject) :
  cls (self st) = CheckboxInput ->
  _control (self st) = Some w ->
  w !! "disbled" = None ->
  result_of (enabled_get P st) =
  match missing P with
  | RaisesAttributeError => Raise (AttributeError "JsProxy" "disbled")
  | YieldsNone => Ok (PyBool true)
  end.
Proof.
  destruct st as [c d l n]. destruct c. cbn. intros Hk Hc Hw. subst.
  unfold enabled_get, CheckboxInput_enabled_get, bind, self_attr, control_get, js_get.
  cbn. rewrite Hw. destruct (missing P); reflexivity.
Qed.

(** C7, at a check box that was shown and then disabled: the widget's
    [disabled] flag is set, and the [enabled] getter raises or gives [True]
    where the negation of the flag is [False]. *)
Theorem CheckboxInput_enabled_getter_misreads (P : Platform) :
  let st := state_after (run show P then enabled_set (PyBool false))
              (world checkbox_input) in
  (_control (self st) ≫= lookup "disabled") = Some (PyBool true) /\
  result_of (enabled_get P st) =
  match missing P with
  | RaisesAttributeError => Raise (AttributeError "JsProxy" "disbled")
  | YieldsNone => Ok (PyBool true)
  end.
Proof.
  split.
  - vm_compute. reflexivity.
  - destruct P as [lt mk fu [|] f1 f2 f3 f4 f5 f6]; vm_compute; reflexivity.
Qed.

(** ** The time picker *)

Lemma shown_time_ok : show utc (world time_input) = Ok (tt, shown_time).
Proof. vm_compute. reflexivity. Qed.

Lemma shown_time_cls : cls (self shown_time) = TimeInput.
Proof. vm_compute. reflexivity. Qed.

Lemma shown_time_control : exists w, _control (self shown_time) = Some w.
Proof.
  destruct (show_mounts utc (world time_input) shown_time eq_refl eq_refl shown_time_ok)
    as (_ & _ & w & Hw & _).
  exists w. exact Hw.
Qed.

Lemma clock_bounds h m s :
  clock h m s = true -> 0 <= h < 24 /\ 0 <= m < 60 /\ 0 <= s < 60.
Proof. unfold clock. lia. Qed.

(** The fields of a reading of the clock. *)
Lemma clock_reading_fields (d h m s : Z) :
  clock h m s = true ->
  let t := clock_reading d h m s in
  t / 86400 = d /\ t mod 86400 / 3600 = h /\ t mod 3600 / 60 = m /\ t mod 60 = s.
Proof.
  intros Hc. apply clock_bounds in Hc as (Hh & Hm & Hs).
  unfold clock_reading. repeat split; Z.div_mod_to_equations; lia.
Qed.

(** The clock fields of the timestamp that the setters hand to the widget,
    for a reading that the local clock shows. *)
Lemma clock_of_epoch (P : Platform) (d h m s : Z) :
  clock h m s = true ->
  on_local_clock P (clock_reading d h m s) = true ->
  let ms := strftime_s P d h m s * 1000 in
  getHours P ms = h /\ getMinutes P ms = m /\ getSeconds P ms = s.
Proof.
  intros Hc Hl ms. unfold getHours, getMinutes, getSeconds, ms, strftime_s.
  rewrite Z.div_mul by lia.
  unfold on_local_clock in Hl. apply Z.eqb_eq in Hl. rewrite Hl.
  destruct (clock_reading_fields d h m s Hc) as (_ & H1 & H2 & H3). auto.
Qed.

Lemma TimeInput_value_set_datetime (P : Platform) (st : St) (w : JsObject)
    (d h m s u : Z) :
  cls (self st) = TimeInput ->
  _control (self st) = Some w ->
  value_set P (PyDateTime d h m s u) st
  = Ok (tt, on_self (with_control
                       (Some (<["value" := JsDate (strftime_s P d h m s * 1000)]> w)))
              (on_self (with_value (PyDateTime d h m s u)) st)).
Proof.
  destruct st as [c dd l n]. destruct c. cbn. intros Hk Hc. subst. reflexivity.
Qed.

(** C8 as stated fails on the write path: setting 10:30:45 on a shown time
    control hands the widget a timestamp whose seconds are 45. *)
Lemma TimeInput_write_keeps_seconds :
  ~ drops_seconds_on_write utc shown_time (PyDateTime 0 10 30 45 0).
Proof.
  intros H. destruct shown_time_control as [w Hw].
  specialize (H _ _ _ (TimeInput_value_set_datetime utc shown_time w 0 10 30 45 0
                         shown_time_cls Hw) eq_refl (lookup_insert_eq _ _ _)).
  vm_compute in H. discriminate H.
Qed.

(** C8, amended: on a time control with a live widget, setting a date-time
    stores it as it is, seconds and date included, and hands the widget the
    whole-second timestamp that [strftime('%s')] makes of it, seconds
    included: where the local clock shows the date-time, the widget's
    hour, minute and second are those that were set.  The read that
    follows gives 1970-01-01 with the hour and minute of the widget and no
    seconds.  Without a widget the date-time that was set reads back as it
    is, seconds included. *)
Theorem TimeInput_seconds (P : Platform) (st : St) (d h m s u : Z) :
  cls (self st) = TimeInput ->
  (forall w, _control (self st) = Some w ->
     exists st1 w1 ms,
       value_set P (PyDateTime d h m s u) st = Ok (tt, st1) /\
       _value (self st1) = PyDateTime d h m s u /\
       _control (self st1) = Some w1 /\ w1 !! "value" = Some (JsDate ms) /\
       ms = strftime_s P d h m s * 1000 /\
       (clock h m s = true -> on_local_clock P (clock_reading d h m s) = true ->
        getHours P ms = h /\ getMinutes P ms = m /\ getSeconds P ms = s) /\
       result_of (value_get P st1)
       = Ok (PyDateTime 0 (getHours P ms) (getMinutes P ms) 0 0)) /\
  (_control (self st) = None ->
   (run value_set P (PyDateTime d h m s u) then value_get P) st
   = Ok (PyDateTime d h m s u, on_self (with_value (PyDateTime d h m s u)) st)).
Proof.
  intros Hk. split.
  - intros w Hc.
    eexists. exists (<["value" := JsDate (strftime_s P d h m s * 1000)]> w).
    exists (strftime_s P d h m s * 1000).
    split; [apply (TimeInput_value_set_datetime P st w); assumption|].
    destruct st as [c dd l n]. destruct c. cbn in Hk, Hc. subst.
    split; [reflexivity|]. split; [reflexivity|].
    split; [apply lookup_insert_eq|]. split; [reflexivity|].
    split; [intros Hclock Hl; apply clock_of_epoch; assumption|].
    unfold value_get, TimeInput_value_get, bind, self_attr, when, control_get, js_get,
      control_is_not_None, getTime, ret, set_self, modify.
    cbn -[getHours getMinutes strftime_s Z.mul].
    rewrite lookup_insert_eq. reflexivity.
  - intros Hc. destruct st as [c dd l n]. destruct c. cbn in Hk, Hc. subst. reflexivity.
Qed.

Lemma TimeInput_seconds_witness :
  cls (self shown_time) = TimeInput /\
  (exists w st1 w1 ms,
     _control (self shown_time) = Some w /\
     value_set utc (PyDateTime 0 10 30 45 0) shown_time = Ok (tt, st1) /\
     _value (self st1) = PyDateTime 0 10 30 45 0 /\
     _control (self st1) = Some w1 /\ w1 !! "value" = Some (JsDate ms) /\
     ms = 37845000 /\
     (getHours utc ms = 10 /\ getMinutes utc ms = 30 /\ getSeconds utc ms = 45) /\
     result_of (value_get utc st1) = Ok (PyDateTime 0 10 30 0 0)) /\
  (run value_set utc (PyDateTime 0 10 30 45 0) then value_get utc) (world time_input)
  = Ok (PyDateTime 0 10 30 45 0,
        on_self (with_value (PyDateTime 0 10 30 45 0)) (world time_input)).
Proof.
  split; [exact shown_time_cls|]. split.
  - destruct shown_time_control as [w Hw]. exists w.
    destruct (TimeInput_seconds utc shown_time 0 10 30 45 0 shown_time_cls)
      as [Hm _].
    destruct (Hm w Hw) as (st1 & w1 & ms & H1 & H2 & H3 & H4 & H5 & H6 & H7).
    exists st1, w1, ms. subst ms.
    split; [exact Hw|]. split; [exact H1|]. split; [exact H2|]. split; [exact H3|].
    split; [exact H4|]. split; [reflexivity|].
    split; [apply H6; reflexivity|]. exact H7.
  - apply (TimeInput_seconds utc (world time_input) 0 10 30 45 0 eq_refl). reflexivity.
Defined.

(** ** hide() and show() *)


Lemma show_is_BaseInput_show (P : Platform) (st : St) :
  keeps_widget (cls (self st)) = true -> show P st = BaseInput_show P st.
Proof.
  intros Hk. unfold show, bind, self_attr.
  destruct (cls (self st)); try discriminate Hk; reflexivity.
Qed.

Lemma hide_visible (st : St) (x : PyVal) :
  visible (self st) = true ->
  document st !! container_id (self st) = Some x ->
  hide st = Ok (tt, on_self (with_visible false)
                     (with_document
                        (<[container_id (self st) := PyStr ""]>
                           (foldr (fun i d => delete i d) (document st)
                              (declared_ids (self st)))) st)).
Proof.
  intros Hv Hd. unfold hide, bind, self_attr, when, clear_innerHTML, set_self, modify.
  cbn [id]. rewrite Hv, Hd. reflexivity.
Qed.

Lemma show_mounted (P : Platform) (st : St) (w : JsObject) (x : PyVal) :
  keeps_widget (cls (self st)) = true ->
  visible (self st) = false ->
  _control (self st) = Some w ->
  document st !! container_id (self st) = Some x ->
  show P st
  = (run value_set P (_value (self st)) then
     run set_self (with_visible true) then
     let* c2 := self_attr id in
     enabled_set (_enabled c2))
      (log_call "appendTo" [PyStr ("#" +:+ el_id (self st))]
         (with_document
            (<[container_id (self st) := PyStr (html (self st) +:+ shadow_label (self st))]>
               (foldr (fun i d => <[i := PyStr ""]> d) (document st)
                  (declared_ids (self st)))) st)).
Proof.
  intros Hk Hv Hc Hd. rewrite (show_is_BaseInput_show P st Hk).
  unfold BaseInput_show. unfold bind at 1, self_attr at 1. cbn [id].
  rewrite Hv. cbn [negb when].
  unfold bind at 1, set_innerHTML. rewrite Hd.
  unfold bind at 1. unfold control_is_not_None. rewrite Hc. cbn [negb when].
  unfold ret at 1.
  unfold bind at 1, control_call. cbn [self with_document]. rewrite Hc.
  unfold bind at 1, self_attr at 1. cbn [id self log_call with_document].
  reflexivity.
Qed.


Lemma date_roundtrip (P : Platform) (d : Z) :
  valid_day d = true -> midnight_falls_on P d = true ->
  date_fromtimestamp P (strftime_s P d 0 0 0 * 1000) = Ok (PyDate d).
Proof.
  intros Hv Hm. unfold date_fromtimestamp, strftime_s. rewrite Z.div_mul by lia.
  unfold midnight_falls_on in Hm. apply Z.eqb_eq in Hm. rewrite Hm, Hv. reflexivity.
Qed.

Lemma datetime_roundtrip (P : Platform) (d h m s : Z) :
  valid_day d = true ->
  clock h m s = true ->
  on_local_clock P (clock_reading d h m s) = true ->
  datetime_fromtimestamp P (strftime_s P d h m s * 1000) = Ok (PyDateTime d h m s 0).
Proof.
  intros Hv Hc Hl. unfold datetime_fromtimestamp, strftime_s. rewrite Z.div_mul by lia.
  rewrite Z.mod_mul by lia.
  unfold on_local_clock in Hl. apply Z.eqb_eq in Hl. rewrite Hl.
  destruct (clock_reading_fields d h m s Hc) as (H0 & H1 & H2 & H3).
  rewrite H0, H1, H2, H3, Hv. reflexivity.
Qed.

(** What [getDataByValue] gives depends on the data source and the field
    names of the widget only. *)
Lemma getDataByValue_ext (w w' : JsObject) (v : PyVal) :
  w' !! "dataSource" = w !! "dataSource" ->
  w' !! "fields" = w !! "fields" ->
  getDataByValue w' v = getDataByValue w v.
Proof. intros H1 H2. unfold getDataByValue. rewrite H1, H2. reflexivity. Qed.

Lemma finds_again_ext (select : PyVal) (w w' : JsObject) (v : PyVal) :
  w' !! "dataSource" = w !! "dataSource" ->
  w' !! "fields" = w !! "fields" ->
  finds_again select w v -> finds_again select w' v.
Proof.
  intros H1 H2 [H | [(Hs & u & Hu & Hn & Hf) | (Hs & items & -> & Hall)]].
  - left. exact H.
  - right. left. split; [exact Hs|]. exists u.
    rewrite (getDataByValue_ext w w' u H1 H2). auto.
  - right. right. split; [exact Hs|]. exists items. split; [reflexivity|].
    eapply Forall_impl; [exact Hall|]. intros item (u & Hu & Hf). exists u.
    rewrite (getDataByValue_ext w w' u H1 H2). auto.
Qed.

(** The uids of options that the widget finds again bring the options
    back. *)
Lemma uids_find_again (w : JsObject) (items : list PyVal) :
  Forall (fun item => exists u, getitem item "uid" = Ok u /\ getDataByValue w u = item)
    items ->
  exists us, comprehension getitem_uid items = Ok us /\ map (getDataByValue w) us = items.
Proof.
  induction 1 as [|item t (u & Hu & Hf) _ (us & Hus & Hmap)].
  - exists []. split; reflexivity.
  - exists (u :: us). cbn [comprehension]. unfold getitem_uid at 1. rewrite Hu.
    cbn [and_then]. rewrite Hus. cbn [and_then map]. rewrite Hf, Hmap.
    split; reflexivity.
Qed.

Lemma getitem_truthy (v : PyVal) (k : string) (x : PyVal) :
  getitem v k = Ok x -> truthy v = true.
Proof.
  destruct v; try discriminate. destruct d; [discriminate | reflexivity].
Qed.

Lemma lookup_cleared (P : Platform) (st : St) (w : JsObject) (v : PyVal) :
  cls (self st) = LookupInput ->
  _control (self st) = Some w ->
  _value (self st) = v ->
  truthy v = false ->
  pushed_and_read P st v.
Proof.
  destruct st as [c d l n]. destruct c. cbn. intros Hk Hc Hv Hf. subst.
  exists (<["value" := PyNone]> w), l. split.
  - unfold value_set, LookupInput_value_set, bind, self_attr, when, control_set,
      control_is_not_None. cbn -[truthy]. rewrite Hf. reflexivity.
  - intros w3 d3 l3 n3 vis3 e3 H1 _ _ _ _. rewrite lookup_insert_eq in H1.
    unfold value_get, LookupInput_value_get, bind, self_attr, when, control_get, js_get.
    cbn. rewrite H1. reflexivity.
Qed.

Lemma lookup_single (P : Platform) (st : St) (w : JsObject) (v u : PyVal) :
  cls (self st) = LookupInput ->
  _control (self st) = Some w ->
  _value (self st) = v ->
  py_eq (select (self st)) (PyStr "single") = true ->
  getitem v "uid" = Ok u -> is_not_None u = true -> getDataByValue w u = v ->
  pushed_and_read P st v.
Proof.
  destruct st as [c d l n]. destruct c. cbn. intros Hk Hc Hv Hs Hu Hn Hfound. subst cls0 _control0 _value0.
  exists (<["value" := u]> w), l. split.
  - unfold value_set, LookupInput_value_set, bind, self_attr, when, control_set,
      control_is_not_None, lift, getitem_uid. cbn -[truthy getitem].
    rewrite (getitem_truthy _ _ _ Hu), Hs, Hu. reflexivity.
  - intros w3 d3 l3 n3 vis3 e3 H1 _ _ H4 H5. rewrite lookup_insert_eq in H1.
    rewrite lookup_insert_ne in H4 by done. rewrite lookup_insert_ne in H5 by done.
    unfold value_get, LookupInput_value_get, bind, self_attr, when, control_get, js_get,
      set_self, modify.
    cbn -[getDataByValue]. rewrite H1. cbn -[getDataByValue]. rewrite Hn, Hs.
    cbn -[getDataByValue].
    rewrite (getDataByValue_ext w w3 u H4 H5), Hfound. reflexivity.
Qed.

Lemma lookup_multi (P : Platform) (st : St) (w : JsObject) (items : list PyVal) :
  cls (self st) = LookupInput ->
  _control (self st) = Some w ->
  _value (self st) = PyList items ->
  py_eq (select (self st)) (PyStr "single") = false ->
  Forall (fun item => exists u, getitem item "uid" = Ok u /\ getDataByValue w u = item)
    items ->
  pushed_and_read P st (PyList items).
Proof.
  intros Hk Hc Hv Hs Hall.
  destruct items as [|i t] eqn:Ei; [apply (lookup_cleared P st w); auto|]. rewrite <- Ei in *.
  assert (Ht : truthy (PyList items) = true) by (subst items; reflexivity). clear Ei.
  destruct (uids_find_again w items Hall) as (us & Hus & Hmap).
  destruct st as [c d l n]. destruct c. cbn in Hk, Hc, Hv, Hs. subst cls0 _control0 _value0.
  exists (<["value" := PyList us]> w), l. split.
  - unfold value_set, LookupInput_value_set, bind, self_attr, when, control_set,
      control_is_not_None, lift. cbn -[truthy comprehension].
    rewrite Ht, Hs. cbn -[comprehension]. rewrite Hus. reflexivity.
  - intros w3 d3 l3 n3 vis3 e3 H1 _ _ H4 H5. rewrite lookup_insert_eq in H1.
    rewrite lookup_insert_ne in H4 by done. rewrite lookup_insert_ne in H5 by done.
    unfold value_get, LookupInput_value_get, bind, self_attr, when, control_get, js_get,
      set_self, modify, lift.
    cbn -[getDataByValue]. rewrite H1. cbn -[getDataByValue]. rewrite Hs.
    cbn -[getDataByValue].
    rewrite (map_ext (getDataByValue w3) (getDataByValue w)
               (fun u => getDataByValue_ext w w3 u H4 H5)).
    rewrite Hmap. reflexivity.
Qed.

(** Pushing the cached value [v] into the widget, and reading it back. *)
Lemma value_set_domain (P : Platform) (st : St) (w : JsObject) (v : PyVal) :
  keeps_widget (cls (self st)) = true ->
  _control (self st) = Some w ->
  _value (self st) = v ->
  restorable P (self st) w v ->
  pushed_and_read P st v.
Proof.
  intros Hk Hc Hv [Hdom Hfind].
  destruct (cls (self st)) eqn:K; try discriminate Hk.
  9: { (* LookupInput *)
    destruct (Hfind eq_refl) as [Hf | [(Hs & u & Hu & Hn & Hfound) | (Hs & items & -> & Hall)]].
    - apply (lookup_cleared P st w); auto.
    - apply (lookup_single P st w v u); auto.
    - apply (lookup_multi P st w items); auto. }
  all: clear Hfind; destruct st as [c d l n]; destruct c; cbn in K, Hc, Hv, Hdom;
    subst cls0 v _control0.
  - (* TextInput *)
    exists (<["value" := _value0]> w), l. split; [reflexivity|].
    intros w3 d3 l3 n3 vis3 e3 H1 _ _ _ _. rewrite lookup_insert_eq in H1.
    unfold value_get, BaseInput_value_get, bind, self_attr, when, control_get, js_get.
    cbn. rewrite H1. reflexivity.
  - (* MultiLineInput *)
    exists (<["value" := _value0]> w), l. split; [reflexivity|].
    intros w3 d3 l3 n3 vis3 e3 H1 _ _ _ _. rewrite lookup_insert_eq in H1.
    unfold value_get, BaseInput_value_get, bind, self_attr, when, control_get, js_get.
    cbn. rewrite H1. reflexivity.
  - (* NumberInput *)
    exists (<["value" := _value0]> w), l. split; [reflexivity|].
    intros w3 d3 l3 n3 vis3 e3 H1 _ _ _ _. rewrite lookup_insert_eq in H1.
    unfold value_get, BaseInput_value_get, bind, self_attr, when, control_get, js_get.
    cbn. rewrite H1. reflexivity.
  - (* DateInput *)
    destruct _value0; try discriminate Hdom.
    + exists (<["value" := PyNone]> w), l. split; [reflexivity|].
      intros w3 d3 l3 n3 vis3 e3 H1 _ _ _ _. rewrite lookup_insert_eq in H1.
      unfold value_get, DateInput_value_get, bind, self_attr, when, control_get, js_get.
      cbn. rewrite H1. reflexivity.
    + apply andb_true_iff in Hdom as [Hvalid Hmid].
      exists (<["value" := JsDate (strftime_s P day 0 0 0 * 1000)]> w), l.
      split; [reflexivity|].
      intros w3 d3 l3 n3 vis3 e3 H1 _ _ _ _. rewrite lookup_insert_eq in H1.
      unfold value_get, DateInput_value_get, bind, self_attr, when, control_get, js_get,
        lift, getTime, ret, set_self, modify.
      cbn -[date_fromtimestamp strftime_s Z.mul]. rewrite H1.
      cbn -[date_fromtimestamp strftime_s Z.mul].
      rewrite (date_roundtrip P day Hvalid Hmid). reflexivity.
  - (* DateTimeInput *)
    destruct _value0; try discriminate Hdom.
    + exists (<["value" := PyNone]> w), l. split; [reflexivity|].
      intros w3 d3 l3 n3 vis3 e3 H1 _ _ _ _. rewrite lookup_insert_eq in H1.
      unfold value_get, DateTimeInput_value_get, bind, self_attr, when, control_get, js_get.
      cbn. rewrite H1. reflexivity.
    + apply andb_true_iff in Hdom as [Hdom Hl].
      apply andb_true_iff in Hdom as [Hdom Hu]. apply Z.eqb_eq in Hu.
      apply andb_true_iff in Hdom as [Hvalid Hclock]. subst.
      exists (<["value" := JsDate (strftime_s P day hour minute second * 1000)]> w), l.
      split; [reflexivity|].
      intros w3 d3 l3 n3 vis3 e3 H1 _ _ _ _. rewrite lookup_insert_eq in H1.
      unfold value_get, DateTimeInput_value_get, bind, self_attr, when, control_get, js_get,
        lift, getTime, ret, set_self, modify.
      cbn -[datetime_fromtimestamp strftime_s Z.mul]. rewrite H1.
      cbn -[datetime_fromtimestamp strftime_s Z.mul].
      rewrite (datetime_roundtrip P _ _ _ _ Hvalid Hclock Hl). reflexivity.
  - (* TimeInput *)
    destruct _value0; try discriminate Hdom.
    + exists (<["value" := PyNone]> w), l. split; [reflexivity|].
      intros w3 d3 l3 n3 vis3 e3 H1 _ _ _ _. rewrite lookup_insert_eq in H1.
      unfold value_get, TimeInput_value_get, bind, self_attr, when, control_get, js_get.
      cbn. rewrite H1. reflexivity.
    + apply andb_true_iff in Hdom as [Hdom Hl].
      apply andb_true_iff in Hdom as [Hdom Hu]. apply Z.eqb_eq in Hu.
      apply andb_true_iff in Hdom as [Hdom Hs]. apply Z.eqb_eq in Hs.
      apply andb_true_iff in Hdom as [Hd Hclock]. apply Z.eqb_eq in Hd. subst.
      destruct (clock_of_epoch P 0 hour minute 0 Hclock Hl) as (Eh & Em & _).
      exists (<["value" := JsDate (strftime_s P 0 hour minute 0 * 1000)]> w), l.
      split; [reflexivity|].
      intros w3 d3 l3 n3 vis3 e3 H1 _ _ _ _. rewrite lookup_insert_eq in H1.
      unfold value_get, TimeInput_value_get, bind, self_attr, when, control_get, js_get,
        getTime, ret, set_self, modify.
      cbn -[getHours getMinutes strftime_s Z.mul]. rewrite H1.
      cbn -[getHours getMinutes strftime_s Z.mul]. rewrite Eh, Em. reflexivity.
  - (* CheckboxInput *)
    exists (<["checked" := _value0]> w), l. split; [reflexivity|].
    intros w3 d3 l3 n3 vis3 e3 _ H1 _ _ _. rewrite lookup_insert_eq in H1.
    unfold value_get, CheckboxInput_value_get, bind, self_attr, when, control_get, js_get.
    cbn. rewrite H1. reflexivity.
  - (* DropdownInput *)
    exists (<["value" := _value0]> w), l. split; [reflexivity|].
    intros w3 d3 l3 n3 vis3 e3 H1 _ _ _ _. rewrite lookup_insert_eq in H1.
    unfold value_get, DropdownInput_value_get, bind, self_attr, when, control_get, js_get.
    cbn. rewrite H1. cbn. destruct (is_not_None _value0); reflexivity.
  - (* SignatureInput *)
    exists (<["signature" := _value0]> w), (("load", [_value0]) :: l).
    split; [unfold value_set, SignatureInput_value_set, bind, self_attr, set_self,
              modify, when, control_set, control_call, control_is_not_None;
            cbn -[is_not_None]; rewrite Hdom;
            reflexivity|].
    intros w3 d3 l3 n3 vis3 e3 _ _ H1 _ _. rewrite lookup_insert_eq in H1.
    unfold value_get, SignatureInput_value_get, bind, self_attr, control_call, set_self,
      modify. cbn. rewrite H1. reflexivity.
  - (* FileUploadInput *)
    exists w, l. split; [reflexivity|].
    intros. reflexivity.
Qed.

Lemma enabled_reads_flag (P : Platform) (st : St) (w : JsObject) (e : PyVal) :
  cls (self st) <> CheckboxInput ->
  _control (self st) = Some w ->
  w !! "enabled" = Some e ->
  result_of (enabled_get P st) = Ok e.
Proof.
  destruct st as [c d l n]. destruct c. cbn. intros Hk Hc Hw. subst.
  destruct cls0; try (exfalso; apply Hk; reflexivity);
    unfold enabled_get, BaseInput_enabled_get, bind, self_attr, control_is_not_None,
      control_get, js_get, set_self, modify; cbn; rewrite Hw; reflexivity.
Qed.

(** The rest of [show()] once the widget is attached: the cached value and
    flag go into the widget, and read back from it. *)
Lemma show_pushes_the_cache (P : Platform) (st : St) (w : JsObject) (v e : PyVal) :
  keeps_widget (cls (self st)) = true ->
  _control (self st) = Some w ->
  _value (self st) = v -> _enabled (self st) = e ->
  restorable P (self st) w v ->
  exists st' w',
    (run value_set P v then
     run set_self (with_visible true) then
     let* c2 := self_attr id in
     enabled_set (_enabled c2)) st = Ok (tt, st') /\
    visible (self st') = true /\
    result_of (value_get P st') = Ok v /\ _value (self st') = v /\
    _enabled (self st') = e /\
    _control (self st') = Some w' /\
    w' !! fst (enabled_prop (cls (self st)) e) = Some (snd (enabled_prop (cls (self st)) e)) /\
    (cls (self st) <> CheckboxInput -> result_of (enabled_get P st') = Ok e).
Proof.
  intros Hk Hc Hv He Hr.
  destruct (value_set_domain P st w v Hk Hc Hv Hr) as (w2 & l2 & Hset & Hget).
  unfold bind at 1. rewrite Hset.
  unfold bind at 1, set_self at 1, modify at 1.
  unfold bind at 1, self_attr at 1. cbn [id].
  match goal with
  | |- context [enabled_set ?e0 ?s0] => rewrite (enabled_set_mounted e0 s0 w2 eq_refl)
  end.
  eexists. eexists. split; [reflexivity|].
  cbn [on_self self with_visible with_control with_enabled visible _enabled _value cls
       _control].
  rewrite He.
  split; [reflexivity|].
  split.
  { apply (Hget _ _ _ _ true e); apply lookup_insert_ne; destruct (cls (self st)); done. }
  split; [exact Hv|]. split; [reflexivity|]. split; [reflexivity|].
  split; [apply lookup_insert_eq|].
  intros Hne. eapply enabled_reads_flag; [exact Hne | reflexivity |].
  cbn [on_self self with_visible with_control with_enabled _control].
  destruct (cls (self st)); try (exfalso; apply Hne; reflexivity); apply lookup_insert_eq.
Qed.



(** ** Showing a control that has no widget *)

Lemma creates_widget_keeps (c : Input) :
  creates_widget c = true -> keeps_widget (cls c) = true.
Proof. unfold creates_widget. destruct (cls c); intros H; try discriminate H; reflexivity. Qed.

(** [create_control] on a control that creates a widget: the widget is in
    [_control], a dropdown's or lookup's with the options and field names
    of the control, and what [show()] goes by afterwards is as before. *)
Lemma create_control_fresh (P : Platform) (st : St) :
  creates_widget (self st) = true ->
  exists w st1,
    create_control P st = Ok (tt, st1) /\
    _control (self st1) = Some w /\
    cls (self st1) = cls (self st) /\
    select (self st1) = select (self st) /\
    _value (self st1) = _value (self st) /\
    _enabled (self st1) = _enabled (self st) /\
    (cls (self st) = LookupInput ->
     w !! "dataSource" = Some (_options (self st)) /\
     w !! "fields" = Some (fields (self st))).
Proof.
  destruct st as [c d l n]. destruct c. unfold creates_widget. cbn. intros Hp.
  unfold create_control, bind, self_attr. cbn.
  destruct cls0; try discriminate Hp; cbn.
  8: { unfold DropdownInput_create_control, bind, self_attr. cbn.
       destruct (py_eq select0 (PyStr "single"));
         [|destruct (py_eq select0 (PyStr "multi")); [|discriminate Hp]].
       all: unfold control_setter, bind, self_attr, set_self, modify, when, control_set; cbn.
       all: destruct (is_True float_label0); cbn; eexists; eexists;
         (split; [reflexivity|]); cbn; do 5 (split; [reflexivity|]); discriminate. }
  8: { unfold LookupInput_create_control, DropdownInput_create_control, new_el_id,
         bind, self_attr. cbn.
       destruct (py_eq select0 (PyStr "single"));
         [|destruct (py_eq select0 (PyStr "multi")); [|discriminate Hp]].
       all: unfold control_setter, bind, self_attr, set_self, modify, when, control_set; cbn.
       all: destruct (is_True float_label0); cbn;
         destruct (is_not_None add_item_form0 || is_not_None add_item_model0); cbn;
         eexists; eexists; (split; [reflexivity|]); cbn;
         do 5 (split; [reflexivity|]); intros _; split; vm_compute; reflexivity. }
  all: unfold control_setter, bind, self_attr, set_self, modify, when, control_set; cbn.
  all: destruct (is_True float_label0); cbn; eexists; eexists;
    (split; [reflexivity|]); cbn; do 5 (split; [reflexivity|]); discriminate.
Qed.

(** [show()] on a control that is not visible and has no widget, in a
    document that holds its container: the widget is created, and the
    cached value and flag go into it and read back from it. *)
Lemma show_restores (P : Platform) (st : St) (x : PyVal) :
  visible (self st) = false ->
  _control (self st) = None ->
  document st !! container_id (self st) = Some x ->
  creates_widget (self st) = true ->
  restorable P (self st) (lookup_source (self st)) (_value (self st)) ->
  exists st' w',
    show P st = Ok (tt, st') /\
    visible (self st') = true /\
    result_of (value_get P st') = Ok (_value (self st)) /\
    _value (self st') = _value (self st) /\
    _enabled (self st') = _enabled (self st) /\
    _control (self st') = Some w' /\
    w' !! fst (enabled_prop (cls (self st)) (_enabled (self st)))
      = Some (snd (enabled_prop (cls (self st)) (_enabled (self st)))) /\
    (cls (self st) <> CheckboxInput ->
     result_of (enabled_get P st') = Ok (_enabled (self st))).
Proof.
  intros Hv Hc Hd Hcw [Hdom Hfind].
  pose proof (creates_widget_keeps _ Hcw) as Hk.
  rewrite (show_is_BaseInput_show P st Hk).
  unfold BaseInput_show. unfold bind at 1, self_attr at 1. cbn [id].
  rewrite Hv. cbn [negb when].
  unfold bind at 1, set_innerHTML. rewrite Hd.
  set (st1 := with_document _ st).
  unfold bind at 1. unfold control_is_not_None. rewrite Hc. cbn [negb when].
  destruct (create_control_fresh P st1 Hcw) as (w & s2 & Hcc & Hc2 & Hk2 & Hs2 & Hv2 & He2 & Hw).
  rewrite Hcc.
  unfold bind at 1, control_call. rewrite Hc2.
  unfold bind at 1, self_attr at 1. cbn [id].
  set (s3 := log_call _ _ s2).
  change (cls (self st1)) with (cls (self st)) in Hk2, Hw.
  change (select (self st1)) with (select (self st)) in Hs2.
  change (_value (self st1)) with (_value (self st)) in Hv2.
  change (_enabled (self st1)) with (_enabled (self st)) in He2.
  change (_options (self st1)) with (_options (self st)) in Hw.
  change (fields (self st1)) with (fields (self st)) in Hw.
  assert (Hr3 : restorable P (self s3) w (_value (self st))).
  { split; [change (cls (self s3)) with (cls (self s2)); rewrite Hk2; exact Hdom|].
    change (cls (self s3)) with (cls (self s2)).
    change (select (self s3)) with (select (self s2)). rewrite Hk2, Hs2.
    intros K. destruct (Hw K) as [Hw1 Hw2].
    apply (finds_again_ext _ (lookup_source (self st))); [| |exact (Hfind K)].
    - rewrite Hw1. reflexivity.
    - rewrite Hw2. unfold lookup_source. rewrite lookup_insert_ne by done.
      symmetry. apply lookup_singleton_eq. }
  change (_value (self s3)) with (_value (self s2)). rewrite Hv2.
  rewrite <- Hk2, <- He2.
  apply (show_pushes_the_cache P s3 w);
    [change (cls (self s3)) with (cls (self s2)); rewrite Hk2; exact Hk
    | exact Hc2 | exact Hv2 | reflexivity | exact Hr3].
Qed.





(** ** Reading the flag *)

Lemma enabled_set_cls (v : PyVal) (st st' : St) :
  enabled_set v st = Ok (tt, st') -> cls (self st') = cls (self st).
Proof.
  destruct st as [c d l n]. destruct c. cbn.
  unfold enabled_set, bind, self_attr. cbn.
  destruct cls0;
    unfold BaseInput_enabled_set, CheckboxInput_enabled_set, bind, set_self,
      modify, self_attr, when, control_is_not_None, control_set; cbn;
    destruct _control0; intros H; inversion H; reflexivity.
Qed.

(** C10 as stated fails on the radio buttons: they are shown, and the flag
    still reads [None]. *)
Lemma RadioButtonInput_flag_stays_unread :
  ~ flag_reads_once_shown utc (world radio_input).
Proof.
  intros H.
  specialize (H (state_after (show utc) (world radio_input))).
  assert (E : show utc (world radio_input)
              = Ok (tt, state_after (show utc) (world radio_input)))
    by (vm_compute; reflexivity).
  specialize (H E). vm_compute in H. discriminate H.
Qed.

Lemma show_keeps_cls (P : Platform) (st st' : St) :
  keeps_widget (cls (self st)) = true ->
  visible (self st) = false ->
  show P st = Ok (tt, st') ->
  cls (self st') = cls (self st).
Proof.
  intros Hk Hv Hs.
  rewrite (show_is_BaseInput_show P st Hk) in Hs. unfold BaseInput_show in Hs.
  apply bind_Ok in Hs as (c & s0 & H0 & Hs). inversion H0; subst c s0; clear H0.
  rewrite Hv in Hs. cbn [negb when] in Hs.
  apply bind_Ok in Hs as (u1 & s1 & H1 & Hs).
  apply bind_Ok in Hs as (u2 & s2 & H2 & Hs).
  apply bind_Ok in Hs as (u3 & s3 & H3 & Hs).
  apply bind_Ok in Hs as (c1 & s4 & H4 & Hs). inversion H4; subst c1 s4; clear H4.
  apply bind_Ok in Hs as (u5 & s5 & H5 & Hs).
  apply bind_Ok in Hs as (u6 & s6 & H6 & Hs).
  apply bind_Ok in Hs as (c2 & s7 & H7 & Hs). inversion H7; subst c2 s7; clear H7.
  apply keeps_set_innerHTML in H1 as (F1 & _).
  assert (F2 : frame s1 s2).
  { revert H2. apply keeps_when. apply keeps_create_control. }
  destruct F2 as (F2 & _).
  apply keeps_control_call in H3 as (F3 & _).
  apply keeps_value_set in H5 as (F5 & _).
  inversion H6; subst u6 s6; clear H6.
  apply enabled_set_cls in Hs. cbn in Hs. congruence.
Qed.

(** C10, amended: with no live widget, reading [enabled] gives [None]
    whatever flag is cached, and changes nothing.  On a control that was not
    visible, of a class that keeps its widget in [_control], other than the
    check box, the cached flag reads again after every [show()] that
    returns; and [show()] does return where the document holds the
    container, the control creates a widget and the cached value is one
    that the widget hands back. *)
Theorem enabled_is_None_until_shown (P : Platform) (st : St) :
  _control (self st) = None ->
  enabled_get P st = Ok (PyNone, st) /\
  (keeps_widget (cls (self st)) = true ->
   cls (self st) <> CheckboxInput ->
   visible (self st) = false ->
   (forall st', show P st = Ok (tt, st') ->
      result_of (enabled_get P st') = Ok (_enabled (self st))) /\
   (is_Some (document st !! container_id (self st)) ->
    creates_widget (self st) = true ->
    restorable P (self st) (lookup_source (self st)) (_value (self st)) ->
    exists st', show P st = Ok (tt, st') /\
      result_of (enabled_get P st') = Ok (_enabled (self st)))).
Proof.
  intros H. split.
  - unfold enabled_get, bind, self_attr.
    destruct (cls (self st));
      unfold BaseInput_enabled_get, CheckboxInput_enabled_get, bind, self_attr,
        control_is_not_None; cbn; rewrite H; reflexivity.
  - intros Hk Hne Hv.
    assert (Hall : forall st', show P st = Ok (tt, st') ->
                     result_of (enabled_get P st') = Ok (_enabled (self st))).
    { intros st' Hs.
      destruct (show_mounts P st st' Hk Hv Hs) as (_ & _ & w' & Hw' & Hflag).
      pose proof (show_keeps_cls P st st' Hk Hv Hs) as Hcls.
      apply (enabled_reads_flag P st' w'); [rewrite Hcls; exact Hne | exact Hw' |].
      destruct (cls (self st)); try (exfalso; apply Hne; reflexivity); exact Hflag. }
    split; [exact Hall|].
    intros [x Hd] Hcw Hr.
    destruct (show_restores P st x Hv H Hd Hcw Hr) as (st' & w' & Hs & _).
    exists st'. split; [exact Hs | exact (Hall st' Hs)].
Qed.

Lemma enabled_is_None_until_shown_witness :
  _enabled (self disabled_text) = PyBool false /\
  enabled_get utc disabled_text = Ok (PyNone, disabled_text) /\
  exists st', show utc disabled_text = Ok (tt, st') /\
    result_of (enabled_get utc st') = Ok (PyBool false).
Proof.
  destruct (enabled_is_None_until_shown utc disabled_text eq_refl) as [H1 H2].
  split; [reflexivity|]. split; [exact H1|].
  destruct H2 as [_ H3]; [reflexivity | discriminate | reflexivity |].
  apply H3.
  - exists (PyStr ""). reflexivity.
  - reflexivity.
  - split; [reflexivity | discriminate].
Defined.
End FormInputsFacts.

(** * Properties of the grid view *)

Module GridViewFacts.

Import GridView Samples.

(** ** The columns of a grid view *)

Ltac inv_ok H :=
  repeat
    match type of H with
    | and_then ?r _ = Ok _ =>
        let E := fresh "E" in
        destruct r eqn:E; [cbn [and_then] in H | discriminate H]
    | (if ?b then _ else _) = Ok _ => let E := fresh "E" in destruct b eqn:E
    | match ?x with _ => _ end = Ok _ =>
        let E := fresh "E" in destruct x eqn:E; try discriminate H
    | Raise _ = Ok _ => discriminate H
    end.

Lemma grid_column_of_not_key P env m column c :
  grid_column_of P env m column = Ok (Some c) -> is_primary_key c = false.
Proof.
  unfold grid_column_of. intros H. inv_ok H.
  all: inversion H; reflexivity.
Qed.

Lemma append_grid_columns_spec P env m cols : forall acc gc,
  append_grid_columns P env m cols acc = Ok gc ->
  exists derived, gc = (acc ++ derived)%list /\
    Forall (fun c => exists column, column ∈ cols /\
                       grid_column_of P env m column = Ok (Some c)) derived.
Proof.
  induction cols as [|column rest IH]; intros acc gc H; cbn in H.
  - inversion H. exists []. split; [symmetry; apply app_nil_r | constructor].
  - destruct (grid_column_of P env m column) as [[g|]|e] eqn:E; cbn in H;
      [| |discriminate H].
    + apply IH in H as (derived & -> & Hd).
      exists (g :: derived). split; [rewrite <- app_assoc; reflexivity|].
      constructor.
      * exists column. split; [left | exact E].
      * eapply Forall_impl; [exact Hd|]. intros c (col & Hin & Hc).
        exists col. split; [right; exact Hin | exact Hc].
    + apply IH in H as (derived & -> & Hd).
      exists derived. split; [reflexivity|].
      eapply Forall_impl; [exact Hd|]. intros c (col & Hin & Hc).
      exists col. split; [right; exact Hin | exact Hc].
Qed.

Lemma init_columns P env cid title model view_name view_config sq fl gm ti gv :
  __init__ P env cid title model view_name view_config sq fl gm ti = Ok gv ->
  exists vc gc (selection : bool),
    resolve_view_config P env model view_name view_config = Ok (vc, GridView.model gv) /\
    build_grid_columns P env (GridView.model gv) vc = Ok gc /\
    grid_columns gv = (if selection then checkbox_column :: gc else gc) /\
    columns (grid gv) = grid_columns gv.
Proof.
  unfold __init__. intros H.
  destruct (resolve_view_config P env model view_name view_config) as [[vc mname]|] eqn:R;
    [cbn [and_then fst snd] in H | discriminate H].
  destruct (build_grid_columns P env mname vc) as [gc|] eqn:B;
    [cbn [and_then] in H | discriminate H].
  inv_ok H.
  all: inversion H; subst; cbn.
  all: eexists; eexists; eexists; (split; [reflexivity|]); (split; [exact B|]);
       split; reflexivity.
Qed.

Lemma uid_column_is_key : is_primary_key uid_column = true.
Proof. reflexivity. Qed.

(** C9: whatever the constructor was given, the column list of a grid view
    that it returns holds the hidden [uid] column, marked as primary key,
    not visible and of width 0, with nothing before it but the selection
    check box when that mode is on and all the columns made from the view
    after it; it is the only column marked as primary key, and the toolkit
    grid takes [uid] as its key. *)
Theorem uid_column_precedes_schema_columns
    P env cid title model view_name view_config sq fl gm ti gv :
  __init__ P env cid title model view_name view_config sq fl gm ti = Ok gv ->
  exists before derived,
    grid_columns gv = (before ++ uid_column :: derived)%list /\
    (before = [] \/ before = [checkbox_column]) /\
    Forall (fun c => exists column,
              grid_column_of P env (GridView.model gv) column = Ok (Some c)) derived /\
    length (filter (fun c => is_primary_key c = true) (grid_columns gv)) = 1%nat /\
    columns (grid gv) = grid_columns gv /\
    primary_key (grid gv) = Some (PyStr "uid") /\
    getitem uid_column "visible" = Ok (PyBool false) /\
    getitem uid_column "width" = Ok (PyStr "0px").
Proof.
  intros H. apply init_columns in H as (vc & gc & selection & _ & B & Hc & Hg).
  unfold build_grid_columns in B.
  destruct (getitem vc "columns") as [cols|] eqn:E1; [cbn [and_then] in B | discriminate B].
  destruct (py_iter cols) as [l|] eqn:E2; [cbn [and_then] in B | discriminate B].
  apply append_grid_columns_spec in B as (derived & -> & Hd).
  assert (Hnk : Forall (fun c => is_primary_key c = false) derived).
  { eapply Forall_impl; [exact Hd|]. intros c (col & _ & Hcol).
    eapply grid_column_of_not_key; exact Hcol. }
  assert (Hf : filter (fun c => is_primary_key c = true) derived = []).
  { clear -Hnk. induction Hnk as [|c t Hc _ IH]; [reflexivity|].
    rewrite filter_cons_False; [exact IH | rewrite Hc; discriminate]. }
  exists (if selection then [checkbox_column] else []), derived.
  split; [rewrite Hc; destruct selection; reflexivity|].
  split; [destruct selection; auto|].
  split; [eapply Forall_impl; [exact Hd|]; intros c (col & _ & Hcol); eauto|].
  split.
  { rewrite Hc. destruct selection; cbn [app].
    - rewrite filter_cons_False by (cbn; discriminate).
      rewrite filter_cons_True by reflexivity. rewrite Hf. reflexivity.
    - rewrite filter_cons_True by reflexivity. rewrite Hf. reflexivity. }
  split; [exact Hg|].
  split; [|split; reflexivity].
  unfold primary_key. rewrite Hg, Hc. destruct selection; reflexivity.
Qed.

Lemma order_grid_ok :
  __init__ utc app_env (PyStr "box") None (PyStr "Order")
    PyNone PyNone PyNone PyNone PyNone PyNone = Ok order_grid.
Proof. vm_compute. reflexivity. Qed.

Lemma uid_column_precedes_schema_columns_witness :
  exists before derived,
    grid_columns order_grid = (before ++ uid_column :: derived)%list /\
    (before = [] \/ before = [checkbox_column]) /\
    Forall (fun c => exists column,
              grid_column_of utc app_env (GridView.model order_grid) column
              = Ok (Some c)) derived /\
    length (filter (fun c => is_primary_key c = true) (grid_columns order_grid)) = 1%nat /\
    columns (grid order_grid) = grid_columns order_grid /\
    primary_key (grid order_grid) = Some (PyStr "uid") /\
    getitem uid_column "visible" = Ok (PyBool false) /\
    getitem uid_column "width" = Ok (PyStr "0px").
Proof.
  apply (uid_column_precedes_schema_columns utc app_env (PyStr "box") None (PyStr "Order")
           PyNone PyNone PyNone PyNone PyNone PyNone order_grid).
  vm_compute. reflexivity.
Defined.

(** The columns derived for the model alone: one per attribute, one per
    computed attribute, and [customer.name] for the relationship. *)
Lemma auto_derived_columns :
  getitem (view_config order_grid) "columns"
  = Ok (PyList [PyDict [("name", PyStr "name"); ("label", PyStr "name")];
                PyDict [("name", PyStr "amount"); ("label", PyStr "amount")];
                PyDict [("name", PyStr "total"); ("label", PyStr "total")];
                PyDict [("name", PyStr "customer.name"); ("label", PyStr "customer")]]).
Proof. vm_compute. reflexivity. Qed.

(** An explicit view without the selection mode, and the same view stored
    under a name: the key column comes first. *)
Lemma explicit_view_columns :
  grid_columns (constructed
    (__init__ utc app_env (PyStr "box") None PyNone PyNone names_view
       PyNone PyNone PyNone PyNone))
  = [uid_column;
     PyDict [("field", PyStr "name"); ("headerText", PyStr "Name");
             ("type", PyStr "string"); ("format", PyNone);
             ("displayAsCheckBox", PyBool false); ("textAlign", PyStr "Left");
             ("customAttributes", PyDict [("class", PyStr "align-top")]);
             ("width", PyInt 150)]].
Proof. vm_compute. reflexivity. Qed.

Lemma stored_view_columns :
  __init__ utc stored_env (PyStr "box") None PyNone (PyStr "names") PyNone
    PyNone PyNone PyNone PyNone
  = __init__ utc app_env (PyStr "box") None PyNone PyNone names_view
      PyNone PyNone PyNone PyNone.
Proof. vm_compute. reflexivity. Qed.

(** ** Resolving field paths *)

(** C4 as stated fails: a name that is on the model in no way resolves to
    the pair of [None] and the name, and nothing is raised. *)
Lemma unresolved_name_is_returned :
  get_model_attribute (data_models app_env) 1000 "Order" "nosuch"
    = Ok (None, Name "nosuch") /\
  ~ resolution_fails (data_models app_env) 1000 "Order" "nosuch".
Proof.
  assert (E : get_model_attribute (data_models app_env) 1000 "Order" "nosuch"
              = Ok (None, Name "nosuch")) by (vm_compute; reflexivity).
  split; [exact E|]. intros [e H]. rewrite E in H. discriminate H.
Qed.

(** The resolver itself raises only for a class that does not exist or when
    the recursion runs out; neither names the field. *)
Lemma get_model_attribute_raises dm depth : forall cname attr_name e,
  get_model_attribute dm depth cname attr_name = Raise e ->
  e = RecursionError \/ exists c, e = AttributeError "data_models" c.
Proof.
  induction depth as [|depth IH]; intros cname attr_name e H; cbn in H.
  - inversion H. left. reflexivity.
  - destruct (dm !! cname) as [cls|]; [|inversion H; right; eauto].
    set (n := if String.eqb attr_name "_title" then _title cls else attr_name) in H.
    destruct (assoc n (_attributes cls)); [discriminate H|].
    destruct (assoc n (_computes cls)); [discriminate H|].
    destruct (has_dot n); [|discriminate H].
    destruct (assoc (hd "" (split_dot n)) (_attributes cls)); [discriminate H|].
    destruct (assoc (hd "" (split_dot n)) (_relationships cls)) as [r|]; [|discriminate H].
    destruct (get_model_attribute dm depth (class_name r) (join_dot (tl (split_dot n))))
      as [[a x]|e'] eqn:E; [discriminate H|].
    inversion H; subst. eapply IH; exact E.
Qed.

(** An unresolved segment further down the path comes back as [None] through
    the relationship step above it. *)
Lemma unresolved_tail_is_returned dm depth cname attr_name cls r x :
  dm !! cname = Some cls ->
  let n := if String.eqb attr_name "_title" then _title cls else attr_name in
  assoc n (_attributes cls) = None ->
  assoc n (_computes cls) = None ->
  has_dot n = true ->
  assoc (hd "" (split_dot n)) (_attributes cls) = None ->
  assoc (hd "" (split_dot n)) (_relationships cls) = Some r ->
  get_model_attribute dm depth (class_name r) (join_dot (tl (split_dot n))) = Ok (None, x) ->
  get_model_attribute dm (S depth) cname attr_name = Ok (None, Segments (split_dot n)).
Proof.
  intros Hc n Ha Hp Hd Hs Hr Hrec. cbn. rewrite Hc. fold n.
  rewrite Ha, Hp, Hd, Hs, Hr, Hrec. reflexivity.
Qed.

(** C4, amended: when the name, and its first segment, is neither an
    attribute, a computed attribute nor a relationship of the class, the
    resolver raises nothing and returns [None] with the name, split at the
    dots if it has any; the loop of the constructor then fails for that
    column on [col_attr.field_type], an [AttributeError] on [None] that
    does not name the field. *)
Theorem unresolved_path_yields_None (P : Platform) (env : AppEnv) (depth : nat)
    (cname attr_name : string) (cls : ModelClass) (column : list (string * PyVal))
    (header : PyVal) :
  data_models env !! cname = Some cls ->
  recursion_limit P = S depth ->
  let n := if String.eqb attr_name "_title" then _title cls else attr_name in
  assoc n (_attributes cls) = None ->
  assoc n (_computes cls) = None ->
  assoc (hd "" (split_dot n)) (_attributes cls) = None ->
  assoc (hd "" (split_dot n)) (_relationships cls) = None ->
  assoc "name" column = Some (PyStr attr_name) ->
  assoc "label" column = Some header ->
  truthy (default (PyBool false) (assoc "row_action" column)) = false ->
  get_model_attribute (data_models env) (S depth) cname attr_name
    = Ok (None, if has_dot n then Segments (split_dot n) else Name n) /\
  grid_column_of P env cname (PyDict column)
    = Raise (AttributeError "NoneType" "field_type").
Proof.
  intros Hc Hl n Ha Hp Hs Hr Hname Hlabel Hra.
  assert (E : get_model_attribute (data_models env) (S depth) cname attr_name
              = Ok (None, if has_dot n then Segments (split_dot n) else Name n)).
  { cbn. rewrite Hc. fold n. rewrite Ha, Hp.
    destruct (has_dot n); [rewrite Hs, Hr|]; reflexivity. }
  split; [exact E|].
  unfold grid_column_of, dict_get, getitem. cbn [and_then].
  rewrite Hra, Hname. cbn [and_then as_str]. rewrite Hl, E. cbn [and_then].
  rewrite Hlabel. reflexivity.
Qed.

Lemma unresolved_path_yields_None_witness :
  get_model_attribute (data_models app_env) 1000 "Order" "nosuch.name"
    = Ok (None, Segments ["nosuch"; "name"]) /\
  grid_column_of utc app_env "Order"
      (PyDict [("name", PyStr "nosuch.name"); ("label", PyStr "No such")])
    = Raise (AttributeError "NoneType" "field_type").
Proof.
  apply (unresolved_path_yields_None utc app_env 999 "Order" "nosuch.name" Order
           [("name", PyStr "nosuch.name"); ("label", PyStr "No such")] (PyStr "No such"));
    vm_compute; reflexivity.
Defined.

(** ** Patching a row back *)

Lemma replace_first_length {A} (p : A -> bool) x l :
  length (replace_first p x l) = length l.
Proof.
  induction l as [|y t IH]; cbn; [reflexivity|].
  destruct (p y); cbn; [reflexivity | rewrite IH; reflexivity].
Qed.

Lemma replace_first_spec {A} (p : A -> bool) x l :
  (Forall (fun r => p r = false) l /\ replace_first p x l = l) \/
  (exists before old after,
     l = (before ++ old :: after)%list /\
     Forall (fun r => p r = false) before /\
     p old = true /\
     replace_first p x l = (before ++ x :: after)%list).
Proof.
  induction l as [|y t IH]; cbn.
  - left. split; [constructor | reflexivity].
  - destruct (p y) eqn:E.
    + right. exists [], y, t. repeat split; [constructor | exact E].
    + destruct IH as [[Hall Heq] | (before & old & after & -> & Hb & Ho & Heq)].
      * left. split; [constructor; assumption | rewrite Heq; reflexivity].
      * right. exists (y :: before), old, after.
        split; [reflexivity|]. split; [constructor; assumption|].
        split; [exact Ho|]. rewrite Heq. reflexivity.
Qed.

(** C2: [update_grid(record, True)] puts the row view of the record on top
    of the grid's rows, which are otherwise as they were, so there is
    exactly one row more; [update_grid(record, False)] keeps the number of
    rows and puts the row view in the place of the first row whose [uid] is
    the record's, every other row staying what and where it was. *)
Theorem update_grid_patches_one_row
    (get_row_view : DbRow -> PyVal -> PyVal) (w : World) (data_row : DbRow)
    (cols : PyVal) :
  getitem (view_config (this w)) "columns" = Ok cols ->
  primary_key (grid (this w)) = Some (PyStr "uid") ->
  getitem (get_row_view data_row cols) "uid" = Ok (PyStr (uid data_row)) ->
  let grid_row := get_row_view data_row cols in
  let rows := dataSource (grid (this w)) in
  (exists w',
     update_grid get_row_view data_row (PyBool true) w = Ok (tt, w') /\
     dataSource (grid (this w')) = grid_row :: rows /\
     length (dataSource (grid (this w'))) = S (length rows) /\
     store w' = store w) /\
  (exists w',
     update_grid get_row_view data_row (PyBool false) w = Ok (tt, w') /\
     length (dataSource (grid (this w'))) = length rows /\
     patched (PyStr (uid data_row)) grid_row rows (dataSource (grid (this w'))) /\
     store w' = store w).
Proof.
  intros Hcols Hpk Huid grid_row rows. subst grid_row rows.
  destruct w as [v s ev]. destruct v. destruct grid0. cbn -[getitem] in *.
  unfold update_grid, bind, get, lift. cbn -[getitem]. rewrite Hcols.
  split.
  - eexists. split; [reflexivity|]. cbn. repeat split.
  - cbn -[getitem]. rewrite Huid.
    unfold on_grid, modify, setRowData. cbn -[getitem]. rewrite Hpk. cbn.
    eexists. split; [reflexivity|]. cbn.
    split; [apply replace_first_length|].
    split; [|reflexivity].
    apply replace_first_spec.
Qed.

Lemma update_grid_patches_one_row_witness :
  let r := {| uid := "o1"; row_fields := [("name", PyStr "renamed")] |} in
  primary_key (grid (this listed_orders)) = Some (PyStr "uid") /\
  (exists w',
     update_grid row_view r (PyBool true) listed_orders = Ok (tt, w') /\
     dataSource (grid (this w')) = row_view r PyNone :: listed_rows /\
     length (dataSource (grid (this w'))) = 4%nat /\
     store w' = store listed_orders) /\
  (exists w',
     update_grid row_view r (PyBool false) listed_orders = Ok (tt, w') /\
     length (dataSource (grid (this w'))) = 3%nat /\
     patched (PyStr "o1") (row_view r PyNone) listed_rows (dataSource (grid (this w'))) /\
     dataSource (grid (this w'))
     = [PyDict [("uid", PyStr "o2"); ("name", PyStr "second")];
        PyDict [("uid", PyStr "o1"); ("name", PyStr "renamed")];
        PyDict [("uid", PyStr "o3"); ("name", PyStr "third")]] /\
     store w' = store listed_orders).
Proof.
  intros r.
  assert (Hpk : primary_key (grid (this listed_orders)) = Some (PyStr "uid"))
    by (vm_compute; reflexivity).
  split; [exact Hpk|].
  destruct (update_grid_patches_one_row row_view listed_orders r
              (PyList [PyDict [("name", PyStr "name"); ("label", PyStr "name")];
                       PyDict [("name", PyStr "amount"); ("label", PyStr "amount")];
                       PyDict [("name", PyStr "total"); ("label", PyStr "total")];
                       PyDict [("name", PyStr "customer.name"); ("label", PyStr "customer")]]))
    as [(wa & Ha1 & Ha2 & Ha3 & Ha4) (wr & Hr1 & Hr2 & Hr3 & Hr4)].
  - vm_compute. reflexivity.
  - exact Hpk.
  - reflexivity.
  - split.
    + exists wa. split; [exact Ha1|]. split; [exact Ha2|]. split; [exact Ha3 | exact Ha4].
    + exists wr. split; [exact Hr1|]. split; [exact Hr2|]. split; [exact Hr3|].
      split; [|exact Hr4].
      vm_compute in Hr1. injection Hr1 as <-. reflexivity.
Defined.

(** ** Deleting the selected rows *)

Lemma deleted_rows_spec uids : forall (s : gmap string (list (string * PyVal))) r,
  r ∈ deleted_rows s uids <-> uid r ∈ uids /\ s !! uid r = Some (row_fields r).
Proof.
  induction uids as [|u t IH]; intros s r; cbn.
  - split; [intros H; inversion H | intros [H _]; inversion H].
  - destruct (s !! u) as [f|] eqn:E.
    + rewrite elem_of_cons, IH, elem_of_cons. split.
      * intros [-> | [Hin Hl]]; cbn.
        -- split; [left; reflexivity | exact E].
        -- destruct (decide (u = uid r)) as [->|Hne].
           ++ rewrite lookup_delete_eq in Hl. discriminate Hl.
           ++ rewrite lookup_delete_ne in Hl by exact Hne. split; [right|]; assumption.
      * intros [[Heq | Hin] Hl].
        -- left. destruct r as [ru rf]. cbn in *. subst ru.
           rewrite E in Hl. inversion Hl. reflexivity.
        -- destruct (decide (u = uid r)) as [Heq|Hne].
           ++ left. destruct r as [ru rf]. cbn in *. subst ru.
              rewrite E in Hl. inversion Hl. reflexivity.
           ++ right. split; [exact Hin|]. rewrite lookup_delete_ne by exact Hne. exact Hl.
    + rewrite IH, elem_of_cons. split.
      * intros [Hin Hl]. split; [right|]; assumption.
      * intros [[Heq | Hin] Hl]; [|split; assumption].
        subst u. rewrite E in Hl. discriminate Hl.
Qed.

Lemma foldl_delete_lookup (uids : list string) :
  forall (s : gmap string (list (string * PyVal))) k,
  foldl (fun s u => delete u s) s uids !! k
  = if decide (k ∈ uids) then None else s !! k.
Proof.
  induction uids as [|u t IH]; intros s k; cbn.
  - destruct (decide (k ∈ [])) as [H|_]; [inversion H | reflexivity].
  - rewrite IH.
    destruct (decide (k ∈ t)) as [Hin|Hnin].
    + rewrite decide_True by (right; exact Hin). reflexivity.
    + destruct (decide (k = u)) as [->|Hne].
      * rewrite decide_True by left. apply lookup_delete_eq.
      * rewrite decide_False.
        -- apply lookup_delete_ne. congruence.
        -- intros H. apply elem_of_cons in H as [H|H]; contradiction.
Qed.

Section Deleting.

Context (P : Platform) (env : AppEnv).

Lemma delete_loop rows uids :
  Forall2 (fun row u => js_attr P row "uid" = Ok (PyStr u)) rows uids ->
  forall w,
  for_each rows (delete_one P) w
  = Ok (tt, {| this := this w;
               store := foldl (fun s u => delete u s) (store w) uids;
               events := (map Deleted (rev (deleted_rows (store w) uids)) ++ events w)%list |}).
Proof.
  induction 1 as [|row u rows uids Hrow _ IH]; intros w.
  - destruct w; reflexivity.
  - cbn [for_each]. unfold bind at 1. unfold delete_one at 1.
    unfold bind at 1, lift. rewrite Hrow.
    unfold bind at 1, grid_class_get. cbn [deleted_rows foldl].
    destruct (store w !! u) as [f|] eqn:E; cbn [fmap option_fmap option_map].
    + unfold delete_row, bind, modify, emit. cbn. rewrite IH. cbn.
      rewrite map_app, <- app_assoc. reflexivity.
    + unfold ret. rewrite IH. rewrite delete_id by exact E. reflexivity.
Qed.

(** C5: handed the completion of a delete with the selected rows, the
    handler returns without raising; every selected uid is gone from the
    backing store afterwards and every other record is as before; the
    records deleted through the model are exactly those whose uid was
    selected and still resolved. *)
Theorem delete_skips_rows_that_no_longer_resolve
    (args : ActionArgs) (w : World) (rows : list PyVal) (uids : list string) :
  requestType args = PyStr "delete" ->
  type args = PyStr "actionComplete" ->
  data args = PyList rows ->
  Forall2 (fun row u => js_attr P row "uid" = Ok (PyStr u)) rows uids ->
  exists w',
    grid_action_handler P env args w = Ok (tt, w') /\
    this w' = this w /\
    (forall k, store w' !! k = if decide (k ∈ uids) then None else store w !! k) /\
    (exists deleted,
       events w' = (map Deleted (rev deleted) ++ events w)%list /\
       forall r, r ∈ deleted <->
                 uid r ∈ uids /\ store w !! uid r = Some (row_fields r)).
Proof.
  intros Hr Ht Hd Hrows.
  unfold grid_action_handler. rewrite Hr, Ht, Hd. cbn [one_of existsb py_eq String.eqb].
  cbn -[for_each]. unfold bind at 1, lift.
  change (for_each rows _) with (for_each rows (delete_one P)).
  rewrite (delete_loop rows uids Hrows).
  eexists. split; [reflexivity|]. cbn.
  split; [reflexivity|].
  split; [intros k; apply foldl_delete_lookup|].
  exists (deleted_rows (store w) uids). split; [reflexivity|].
  intros r. apply deleted_rows_spec.
Qed.

End Deleting.

Lemma delete_skips_rows_that_no_longer_resolve_witness :
  exists w',
    grid_action_handler utc app_env
      {| requestType := PyStr "delete"; type := PyStr "actionComplete";
         data := PyList [PyDict [("uid", PyStr "o1")]; PyDict [("uid", PyStr "gone")];
                         PyDict [("uid", PyStr "o2")]];
         rowData := PyNone |} order_world = Ok (tt, w') /\
    this w' = this order_world /\
    (forall k, store w' !! k
               = if decide (k ∈ ["o1"; "gone"; "o2"]) then None else store order_world !! k) /\
    (exists deleted,
       events w' = (map Deleted (rev deleted) ++ events order_world)%list /\
       forall r, r ∈ deleted <->
                 uid r ∈ ["o1"; "gone"; "o2"] /\
                 store order_world !! uid r = Some (row_fields r)).
Proof.
  apply (delete_skips_rows_that_no_longer_resolve utc app_env _ order_world
           [PyDict [("uid", PyStr "o1")]; PyDict [("uid", PyStr "gone")];
            PyDict [("uid", PyStr "o2")]] ["o1"; "gone"; "o2"]);
    try reflexivity.
  repeat constructor.
Defined.

(** In that run the two records that exist are deleted and the store ends
    empty. *)
Lemma delete_example :
  match grid_action_handler utc app_env
          {| requestType := PyStr "delete"; type := PyStr "actionComplete";
             data := PyList [PyDict [("uid", PyStr "o1")]; PyDict [("uid", PyStr "gone")];
                             PyDict [("uid", PyStr "o2")]];
             rowData := PyNone |} order_world with
  | Ok (_, w') =>
      store w' = ∅ /\
      events w' = [Deleted {| uid := "o2"; row_fields := [("name", PyStr "second")] |};
                   Deleted {| uid := "o1"; row_fields := [("name", PyStr "first")] |}]
  | Raise _ => False
  end.
Proof. vm_compute. split; reflexivity. Qed.

End GridViewFacts.

(** * Further properties of the form inputs *)

Module InputFacts.

Import FormInputs InputHooks InputVocabulary Samples Examples FormInputsFacts.

(** ** show() twice *)

Lemma show_when_visible (P : Platform) (st : St) :
  visible (self st) = true -> show P st = Ok (tt, st).
Proof.
  intros Hv. unfold show, bind, self_attr.
  destruct (cls (self st));
    unfold BaseInput_show, RadioButtonInput_show, InlineMessage_show, bind, self_attr;
    cbn [id]; rewrite Hv; reflexivity.
Qed.

Lemma BaseInput_show_visible (P : Platform) (st st' : St) :
  visible (self st) = false ->
  BaseInput_show P st = Ok (tt, st') -> visible (self st') = true.
Proof.
  intros Hv Hs. unfold BaseInput_show in Hs.
  apply bind_Ok in Hs as (c & s0 & H0 & Hs).
  inversion H0; subst c s0; clear H0.
  rewrite Hv in Hs. cbn [negb when] in Hs.
  apply bind_Ok in Hs as (u1 & s1 & H1 & Hs).
  apply bind_Ok in Hs as (u2 & s2 & H2 & Hs).
  apply bind_Ok in Hs as (u3 & s3 & H3 & Hs).
  apply bind_Ok in Hs as (c1 & s4 & H4 & Hs).
  apply bind_Ok in Hs as (u5 & s5 & H5 & Hs).
  apply bind_Ok in Hs as (u6 & s6 & H6 & Hs).
  apply bind_Ok in Hs as (c2 & s7 & H7 & Hs).
  inversion H6; subst u6 s6; clear H6.
  inversion H7; subst c2 s7; clear H7.
  apply enabled_set_result in Hs as (Gv & _). rewrite Gv. reflexivity.
Qed.

Lemma RadioButtonInput_show_visible (P : Platform) (st st' : St) :
  visible (self st) = false ->
  RadioButtonInput_show P st = Ok (tt, st') -> visible (self st') = true.
Proof.
  intros Hv Hs. unfold RadioButtonInput_show in Hs.
  apply bind_Ok in Hs as (c & s0 & H0 & Hs).
  inversion H0; subst c s0; clear H0.
  rewrite Hv in Hs. cbn [negb when] in Hs.
  apply bind_Ok in Hs as (u1 & s1 & H1 & Hs).
  apply bind_Ok in Hs as (u2 & s2 & H2 & Hs).
  apply bind_Ok in Hs as (c1 & s3 & H3 & Hs).
  apply bind_Ok in Hs as (u4 & s4 & H4 & Hs).
  apply bind_Ok in Hs as (u5 & s5 & H5 & Hs).
  inversion Hs. reflexivity.
Qed.

Lemma InlineMessage_show_visible (P : Platform) (st st' : St) :
  visible (self st) = false ->
  InlineMessage_show st = Ok (tt, st') -> visible (self st') = true.
Proof.
  intros Hv Hs. unfold InlineMessage_show in Hs.
  apply bind_Ok in Hs as (c & s0 & H0 & Hs).
  inversion H0; subst c s0; clear H0.
  rewrite Hv in Hs. cbn [negb when] in Hs.
  apply bind_Ok in Hs as (u1 & s1 & H1 & Hs).
  apply bind_Ok in Hs as (u2 & s2 & H2 & Hs).
  inversion Hs. reflexivity.
Qed.

Lemma show_leaves_visible (P : Platform) (st st' : St) :
  show P st = Ok (tt, st') -> visible (self st') = true.
Proof.
  intros Hs. destruct (visible (self st)) eqn:Hv.
  - rewrite (show_when_visible P st Hv) in Hs. inversion Hs; subst. exact Hv.
  - unfold show in Hs. apply bind_Ok in Hs as (k & s0 & H0 & Hs).
    inversion H0; subst k s0; clear H0.
    destruct (cls (self st));
      eauto using BaseInput_show_visible, RadioButtonInput_show_visible,
        InlineMessage_show_visible.
Qed.

(** X1: [show()] on a control that a [show()] has just left is a no-op: the
    container is not rendered again and no widget is created or attached
    a second time. *)
Theorem show_is_idempotent (P : Platform) (st st' : St) :
  show P st = Ok (tt, st') ->
  (run show P then show P) st = Ok (tt, st').
Proof.
  intros Hs. unfold bind. rewrite Hs.
  apply show_when_visible. eapply show_leaves_visible. exact Hs.
Qed.

Lemma show_is_idempotent_witness :
  (run show utc then show utc) (world (text_input PyNone)) = Ok (tt, shown_text).
Proof.
  apply (show_is_idempotent utc (world (text_input PyNone)) shown_text).
  vm_compute. reflexivity.
Defined.

(** ** Values with a live widget *)

(** X2: with a live widget, what is set on a text, multi-line, number,
    check box, dropdown or upload control is what reads back. *)
Theorem value_set_then_get_mounted (P : Platform) (st : St) (w : JsObject) (v : PyVal) :
  plain_value (self st) = true ->
  _control (self st) = Some w ->
  result_of ((run value_set P v then value_get P) st) = Ok v.
Proof.
  destruct st as [c d l n]. destruct c. unfold plain_value. cbn. intros Hp Hc. subst.
  destruct cls0; try discriminate Hp;
    unfold value_set, value_get, BaseInput_value_set, BaseInput_value_get,
      CheckboxInput_value_set, CheckboxInput_value_get, DropdownInput_value_set,
      DropdownInput_value_get, FileUploadInput_value_set, FileUploadInput_value_get,
      bind, self_attr, set_self, modify, when, control_set, control_get, js_get,
      control_is_not_None;
    cbn; rewrite ?lookup_insert_eq; cbn; try reflexivity.
  destruct v; reflexivity.
Qed.

Lemma value_set_then_get_mounted_witness :
  result_of ((run value_set utc (PyStr "x") then value_get utc) mounted_text)
  = Ok (PyStr "x").
Proof.
  apply (value_set_then_get_mounted utc mounted_text text_widget (PyStr "x"));
    reflexivity.
Defined.

(** X3: a date picker with a live widget reads back the calendar day of what it
    was given, be it a date, a date-time, an ISO string or a JS [Date], for
    a day of the years 1 to 9999 whose midnight [strftime('%s')] puts on
    that day. *)
Theorem DateInput_reads_the_day (P : Platform) (st : St) (w : JsObject) (v : PyVal) (d : Z) :
  cls (self st) = DateInput ->
  _control (self st) = Some w ->
  day_of P v = Some d ->
  valid_day d = true ->
  midnight_falls_on P d = true ->
  result_of ((run value_set P v then value_get P) st) = Ok (PyDate d).
Proof.
  destruct st as [c dc l n]. destruct c. cbn. intros Hk Hc Hd Hvalid Hmid. subst.
  pose proof (date_roundtrip P d Hvalid Hmid) as Hrt.
  unfold day_of in Hd.
  destruct v; try discriminate Hd.
  - (* an ISO string *)
    unfold value_set, value_get, DateInput_value_set, DateInput_value_get,
      bind, self_attr, set_self, modify, when, control_set, control_get, js_get,
      control_is_not_None, getTime, ret, lift.
    cbn -[date_fromtimestamp strftime_s Z.mul]. rewrite Hd.
    cbn -[date_fromtimestamp strftime_s Z.mul]. rewrite lookup_insert_eq.
    cbn -[date_fromtimestamp strftime_s Z.mul]. rewrite Hrt. reflexivity.
  - (* a date *)
    injection Hd as ->.
    unfold value_set, value_get, DateInput_value_set, DateInput_value_get,
      bind, self_attr, set_self, modify, when, control_set, control_get, js_get,
      control_is_not_None, getTime, ret, lift.
    cbn -[date_fromtimestamp strftime_s Z.mul]. rewrite lookup_insert_eq.
    cbn -[date_fromtimestamp strftime_s Z.mul]. rewrite Hrt. reflexivity.
  - (* a date-time *)
    injection Hd as ->.
    unfold value_set, value_get, DateInput_value_set, DateInput_value_get,
      bind, self_attr, set_self, modify, when, control_set, control_get, js_get,
      control_is_not_None, getTime, ret, lift.
    cbn -[date_fromtimestamp strftime_s Z.mul]. rewrite lookup_insert_eq.
    cbn -[date_fromtimestamp strftime_s Z.mul]. rewrite Hrt. reflexivity.
  - (* a JS Date *)
    assert (Hft : date_fromtimestamp P ms = Ok (PyDate d)).
    { unfold date_fromtimestamp. cbv zeta in Hd |- *.
      destruct (valid_day _); inversion Hd; reflexivity. }
    unfold value_set, value_get, DateInput_value_set, DateInput_value_get,
      bind, self_attr, set_self, modify, when, control_set, control_get, js_get,
      control_is_not_None, getTime, ret, lift.
    cbn -[date_fromtimestamp strftime_s Z.mul]. rewrite Hft.
    cbn -[date_fromtimestamp strftime_s Z.mul]. rewrite lookup_insert_eq.
    cbn -[date_fromtimestamp strftime_s Z.mul]. rewrite Hrt. reflexivity.
Qed.

Lemma DateInput_reads_the_day_witness :
  result_of ((run value_set utc (PyDateTime 19000 13 30 0 0) then value_get utc)
               mounted_date)
  = Ok (PyDate 19000).
Proof.
  apply (DateInput_reads_the_day utc mounted_date
           (ej_new "DatePicker" [("placeholder", PyStr "Due")])
           (PyDateTime 19000 13 30 0 0) 19000); reflexivity.
Defined.

(** ** The enabled flag with a live widget *)

(** X4: with a live widget, the flag that is set on a control other than the
    check box is the flag that reads back. *)
Theorem enabled_set_then_get_mounted (P : Platform) (st : St) (w : JsObject) (e : PyVal) :
  cls (self st) <> CheckboxInput ->
  _control (self st) = Some w ->
  result_of ((run enabled_set e then enabled_get P) st) = Ok e.
Proof.
  intros Hk Hc. unfold bind. rewrite (enabled_set_mounted e st w Hc).
  destruct st as [c d l n]. destruct c. cbn in Hk, Hc |- *. subst.
  destruct cls0; try (exfalso; apply Hk; reflexivity);
    unfold enabled_get, BaseInput_enabled_get, bind, self_attr, control_is_not_None,
      control_get, js_get, set_self, modify; cbn;
    rewrite lookup_insert_eq; reflexivity.
Qed.

Lemma enabled_set_then_get_mounted_witness :
  result_of ((run enabled_set (PyBool false) then enabled_get utc) mounted_text)
  = Ok (PyBool false).
Proof.
  apply (enabled_set_then_get_mounted utc mounted_text text_widget (PyBool false));
    [discriminate | reflexivity].
Defined.

(** ** A value that has been read *)

Lemma value_get_plain_state (P : Platform) (st st1 : St) (w : JsObject) (v : PyVal) :
  plain_value (self st) = true ->
  _control (self st) = Some w ->
  value_get P st = Ok (v, st1) ->
  st1 = on_self (with_value v) st.
Proof.
  destruct st as [c d l n]. destruct c. unfold plain_value. cbn. intros Hp Hc. subst.
  unfold value_get, bind, self_attr. cbn.
  destruct cls0; try discriminate Hp; cbn;
    unfold BaseInput_value_get, CheckboxInput_value_get, DropdownInput_value_get,
      FileUploadInput_value_get, bind, self_attr, set_self, modify, when, control_get,
      js_get, control_is_not_None; cbn;
    try (intros H; inversion H; subst; reflexivity);
    (destruct (w !! _) as [x|]; [|destruct (missing P); [discriminate|]]);
    cbn; try (intros H; inversion H; subst; reflexivity).
  all: try (destruct (is_not_None x)); cbn; intros H; inversion H; subst; reflexivity.
Qed.

Lemma plain_value_keeps_widget (c : Input) :
  plain_value c = true -> keeps_widget (cls c) = true.
Proof. unfold plain_value. destruct (cls c); intros H; try discriminate H; reflexivity. Qed.

(** X5: once the value of a visible text, number, check box, dropdown or upload
    control has been read, [hide(); show()] keeps it: the read has cached
    what the widget held, and [show()] hands the cache back to the
    widget. *)
Theorem read_value_survives_hide_show
    (P : Platform) (st st1 : St) (w : JsObject) (v x : PyVal) :
  plain_value (self st) = true ->
  visible (self st) = true ->
  _control (self st) = Some w ->
  document st !! container_id (self st) = Some x ->
  value_get P st = Ok (v, st1) ->
  result_of ((run hide then run show P then value_get P) st1) = Ok v.
Proof.
  intros Hp Hv Hc Hd Hg.
  apply (value_get_plain_state P st st1 w v Hp Hc) in Hg. subst st1.
  set (s1 := on_self (with_value v) st).
  assert (Hp1 : plain_value (self s1) = true).
  { destruct st as [c d l n]. destruct c. exact Hp. }
  assert (Hv1 : visible (self s1) = true) by exact Hv.
  assert (Hc1 : _control (self s1) = Some w) by exact Hc.
  assert (Hd1 : document s1 !! container_id (self s1) = Some x) by exact Hd.
  assert (Hval : _value (self s1) = v) by reflexivity.
  clearbody s1. clear Hp Hv Hc Hd st.
  unfold bind at 1. rewrite (hide_visible s1 x Hv1 Hd1).
  set (s2 := on_self (with_visible false) _).
  unfold bind at 1.
  rewrite (show_mounted P s2 w (PyStr ""));
    [| apply plain_value_keeps_widget; destruct s1 as [c d l n]; destruct c; exact Hp1
     | reflexivity | exact Hc1 | apply lookup_insert_eq].
  set (s3 := log_call _ _ _).
  assert (Hp3 : plain_value (self s3) = true).
  { destruct s1 as [c d l n]. destruct c. exact Hp1. }
  assert (Hc3 : _control (self s3) = Some w) by exact Hc1.
  assert (Hval3 : _value (self s3) = v) by exact Hval.
  assert (Hval2 : _value (self s2) = _value (self s3)) by reflexivity.
  rewrite Hval2.
  clearbody s3. clear s2 Hval2.
  destruct (value_set_plain P s3 w Hp3 Hc3) as (w' & Hvs & Hw').
  unfold bind at 1. rewrite Hvs.
  unfold bind at 1, set_self at 1, modify at 1.
  unfold bind at 1, self_attr at 1. cbn [id].
  set (s5 := on_self (with_visible true) _).
  rewrite (enabled_set_mounted _ s5 w' eq_refl).
  rewrite <- Hval3.
  erewrite value_get_plain.
  - reflexivity.
  - destruct s3 as [c d l n]. destruct c. exact Hp3.
  - reflexivity.
  - intros p Hvp. cbn in Hvp |- *.
    rewrite lookup_insert_ne; [apply Hw'; exact Hvp|].
    unfold value_prop in Hvp. cbn.
    destruct (cls (self s3)); inversion Hvp; discriminate.
Qed.

Lemma read_value_survives_hide_show_witness :
  result_of ((run hide then run show utc then value_get utc)
               (on_self (with_value (PyStr "typed"))
                  (user_sets "value" (PyStr "typed") (on_self (with_visible true) mounted_text))))
  = Ok (PyStr "typed").
Proof.
  apply (read_value_survives_hide_show utc
           (user_sets "value" (PyStr "typed") (on_self (with_visible true) mounted_text))
           (on_self (with_value (PyStr "typed"))
              (user_sets "value" (PyStr "typed") (on_self (with_visible true) mounted_text)))
           (<["value" := PyStr "typed"]> text_widget) (PyStr "typed") (PyStr ""));
    first [reflexivity | vm_compute; reflexivity].
Defined.

(** X6: a date-time picker with a live widget reads back the day and the clock
    time of what it was given, without the microseconds, for a date-time of
    the years 1 to 9999 that the local clock shows. *)
Theorem DateTimeInput_drops_microseconds
    (P : Platform) (st : St) (w : JsObject) (v : PyVal) (d h m s : Z) :
  cls (self st) = DateTimeInput ->
  _control (self st) = Some w ->
  moment_of P v = Some (d, h, m, s) ->
  valid_day d = true ->
  clock h m s = true ->
  on_local_clock P (clock_reading d h m s) = true ->
  result_of ((run value_set P v then value_get P) st) = Ok (PyDateTime d h m s 0).
Proof.
  destruct st as [c dc l n]. destruct c. cbn. intros Hk Hc Hd Hvalid Hclock Hl. subst.
  pose proof (datetime_roundtrip P d h m s Hvalid Hclock Hl) as Hrt.
  unfold moment_of in Hd.
  destruct v; try discriminate Hd.
  - (* an ISO string *)
    destruct (datetime_fromisoformat P s0) as [[[[[d' h'] m'] s'] u']|] eqn:E;
      [|discriminate Hd].
    injection Hd as -> -> -> ->.
    unfold value_set, value_get, DateTimeInput_value_set, DateTimeInput_value_get,
      bind, self_attr, set_self, modify, when, control_set, control_get, js_get,
      control_is_not_None, getTime, ret, lift.
    cbn -[datetime_fromtimestamp strftime_s Z.mul]. rewrite E.
    cbn -[datetime_fromtimestamp strftime_s Z.mul]. rewrite lookup_insert_eq.
    cbn -[datetime_fromtimestamp strftime_s Z.mul]. rewrite Hrt. reflexivity.
  - (* a date-time *)
    injection Hd as -> -> -> ->.
    unfold value_set, value_get, DateTimeInput_value_set, DateTimeInput_value_get,
      bind, self_attr, set_self, modify, when, control_set, control_get, js_get,
      control_is_not_None, getTime, ret, lift.
    cbn -[datetime_fromtimestamp strftime_s Z.mul]. rewrite lookup_insert_eq.
    cbn -[datetime_fromtimestamp strftime_s Z.mul]. rewrite Hrt. reflexivity.
  - (* a JS Date *)
    assert (Hft : exists u, datetime_fromtimestamp P ms = Ok (PyDateTime d h m s u)).
    { unfold datetime_fromtimestamp. cbv zeta in Hd |- *.
      destruct (valid_day _); inversion Hd; eexists; reflexivity. }
    destruct Hft as [u Hft].
    unfold value_set, value_get, DateTimeInput_value_set, DateTimeInput_value_get,
      bind, self_attr, set_self, modify, when, control_set, control_get, js_get,
      control_is_not_None, getTime, ret, lift.
    cbn -[datetime_fromtimestamp strftime_s Z.mul]. rewrite Hft.
    cbn -[datetime_fromtimestamp strftime_s Z.mul]. rewrite lookup_insert_eq.
    cbn -[datetime_fromtimestamp strftime_s Z.mul]. rewrite Hrt. reflexivity.
Qed.

Lemma DateTimeInput_drops_microseconds_witness :
  result_of ((run value_set utc (PyDateTime 19000 13 30 15 250000) then value_get utc)
               mounted_datetime)
  = Ok (PyDateTime 19000 13 30 15 0).
Proof.
  apply (DateTimeInput_drops_microseconds utc mounted_datetime
           (ej_new "DateTimePicker" [("placeholder", PyStr "At")])
           (PyDateTime 19000 13 30 15 250000) 19000 13 30 15); reflexivity.
Defined.

(** Where the clock is put forward, a date-time of the skipped hour does
    not come back: 03:30 is handed to the widget as the timestamp of 04:30
    and reads back as that. *)
Lemma skipped_hour_is_moved_on :
  on_local_clock spring_forward (clock_reading 0 3 30 0) = false /\
  result_of ((run value_set spring_forward (PyDateTime 0 3 30 0 0) then
              value_get spring_forward) mounted_datetime)
  = Ok (PyDateTime 0 4 30 0 0).
Proof. split; vm_compute; reflexivity. Qed.

(** A JS [Date] of the year 10000 is refused by [fromtimestamp]. *)
Lemma year_10000_is_refused :
  day_of utc (JsDate 253402300800000) = None /\
  result_of (value_set utc (JsDate 253402300800000) mounted_date)
  = Raise (ValueError "year is out of range").
Proof. split; vm_compute; reflexivity. Qed.

(** X7: a signature pad without a widget reads [None] whatever was set; the
    value is cached all the same, and [show()] loads it into the pad, from
    where it reads back. *)
Theorem SignatureInput_value_needs_widget (P : Platform) (st : St) (v : PyVal) :
  cls (self st) = SignatureInput ->
  _control (self st) = None ->
  visible (self st) = false ->
  is_Some (document st !! container_id (self st)) ->
  is_not_None v = true ->
  (run value_set P v then value_get P) st = Ok (PyNone, on_self (with_value v) st) /\
  result_of ((run value_set P v then run show P then value_get P) st) = Ok v.
Proof.
  destruct st as [c dc l n]. destruct c. cbn. intros Hk Hc Hv [x Hd] Hn. subst.
  split.
  - unfold value_set, value_get, SignatureInput_value_set, SignatureInput_value_get,
      bind, self_attr, set_self, modify, when, control_is_not_None. cbn. reflexivity.
  - unfold value_set, value_get, show, BaseInput_show, SignatureInput_value_set,
      SignatureInput_value_get, create_control, control_setter, enabled_set,
      BaseInput_enabled_set,
      bind, self_attr, set_self, modify, when, control_is_not_None, set_innerHTML,
      control_call, control_set, ret.
    cbn. rewrite Hd.
    destruct v; try discriminate Hn; cbn; destruct (is_True float_label0); cbn;
      (rewrite lookup_insert_ne by done); rewrite lookup_insert_eq; reflexivity.
Qed.

Lemma SignatureInput_value_needs_widget_witness :
  (run value_set utc (PyStr "ink") then value_get utc) (world signature_input)
  = Ok (PyNone, on_self (with_value (PyStr "ink")) (world signature_input)) /\
  result_of ((run value_set utc (PyStr "ink") then run show utc then value_get utc)
               (world signature_input))
  = Ok (PyStr "ink").
Proof.
  apply (SignatureInput_value_needs_widget utc (world signature_input) (PyStr "ink"));
    first [reflexivity | exists (PyStr ""); reflexivity].
Defined.

(** ** The inline message *)

(** X8: a message set on a visible inline message is rendered into its element,
    and [hide(); show()] renders it again: it reads back and is in the
    document afterwards. *)
Theorem InlineMessage_hide_show_keeps_message
    (P : Platform) (st : St) (v x y : PyVal) :
  cls (self st) = InlineMessage ->
  visible (self st) = true ->
  document st !! container_id (self st) = Some x ->
  document st !! el_id (self st) = Some y ->
  exists st',
    (run value_set P v then run hide then show P) st = Ok (tt, st') /\
    visible (self st') = true /\
    result_of (value_get P st') = Ok v /\
    document st' !! el_id (self st') = Some v.
Proof.
  destruct st as [c dc l n]. destruct c. cbn. intros Hk Hv Hc He. subst.
  unfold value_set, value_get, show, hide, InlineMessage_show, InlineMessage_value_set,
    InlineMessage_value_get, bind, self_attr, set_self, modify, when, set_innerHTML,
    clear_innerHTML, declared_ids, ret.
  cbn. rewrite He. cbn.
  assert (Hc' : is_Some (<[el_id0:=v]> dc !! container_id0)).
  { destruct (decide (el_id0 = container_id0)) as [->|Hne].
    - rewrite lookup_insert_eq. eauto.
    - rewrite lookup_insert_ne by exact Hne. eauto. }
  destruct Hc' as [x' Hc']. rewrite Hc'. cbn.
  rewrite lookup_insert_eq. cbn.
  assert (He' : is_Some (<[container_id0:=PyStr html0]>
                           (<[el_id0:=PyStr ""]>
                              (<[container_id0:=PyStr ""]>
                                 (delete el_id0 (<[el_id0:=v]> dc)))) !! el_id0)).
  { destruct (decide (container_id0 = el_id0)) as [->|Hne].
    - rewrite lookup_insert_eq. eauto.
    - rewrite lookup_insert_ne by exact Hne. rewrite lookup_insert_eq. eauto. }
  destruct He' as [y' He']. rewrite He'. cbn.
  eexists. split; [reflexivity|]. cbn.
  split; [reflexivity|]. split; [reflexivity|].
  apply lookup_insert_eq.
Qed.

Lemma InlineMessage_hide_show_keeps_message_witness :
  exists st',
    (run value_set utc (PyStr "Saved") then run hide then show utc) shown_message
    = Ok (tt, st') /\
    visible (self st') = true /\
    result_of (value_get utc st') = Ok (PyStr "Saved") /\
    document st' !! el_id (self st') = Some (PyStr "Saved").
Proof.
  apply (InlineMessage_hide_show_keeps_message utc shown_message (PyStr "Saved")
           (PyStr "<div>") PyNone); first [reflexivity | vm_compute; reflexivity].
Defined.

(** Once [hide()] has emptied the container the element of the message is
    gone, and setting a message fails on it. *)
Lemma InlineMessage_set_after_hide_raises :
  result_of ((run hide then value_set utc (PyStr "Saved")) shown_message)
  = Raise (AttributeError "NoneType" "innerHTML").
Proof. vm_compute. reflexivity. Qed.

(** ** The radio buttons *)

Lemma append_buttons_self (l : list RadioOption) : forall st st',
  for_each l (fun option =>
    match opt_control option with
    | Some _ => modify (log_call "appendTo" [PyStr ("#" +:+ opt_el_id option)])
    | None => raise (KeyError "control")
    end) st = Ok (tt, st') ->
  self st' = self st.
Proof.
  induction l as [|o t IH]; intros st st' H; cbn in H.
  - inversion H. reflexivity.
  - apply bind_Ok in H as (u & s1 & H1 & H).
    destruct (opt_control o); [|discriminate H1].
    inversion H1; subst. apply IH in H. exact H.
Qed.

Lemma append_buttons_ok (l : list RadioOption) : forall st,
  Forall (fun o => is_Some (opt_control o)) l ->
  exists st',
    for_each l (fun option =>
      match opt_control option with
      | Some _ => modify (log_call "appendTo" [PyStr ("#" +:+ opt_el_id option)])
      | None => raise (KeyError "control")
      end) st = Ok (tt, st').
Proof.
  induction l as [|o t IH]; intros st H; cbn [for_each]; [eexists; reflexivity|].
  inversion H as [|? ? [w Ho] Ht]; subst. unfold bind. rewrite Ho. cbn.
  apply IH. exact Ht.
Qed.

Lemma RadioButtonInput_show_facts (P : Platform) (st st' : St) :
  cls (self st) = RadioButtonInput ->
  _control (self st) = None ->
  visible (self st) = false ->
  show P st = Ok (tt, st') ->
  Forall (fun o => is_Some (opt_control o)) (options (self st')) /\
  enabled_get P st' = Ok (PyNone, st') /\
  destroy st' = Ok (tt, st').
Proof.
  intros Hk Hc Hv Hs.
  unfold show, bind at 1, self_attr at 1 in Hs. rewrite Hk in Hs.
  unfold RadioButtonInput_show in Hs.
  apply bind_Ok in Hs as (c & s0 & H0 & Hs).
  inversion H0; subst c s0; clear H0.
  rewrite Hv in Hs. cbn [negb when] in Hs.
  apply bind_Ok in Hs as (u1 & s1 & H1 & Hs).
  apply bind_Ok in Hs as (u2 & s2 & H2 & Hs).
  apply bind_Ok in Hs as (c1 & s3 & H3 & Hs).
  inversion H3; subst c1 s3; clear H3.
  apply bind_Ok in Hs as (u4 & s4 & H4 & Hs).
  apply bind_Ok in Hs as (u5 & s5 & H5 & Hs).
  destruct u4. apply append_buttons_self in H4.
  assert (E1 : self s1 = self st).
  { unfold set_innerHTML in H1. destruct (document st !! _); inversion H1. reflexivity. }
  assert (E2 : cls (self s2) = RadioButtonInput /\ _control (self s2) = None /\
               Forall (fun o => is_Some (opt_control o)) (options (self s2))).
  { unfold create_control, bind, self_attr in H2. cbn beta in H2. unfold id in H2.
    rewrite E1, Hk in H2.
    unfold RadioButtonInput_create_control, RadioButtonInput_value_set, bind, self_attr,
      set_self, modify in H2. cbn in H2. inversion H2; subst s2; clear H2. cbn.
    rewrite E1. split; [exact Hk|]. split; [exact Hc|].
    rewrite Forall_map, Forall_map. apply Forall_true. intros o. cbn.
    destruct (py_eq _ _); cbn; eauto. }
  destruct E2 as (K2 & C2 & O2).
  assert (E5 : cls (self s5) = RadioButtonInput /\ _control (self s5) = None /\
               Forall (fun o => is_Some (opt_control o)) (options (self s5))).
  { unfold value_set, bind, self_attr in H5. cbn beta in H5. rewrite H4, K2 in H5.
    unfold RadioButtonInput_value_set, bind, self_attr, set_self, modify in H5.
    cbn in H5. inversion H5; subst s5; clear H5. cbn. rewrite H4.
    split; [exact K2|]. split; [exact C2|].
    rewrite Forall_map. eapply Forall_impl; [exact O2|]. intros o Ho. cbn.
    destruct (opt_control o); [|exact Ho]. destruct (py_eq _ _); cbn; eauto. }
  destruct E5 as (K5 & C5 & O5).
  inversion Hs; subst st'; clear Hs. cbn.
  split; [exact O5|]. split.
  - unfold enabled_get, bind, self_attr. cbn. rewrite K5.
    unfold BaseInput_enabled_get, bind, self_attr, control_is_not_None. cbn.
    rewrite C5. reflexivity.
  - unfold destroy, bind, self_attr, control_is_not_None. cbn. rewrite C5. reflexivity.
Qed.

Lemma RadioButtonInput_show_succeeds (P : Platform) (st : St) (x : PyVal) :
  cls (self st) = RadioButtonInput ->
  visible (self st) = false ->
  document st !! container_id (self st) = Some x ->
  exists st', show P st = Ok (tt, st').
Proof.
  intros Hk Hv Hd.
  unfold show, bind at 1, self_attr at 1. rewrite Hk.
  unfold RadioButtonInput_show, bind at 1, self_attr at 1. cbn [id]. rewrite Hv.
  cbn [negb when].
  unfold bind at 1, set_innerHTML at 1. rewrite Hd.
  set (st1 := with_document _ st).
  assert (H2 : exists st2, create_control P st1 = Ok (tt, st2) /\
                 cls (self st2) = RadioButtonInput /\
                 Forall (fun o => is_Some (opt_control o)) (options (self st2))).
  { unfold create_control, bind, self_attr. cbn [id self st1 with_document]. rewrite Hk.
    unfold RadioButtonInput_create_control, RadioButtonInput_value_set, bind, self_attr,
      set_self, modify. cbn. eexists. split; [reflexivity|]. cbn.
    split; [exact Hk|].
    rewrite Forall_map, Forall_map. apply Forall_true. intros o. cbn.
    destruct (py_eq _ _); cbn; eauto. }
  destruct H2 as (st2 & H2 & K2 & O2).
  unfold bind at 1. rewrite H2.
  unfold bind at 1, self_attr at 1. cbn [id].
  destruct (append_buttons_ok (options (self st2)) st2 O2) as (st3 & H3).
  unfold bind at 1. rewrite H3.
  unfold bind at 1.
  assert (H4 : exists st4, value_set P (_value (self st2)) st3 = Ok (tt, st4)).
  { apply append_buttons_self in H3.
    unfold value_set, bind, self_attr. cbn [id]. rewrite H3, K2.
    unfold RadioButtonInput_value_set, bind, self_attr, set_self, modify. cbn.
    eexists. reflexivity. }
  destruct H4 as (st4 & H4). rewrite H4.
  unfold set_self, modify. eexists. reflexivity.
Qed.

(** X9: a radio button group never has a [_control]: [show()] gives every
    option its button, yet afterwards [enabled] reads [None] and
    [destroy()] does nothing, so the buttons are never released. *)
Theorem RadioButtonInput_has_no_control (P : Platform) (st : St) (x : PyVal) :
  cls (self st) = RadioButtonInput ->
  _control (self st) = None ->
  visible (self st) = false ->
  document st !! container_id (self st) = Some x ->
  exists st',
    show P st = Ok (tt, st') /\
    Forall (fun o => is_Some (opt_control o)) (options (self st')) /\
    enabled_get P st' = Ok (PyNone, st') /\
    destroy st' = Ok (tt, st').
Proof.
  intros Hk Hc Hv Hd.
  destruct (RadioButtonInput_show_succeeds P st x Hk Hv Hd) as (st' & Hs).
  exists st'. split; [exact Hs|].
  exact (RadioButtonInput_show_facts P st st' Hk Hc Hv Hs).
Qed.

Lemma RadioButtonInput_has_no_control_witness :
  exists st',
    show utc (world radio_input) = Ok (tt, st') /\
    Forall (fun o => is_Some (opt_control o)) (options (self st')) /\
    enabled_get utc st' = Ok (PyNone, st') /\
    destroy st' = Ok (tt, st').
Proof.
  apply (RadioButtonInput_has_no_control utc (world radio_input) (PyStr ""));
    reflexivity.
Defined.

(** ** The lookup *)

(** X10: clearing a lookup with a live widget, by setting [None] or any other
    empty value, empties the widget and leaves the cache alone: [value]
    goes on reading what was cached. *)
Theorem LookupInput_clear_keeps_cached_value
    (P : Platform) (st : St) (w : JsObject) (v : PyVal) :
  cls (self st) = LookupInput ->
  _control (self st) = Some w ->
  truthy v = false ->
  exists st',
    (run value_set P v then value_get P) st = Ok (_value (self st), st') /\
    (_control (self st') ≫= lookup "value") = Some PyNone.
Proof.
  destruct st as [c dc l n]. destruct c. cbn. intros Hk Hc Hv. subst.
  unfold value_set, value_get, LookupInput_value_set, LookupInput_value_get,
    bind, self_attr, set_self, modify, when, control_set, control_get, js_get,
    control_is_not_None, ret.
  cbn. rewrite Hv. cbn. rewrite lookup_insert_eq. cbn.
  eexists. split; [reflexivity|]. cbn. apply lookup_insert_eq.
Qed.

Lemma LookupInput_clear_keeps_cached_value_witness :
  exists st',
    (run value_set utc PyNone then value_get utc) (on_self (with_value ann) mounted_lookup)
    = Ok (ann, st') /\
    (_control (self st') ≫= lookup "value") = Some PyNone.
Proof.
  apply (LookupInput_clear_keeps_cached_value utc (on_self (with_value ann) mounted_lookup)
           (ej_new "DropDownList" [("placeholder", PyStr "Customer")]) PyNone);
    reflexivity.
Defined.

(** ** The options of a dropdown *)

(** X11: the options given to a dropdown or lookup are the data source of its
    widget: of the live one at once, otherwise of the one that
    [create_control] makes; and they read back as [options]. *)
Theorem options_reach_the_widget (P : Platform) (st : St) (o : PyVal) :
  is_dropdown (cls (self st)) = true ->
  py_eq (select (self st)) (PyStr "single") || py_eq (select (self st)) (PyStr "multi") = true ->
  result_of ((run DropdownInput_options_set o then
              let* c := self_attr id in
              run when (negb (control_is_not_None c)) (create_control P) then
              control_get P "dataSource") st) = Ok o /\
  result_of ((run DropdownInput_options_set o then DropdownInput_options_get) st) = Ok o.
Proof.
  destruct st as [c dc l n]. destruct c. cbn. intros Hk Hsel.
  split.
  - destruct cls0; try discriminate Hk; destruct _control0 as [w|];
      unfold DropdownInput_options_set, create_control, DropdownInput_create_control,
        LookupInput_create_control, DropdownInput_create_control, control_setter,
        new_el_id, bind, self_attr, set_self, modify, when, control_set, control_get,
        js_get, control_is_not_None, ret; cbn;
      try (rewrite lookup_insert_eq; reflexivity).
    + destruct (py_eq select0 (PyStr "single")); cbn;
        [|destruct (py_eq select0 (PyStr "multi")); [cbn|discriminate Hsel]];
        destruct (is_True float_label0); vm_compute; reflexivity.
    + destruct (py_eq select0 (PyStr "single")); cbn;
        [|destruct (py_eq select0 (PyStr "multi")); [cbn|discriminate Hsel]];
        destruct (is_True float_label0); cbn;
        destruct (is_not_None add_item_form0 || is_not_None add_item_model0);
        vm_compute; reflexivity.
  - destruct cls0; try discriminate Hk; destruct _control0 as [w|]; reflexivity.
Qed.

Lemma options_reach_the_widget_witness :
  result_of ((run DropdownInput_options_set (PyList [PyStr "a"]) then
              let* c := self_attr id in
              run when (negb (control_is_not_None c)) (create_control utc) then
              control_get utc "dataSource") (world dropdown_input))
  = Ok (PyList [PyStr "a"]) /\
  result_of ((run DropdownInput_options_set (PyList [PyStr "a"]) then DropdownInput_options_get) (world dropdown_input))
  = Ok (PyList [PyStr "a"]).
Proof.
  apply (options_reach_the_widget utc (world dropdown_input) (PyList [PyStr "a"]));
    reflexivity.
Defined.

(** ** Editing a grid cell *)

Lemma create_control_editor (P : Platform) (st : St) :
  has_value_editor (self st) = true ->
  exists w, create_control P st = Ok (tt, on_self (with_control (Some w)) st) /\
            w !! "value" = Some PyNone.
Proof.
  destruct st as [c d l n]. destruct c. unfold has_value_editor. cbn. intros Hp.
  unfold create_control, bind, self_attr. cbn.
  destruct cls0; try discriminate; cbn.
  7: { unfold DropdownInput_create_control, bind, self_attr. cbn.
       destruct (py_eq select0 (PyStr "single"));
         [|destruct (py_eq select0 (PyStr "multi")); [|discriminate Hp]].
       all: unfold control_setter, bind, self_attr, set_self, modify, when, control_set; cbn.
       all: destruct (is_True float_label0); cbn; eexists; (split; [reflexivity|]).
       all: vm_compute; reflexivity. }
  all: unfold control_setter, bind, self_attr, set_self, modify, when, control_set; cbn.
  all: destruct (is_True float_label0); cbn; eexists; (split; [reflexivity|]).
  all: vm_compute; reflexivity.
Qed.

(** X12: one edit session of a grid cell with a control that has no widget of
    its own: [create], [write], [read], then [destroy].  What is read is
    the cell's value as it is in the row, [None] if the row has no such
    field, and the session leaves the object as it was. *)
Theorem grid_edit_session (P : Platform) (o : Obj) (d : PyVal) (args : EditArgs) :
  has_value_editor (self (base o)) = true ->
  _control (self (base o)) = None ->
  exists o',
    (run grid_edit_create d then
     run grid_edit_write P args then
     let* v := grid_edit_read P in
     run on_base destroy then
     run grid_edit_destroy then
     ret v) o
    = Ok (default PyNone (assoc (column_field args) (rowData args)), o') /\
    self (base o') = self (base o) /\
    grid_data o' = d.
Proof.
  intros He Hc. destruct o as [st oc gd ee tf nt s3]. cbn in He, Hc.
  unfold grid_edit_create, grid_edit_write.
  unfold bind at 1. unfold bind at 1, modify at 1. unfold bind at 1, modify at 1.
  unfold attr at 1. unfold bind at 1. unfold bind at 1, on_base at 1. cbn [base with_edit_el with_grid_data].
  destruct (create_control_editor P st He) as (w & Hcc & Hw). rewrite Hcc.
  unfold bind at 1, attr at 1. unfold bind at 1, on_base at 1, control_call at 1.
  cbn [base with_base self on_self with_control _control edit_el].
  assert (Hk : match cls (self st) with CheckboxInput => False | _ => True end).
  { unfold has_value_editor in He. destruct (cls (self st)); try discriminate He; exact I. }
  destruct st as [c dc l n]. destruct c. cbn in *. subst.
  destruct (assoc (column_field args) (rowData args)) as [v|] eqn:Ea.
  - unfold on_base, control_set, grid_edit_read, BaseInput_grid_edit_read, bind, on_base,
      self_attr, control_get, js_get, destroy, grid_edit_destroy, ret, when, set_self,
      modify, control_is_not_None, control_call. cbn.
    destruct cls0; try contradiction; cbn; rewrite lookup_insert_eq; cbn;
      eexists; (split; [reflexivity|]); split; reflexivity.
  - unfold on_base, control_set, grid_edit_read, BaseInput_grid_edit_read, bind, on_base,
      self_attr, control_get, js_get, destroy, grid_edit_destroy, ret, when, set_self,
      modify, control_is_not_None, control_call. cbn.
    destruct cls0; try contradiction; cbn; rewrite Hw; cbn;
      eexists; (split; [reflexivity|]); split; reflexivity.
Qed.

Lemma grid_edit_session_witness :
  exists o',
    (run grid_edit_create (PyStr "r1") then
     run grid_edit_write utc title_cell then
     let* v := grid_edit_read utc in
     run on_base destroy then
     run grid_edit_destroy then
     ret v) (hooked (world (text_input PyNone)) PyNone)
    = Ok (default PyNone (assoc (column_field title_cell) (rowData title_cell)), o') /\
    self (base o') = self (base (hooked (world (text_input PyNone)) PyNone)) /\
    grid_data o' = PyStr "r1".
Proof.
  apply (grid_edit_session utc (hooked (world (text_input PyNone)) PyNone) (PyStr "r1")
           title_cell); reflexivity.
Defined.

Lemma create_control_checkbox (P : Platform) (st : St) :
  cls (self st) = CheckboxInput ->
  exists w, create_control P st = Ok (tt, on_self (with_control (Some w)) st) /\
            w !! "checked" = Some (PyBool false).
Proof.
  destruct st as [c d l n]. destruct c. cbn. intros ->.
  unfold create_control, control_setter, bind, self_attr, set_self, modify, when,
    control_set. cbn.
  destruct (is_True float_label0); cbn; eexists; (split; [reflexivity|]);
    vm_compute; reflexivity.
Qed.

(** X13: the check box does not override [grid_edit_write]: the cell's value
    goes to the [value] of the fresh widget, while [grid_edit_read] reads
    [checked], so the editor reads unchecked whatever the row holds. *)
Theorem CheckboxInput_grid_editor_ignores_the_cell
    (P : Platform) (o : Obj) (args : EditArgs) :
  cls (self (base o)) = CheckboxInput ->
  returned ((run grid_edit_write P args then grid_edit_read P) o) = Ok (PyBool false).
Proof.
  intros Hk. destruct o as [st oc gd ee tf nt s3]. cbn in Hk.
  unfold grid_edit_write.
  unfold bind at 1. unfold bind at 1, on_base at 1. cbn [base].
  destruct (create_control_checkbox P st Hk) as (w & Hcc & Hw). rewrite Hcc.
  unfold bind at 1, attr at 1. unfold bind at 1, on_base at 1, control_call at 1.
  cbn [base with_base self on_self with_control _control edit_el].
  destruct st as [c dc l n]. destruct c. cbn in *. subst.
  destruct (assoc (column_field args) (rowData args)) as [v|] eqn:Ea;
    unfold on_base, control_set, grid_edit_read, CheckboxInput_grid_edit_read, bind, on_base,
      self_attr, control_get, js_get, ret; cbn;
    rewrite ?lookup_insert_ne by done; rewrite Hw; reflexivity.
Qed.

Lemma CheckboxInput_grid_editor_ignores_the_cell_witness :
  returned ((run grid_edit_write utc
                   {| column_field := "done"; rowData := [("done", PyBool true)] |}
             then grid_edit_read utc) (hooked (world checkbox_input) PyNone))
  = Ok (PyBool false).
Proof.
  apply (CheckboxInput_grid_editor_ignores_the_cell utc
           (hooked (world checkbox_input) PyNone)
           {| column_field := "done"; rowData := [("done", PyBool true)] |}).
  reflexivity.
Defined.

(** ** Change events *)

(** X14: a change to an empty value is reported as [None]: when the event of the
    widget carries [0], [False], the empty string or no value at all, the
    [on_change] callback is handed [None] under [value], although the
    control still reads the value of the widget; and the object is left as
    it was. *)
Theorem change_reports_empty_value_as_None
    (P : Platform) (o : Obj) (w : JsObject) (args v changed : PyVal) :
  is_not_None (on_change o) = true ->
  dict_get args "value" PyNone = Ok changed ->
  truthy changed = false ->
  match cls (self (base o)) with
  | TextInput | MultiLineInput | NumberInput => True
  | _ => False
  end ->
  _control (self (base o)) = Some w ->
  w !! "value" = Some v ->
  change P args o
  = Ok (tt, notify (PyDict [("name", name (self (base o))); ("value", PyNone)]) o) /\
  returned (on_base (value_get P) o) = Ok v.
Proof.
  destruct o as [st oc gd ee tf nt s3]. destruct st as [c dc l n]. destruct c. cbn.
  intros Hcb Hargs Hf Hk Hc Hw. subst.
  split.
  - unfold change, bind, attr, on_base, self_attr, lift, modify. cbn.
    rewrite Hcb, Hargs, Hf. reflexivity.
  - destruct cls0; try contradiction;
      unfold on_base, value_get, BaseInput_value_get, bind, self_attr, when, control_get,
        js_get, set_self, modify, control_is_not_None; cbn; rewrite Hw; reflexivity.
Qed.

Lemma change_reports_empty_value_as_None_witness :
  change utc (PyDict [("value", PyStr "")])
    (hooked (user_sets "value" (PyStr "") mounted_text) (PyFunc "on_change"))
  = Ok (tt, notify (PyDict [("name", PyStr "title"); ("value", PyNone)])
              (hooked (user_sets "value" (PyStr "") mounted_text) (PyFunc "on_change"))) /\
  returned (on_base (value_get utc)
              (hooked (user_sets "value" (PyStr "") mounted_text) (PyFunc "on_change")))
  = Ok (PyStr "").
Proof.
  apply (change_reports_empty_value_as_None utc
           (hooked (user_sets "value" (PyStr "") mounted_text) (PyFunc "on_change"))
           (<["value" := PyStr ""]> text_widget)
           (PyDict [("value", PyStr "")]) (PyStr "") (PyStr ""));
    first [reflexivity | exact I | apply lookup_insert_eq].
Defined.

(** ** serialized *)

(** X15: [serialized] goes by the cache: while nothing is cached it is [None]
    even if the widget holds a date; once [value] has been read, it is the
    ISO form of the day the widget holds, a day of the years 1 to 9999. *)
Theorem serialized_goes_by_the_cache
    (P : Platform) (date_isoformat : Z -> string)
    (datetime_isoformat : Z -> Z -> Z -> Z -> Z -> string)
    (st : St) (w : JsObject) (ms d : Z) :
  cls (self st) = DateInput ->
  _control (self st) = Some w ->
  w !! "value" = Some (JsDate ms) ->
  day_of P (JsDate ms) = Some d ->
  (_value (self st) = PyNone ->
   serialized P date_isoformat datetime_isoformat st = Ok (PyNone, st)) /\
  result_of ((run value_get P then serialized P date_isoformat datetime_isoformat) st)
  = Ok (PyStr (date_isoformat d)).
Proof.
  destruct st as [c dc l n]. destruct c. cbn. intros Hk Hc Hw Hd. subst.
  assert (Hft : date_fromtimestamp P ms = Ok (PyDate d)).
  { unfold date_fromtimestamp. unfold day_of in Hd. cbv zeta in Hd |- *.
    destruct (valid_day _); inversion Hd; reflexivity. }
  split.
  - intros ->. reflexivity.
  - unfold serialized, value_get, DateInput_value_get, bind, self_attr, when, control_get,
      js_get, set_self, modify, control_is_not_None, getTime, ret, FormInputs.lift.
    cbn -[date_fromtimestamp]. rewrite Hw. cbn -[date_fromtimestamp]. rewrite Hft.
    cbn -[date_fromtimestamp]. rewrite Hw. cbn -[date_fromtimestamp]. rewrite Hft.
    reflexivity.
Qed.

Lemma serialized_goes_by_the_cache_witness :
  (_value (self picked_date) = PyNone ->
   serialized utc (fun _ => "1970-01-02") (fun _ _ _ _ _ => "") picked_date
   = Ok (PyNone, picked_date)) /\
  result_of ((run value_get utc then
              serialized utc (fun _ => "1970-01-02") (fun _ _ _ _ _ => "")) picked_date)
  = Ok (PyStr "1970-01-02").
Proof.
  apply (serialized_goes_by_the_cache utc (fun _ => "1970-01-02") (fun _ _ _ _ _ => "")
           picked_date
           (<["value" := JsDate 86400000]> (ej_new "DatePicker" [("placeholder", PyStr "Due")]))
           86400000 1); first [reflexivity | apply lookup_insert_eq].
Defined.

(** ** The data of a lookup *)

Lemma comprehension_Forall2 {A B} (f : A -> result B) (xs : list A) : forall ys,
  comprehension f xs = Ok ys -> Forall2 (fun x y => f x = Ok y) xs ys.
Proof.
  induction xs as [|x t IH]; intros ys H; cbn in H.
  - inversion H. constructor.
  - destruct (f x) as [y|] eqn:E; [cbn in H | discriminate H].
    destruct (comprehension f t) as [ys'|] eqn:E'; [cbn in H | discriminate H].
    inversion H; subst. constructor; [exact E | apply IH; reflexivity].
Qed.

(** X16: [get_options] makes one option per record of the data, in the order of
    the data: a dict of just the record's [uid] and, under [name], what
    [compute_option] makes of the record or, without it, the record's field
    named by the first segment of [text_field].  The object is left
    alone. *)
Theorem get_options_follows_the_data
    (compute_option : option (PyVal -> result PyVal))
    (o o' : Obj) (data : PyVal) (opts : list PyVal) :
  LookupInput_get_options compute_option data o = Ok (PyList opts, o') ->
  o' = o /\
  exists items,
    py_iter data = Ok items /\
    Forall2 (fun item opt =>
      exists n u,
        opt = PyDict [("name", n); ("uid", u)] /\
        getitem item "uid" = Ok u /\
        match compute_option with
        | Some f => f item = Ok n
        | None => exists k, first_segment (text_field o) = Ok k /\ getitem item k = Ok n
        end) items opts.
Proof.
  unfold LookupInput_get_options, bind, attr, lift, ret.
  intros H.
  destruct (py_iter data) as [items|] eqn:Ei; [|discriminate H].
  destruct (comprehension _ items) as [ys|] eqn:Ec; [|discriminate H].
  inversion H; subst. split; [reflexivity|].
  exists items. split; [reflexivity|].
  apply comprehension_Forall2 in Ec.
  eapply Forall2_impl; [exact Ec|]. intros item opt Ho. cbn in Ho.
  unfold option_of in Ho.
  destruct compute_option as [f|].
  - destruct (f item) as [n|] eqn:En; [cbn in Ho | discriminate Ho].
    destruct (getitem item "uid") as [u|] eqn:Eu; [cbn in Ho | discriminate Ho].
    inversion Ho. eauto.
  - destruct (first_segment (text_field _)) as [k|] eqn:Ek; [cbn in Ho | discriminate Ho].
    destruct (getitem item k) as [n|] eqn:En; [cbn in Ho | discriminate Ho].
    destruct (getitem item "uid") as [u|] eqn:Eu; [cbn in Ho | discriminate Ho].
    inversion Ho. exists n, u. eauto.
Qed.

Lemma get_options_follows_the_data_witness :
  hooked mounted_lookup PyNone = hooked mounted_lookup PyNone /\
  exists items,
    py_iter (PyList [ann; bob]) = Ok items /\
    Forall2 (fun item opt =>
      exists n u,
        opt = PyDict [("name", n); ("uid", u)] /\
        getitem item "uid" = Ok u /\
        match @None (PyVal -> result PyVal) with
        | Some f => f item = Ok n
        | None =>
            exists k, first_segment (text_field (hooked mounted_lookup PyNone)) = Ok k /\
                      getitem item k = Ok n
        end) items
      [PyDict [("name", PyStr "Ann"); ("uid", PyStr "c1")];
       PyDict [("name", PyStr "Bob"); ("uid", PyStr "c2")]].
Proof.
  apply (get_options_follows_the_data None (hooked mounted_lookup PyNone)
           (hooked mounted_lookup PyNone) (PyList [ann; bob])
           [PyDict [("name", PyStr "Ann"); ("uid", PyStr "c1")];
            PyDict [("name", PyStr "Bob"); ("uid", PyStr "c2")]]).
  reflexivity.
Defined.

Lemma create_control_lookup (P : Platform) (st : St) :
  cls (self st) = LookupInput ->
  py_eq (select (self st)) (PyStr "single") = true ->
  exists w st1,
    create_control P st = Ok (tt, st1) /\
    cls (self st1) = LookupInput /\
    select (self st1) = select (self st) /\
    _control (self st1) = Some w /\
    w !! "fields" = Some (fields (self st)).
Proof.
  destruct st as [c d l n]. destruct c. cbn. intros -> Hs.
  unfold create_control, LookupInput_create_control, DropdownInput_create_control,
    control_setter, new_el_id, bind, self_attr, set_self, modify, when, control_set. cbn.
  rewrite Hs. cbn.
  destruct (is_True float_label0); cbn;
    destruct (is_not_None add_item_form0 || is_not_None add_item_model0); cbn;
    eexists; eexists; (split; [reflexivity|]); cbn;
    (split; [reflexivity|]); (split; [reflexivity|]); (split; [reflexivity|]);
    vm_compute; reflexivity.
Qed.

Lemma py_eq_PyStr (x : PyVal) (u : string) : py_eq x (PyStr u) = true -> x = PyStr u.
Proof.
  destruct x; cbn; try discriminate. intros H. apply String.eqb_eq in H. congruence.
Qed.

Lemma find_option_by_uid (u : string) (items opts : list PyVal) :
  Forall2 (fun item opt =>
    exists n x, opt = PyDict [("name", n); ("uid", x)] /\ getitem item "uid" = Ok x)
    items opts ->
  (exists item, item ∈ items /\ getitem item "uid" = Ok (PyStr u)) ->
  exists n,
    List.find (fun item =>
      match item with
      | PyDict d => match assoc "uid" d with Some x => py_eq x (PyStr u) | None => false end
      | _ => false
      end) opts = Some (PyDict [("name", n); ("uid", PyStr u)]).
Proof.
  induction 1 as [|item opt items opts (n & x & -> & Hx) _ IH]; intros (it & Hin & Hu).
  - inversion Hin.
  - cbn. destruct (py_eq x (PyStr u)) eqn:E.
    + apply py_eq_PyStr in E. subst. eauto.
    + apply IH. apply elem_of_cons in Hin as [->|Hin]; [|eauto].
      rewrite Hu in Hx. inversion Hx; subst. cbn in E.
      rewrite String.eqb_refl in E. discriminate E.
Qed.

(** X17: a lookup is given its records as [data] and one of them as [value];
    what then reads back is not that record but the option made of the
    first record with its uid: a dict of [name] and [uid]. *)
Theorem LookupInput_reads_the_option_of_a_record
    (P : Platform) (compute_option : option (PyVal -> result PyVal))
    (o : Obj) (items : list PyVal) (item : PyVal) (u : string)
    (f : list (string * PyVal)) :
  cls (self (base o)) = LookupInput ->
  py_eq (select (self (base o))) (PyStr "single") = true ->
  fields (self (base o)) = PyDict f ->
  assoc "value" f = Some (PyStr "uid") ->
  item ∈ items ->
  getitem item "uid" = Ok (PyStr u) ->
  (exists opts, comprehension (option_of compute_option (text_field o)) items = Ok opts) ->
  exists n,
    returned ((run on_base (create_control P) then
               run LookupInput_data_set compute_option (PyList items) then
               run on_base (value_set P item) then
               on_base (value_get P)) o)
    = Ok (PyDict [("name", n); ("uid", PyStr u)]).
Proof.
  intros Hk Hs Hf Hfv Hin Hu (opts & Hopts).
  destruct o as [st oc gd ee tf nt s3]. cbn in Hk, Hs, Hf, Hopts.
  destruct (create_control_lookup P st Hk Hs) as (w & st1 & Hcc & Hk1 & Hs1 & Hc1 & Hw).
  rewrite <- Hs1 in Hs.
  rewrite Hf in Hw.
  assert (Hfind := find_option_by_uid u items opts).
  destruct Hfind as (n & Hfind).
  { apply comprehension_Forall2 in Hopts.
    eapply Forall2_impl; [exact Hopts|]. intros it opt Ho. cbn in Ho.
    unfold option_of in Ho.
    destruct (match compute_option with
              | Some g => g it
              | None => let? k := first_segment tf in getitem it k
              end) as [n|]; [cbn in Ho | discriminate Ho].
    destruct (getitem it "uid") as [x|]; [cbn in Ho | discriminate Ho].
    inversion Ho. eauto. }
  { eauto. }
  exists n.
  unfold bind at 1, on_base at 1. cbn [base]. rewrite Hcc. cbn [with_base].
  clear Hcc Hk.
  destruct st1 as [c1 dc1 l1 n1]. destruct c1. cbn in Hk1, Hs, Hc1. subst.
  assert (Ht : truthy (PyList items) = true).
  { destruct items; [inversion Hin | reflexivity]. }
  assert (Hti : truthy item = true /\ getitem_uid item = Ok (PyStr u)).
  { split; [|exact Hu]. destruct item; try discriminate Hu.
    destruct d; [discriminate Hu | reflexivity]. }
  destruct Hti as (Hti & Hgu).
  unfold LookupInput_data_set, LookupInput_get_options, DropdownInput_options_set, value_set, value_get, LookupInput_value_set,
    LookupInput_value_get, bind, on_base, attr, lift, self_attr, set_self, modify, when,
    control_set, control_get, js_get, control_is_not_None, ret, FormInputs.lift.
  cbn -[truthy getitem_uid getDataByValue comprehension].
  rewrite Ht. cbn -[truthy getitem_uid getDataByValue comprehension].
  rewrite Hopts. cbn -[truthy getitem_uid getDataByValue comprehension].
  rewrite Hti. rewrite Hs. rewrite Hgu.
  cbn -[truthy getitem_uid getDataByValue comprehension].
  rewrite lookup_insert_eq. cbn -[truthy getitem_uid getDataByValue comprehension].
  rewrite Hs. cbn -[truthy getitem_uid getDataByValue comprehension].
  unfold getDataByValue.
  rewrite lookup_insert_ne by done. rewrite lookup_insert_eq.
  rewrite lookup_insert_ne by done. rewrite lookup_insert_ne by done. rewrite Hw.
  rewrite Hfv. rewrite Hfind. reflexivity.
Qed.

Lemma LookupInput_reads_the_option_of_a_record_witness :
  exists n,
    returned ((run on_base (create_control utc) then
               run LookupInput_data_set None (PyList [ann; bob]) then
               run on_base (value_set utc bob) then
               on_base (value_get utc)) (hooked (world lookup_input) PyNone))
    = Ok (PyDict [("name", n); ("uid", PyStr "c2")]).
Proof.
  apply (LookupInput_reads_the_option_of_a_record utc None
           (hooked (world lookup_input) PyNone) [ann; bob] bob "c2"
           [("text", PyStr "name"); ("value", PyStr "uid")]);
    first [reflexivity | set_solver | eexists; reflexivity].
Defined.

Lemma upload_entry_eq (x u : Upload) :
  py_eq (upload_entry x) (upload_entry u) = true -> up_name x = up_name u.
Proof.
  unfold upload_entry. cbn. intros H.
  destruct (String.eqb (up_name x) (up_name u)) eqn:E; [|discriminate H].
  apply String.eqb_eq. exact E.
Qed.

Lemma upload_entry_refl (u : Upload) : py_eq (upload_entry u) (upload_entry u) = true.
Proof.
  unfold upload_entry. cbn. rewrite !String.eqb_refl, Z.eqb_refl. reflexivity.
Qed.

Lemma list_remove_first (u : Upload) (before after : list Upload) :
  Forall (fun x => up_name x <> up_name u) before ->
  list_remove (upload_entry u) (map upload_entry (before ++ u :: after))
  = map upload_entry (before ++ after).
Proof.
  induction 1 as [|x t Hx _ IH]; cbn [app map list_remove].
  - rewrite upload_entry_refl. reflexivity.
  - destruct (py_eq (upload_entry x) (upload_entry u)) eqn:E.
    + apply upload_entry_eq in E. contradiction.
    + rewrite IH. reflexivity.
Qed.

Lemma remove_upload_from_skips (n : string) (skipped : list Upload) (rest : list PyVal)
    (o : Obj) :
  Forall (fun x => up_name x <> n) skipped ->
  remove_upload_from true (PyStr n) (map upload_entry skipped ++ rest) o
  = remove_upload_from true (PyStr n) rest o.
Proof.
  induction 1 as [|x t Hx _ IH]; [reflexivity|].
  cbn [map app remove_upload_from].
  unfold bind at 1, lift at 1. cbn [upload_entry getitem assoc String.eqb Ascii.eqb Bool.eqb].
  cbn [py_eq].
  destruct (String.eqb (up_name x) n) eqn:E; [apply String.eqb_eq in E; contradiction|].
  exact IH.
Qed.

(** X18: [remove_upload] takes out the first recorded upload that has the name
    of the removed file, and only that one: its object is deleted from the
    storage, the widget is told, and the others stay in their order.  With
    no upload of that name nothing happens. *)
Theorem remove_upload_takes_the_first_of_that_name
    (o : Obj) (w : JsObject) (n : string) (uploads : list Upload) :
  _control (self (base o)) = Some w ->
  _value (self (base o)) = PyList (map upload_entry uploads) ->
  (Forall (fun x => up_name x <> n) uploads ->
   remove_upload true (PyStr n) o = Ok (tt, o)) /\
  (forall before u after,
     uploads = (before ++ u :: after)%list ->
     Forall (fun x => up_name x <> n) before ->
     up_name u = n ->
     exists o',
       remove_upload true (PyStr n) o = Ok (tt, o') /\
       _value (self (base o')) = PyList (map upload_entry (before ++ after)) /\
       s3_deleted o' = (PyList [PyStr (up_key u)], PyStr (up_bucket u)) :: s3_deleted o /\
       calls (base o') = ("remove", [upload_entry u]) :: calls (base o)).
Proof.
  intros Hc Hv.
  assert (E : with_base (base o) o = o) by (destruct o; reflexivity).
  split.
  - intros Hall.
    unfold remove_upload, bind, on_base, self_attr, lift. rewrite Hv. cbn [py_iter].
    rewrite E.
    rewrite <- (app_nil_r (map upload_entry uploads)).
    rewrite (remove_upload_from_skips n uploads [] o Hall). reflexivity.
  - intros before u after -> Hb Hu.
    unfold remove_upload, bind at 1, on_base at 1, self_attr at 1. rewrite Hv.
    cbn [py_iter]. unfold bind at 1, lift at 1. rewrite E.
    rewrite map_app. rewrite (remove_upload_from_skips n before _ o Hb).
    cbn [map remove_upload_from].
    unfold bind at 1, lift at 1. cbn [upload_entry getitem assoc String.eqb Ascii.eqb Bool.eqb].
    cbn [py_eq]. rewrite Hu, String.eqb_refl.
    destruct o as [st oc gd ee tf nt s3]. destruct st as [c dc l k]. destruct c.
    cbn in Hc, Hv. subst.
    unfold bind, lift, on_base, self_attr, modify, set_self, control_call. cbn.
    eexists. split; [reflexivity|]. cbn.
    split; [|split; reflexivity].
    f_equal. apply list_remove_first. exact Hb.
Qed.

Lemma remove_upload_takes_the_first_of_that_name_witness :
  (Forall (fun x => up_name x <> "photo.png") [report; photo] ->
   remove_upload true (PyStr "photo.png") (hooked mounted_upload PyNone)
   = Ok (tt, hooked mounted_upload PyNone)) /\
  (forall before u after,
     [report; photo] = (before ++ u :: after)%list ->
     Forall (fun x => up_name x <> "photo.png") before ->
     up_name u = "photo.png" ->
     exists o',
       remove_upload true (PyStr "photo.png") (hooked mounted_upload PyNone) = Ok (tt, o') /\
       _value (self (base o')) = PyList (map upload_entry (before ++ after)) /\
       s3_deleted o'
       = (PyList [PyStr (up_key u)], PyStr (up_bucket u))
           :: s3_deleted (hooked mounted_upload PyNone) /\
       calls (base o')
       = ("remove", [upload_entry u]) :: calls (base (hooked mounted_upload PyNone))).
Proof.
  apply (remove_upload_takes_the_first_of_that_name (hooked mounted_upload PyNone)
           (ej_new "Uploader" [("multiple", PyBool true)]) "photo.png" [report; photo]);
    reflexivity.
Defined.

End InputFacts.

(** * Further properties of the grid view *)

Module GridFacts.

Import GridView GridVocabulary Samples Examples GridViewFacts.

(** ** Splitting and joining paths *)

Lemma split_dot_nonempty s : split_dot s <> [].
Proof.
  destruct s as [|a r]; cbn; [discriminate|].
  destruct (Ascii.eqb a "."); [discriminate|].
  destruct (split_dot r); discriminate.
Qed.

Lemma split_dot_has_dot s :
  has_dot s = true ->
  exists a rest, split_dot s = a :: split_dot rest /\ s = a +:+ "." +:+ rest /\
                 has_dot a = false.
Proof.
  induction s as [|c r IH]; cbn; [discriminate|].
  destruct (Ascii.eqb c ".") eqn:E; cbn.
  - intros _. apply Ascii.eqb_eq in E. subst. exists "", r. auto.
  - intros H. destruct (IH H) as (a & rest & Hs & Hr & Ha).
    rewrite Hs. exists (String c a), rest. cbn. rewrite E, Ha.
    split; [reflexivity|]. split; [|reflexivity]. rewrite Hr. reflexivity.
Qed.

Lemma split_dot_no_dot s : has_dot s = false -> split_dot s = [s].
Proof.
  induction s as [|c r IH]; cbn; [reflexivity|].
  destruct (Ascii.eqb c "."); cbn; [discriminate|].
  intros H. rewrite (IH H). reflexivity.
Qed.

Lemma join_split_dot s : join_dot (split_dot s) = s.
Proof.
  induction s as [|c r IH]; [reflexivity|]. cbn.
  destruct (Ascii.eqb c ".") eqn:E.
  - apply Ascii.eqb_eq in E. subst. unfold join_dot in *. cbn.
    destruct (split_dot r) eqn:Er; [exfalso; eapply split_dot_nonempty; eauto|].
    cbn in *. rewrite IH. reflexivity.
  - unfold join_dot in *. destruct (split_dot r) as [|h t] eqn:Er;
      [exfalso; eapply split_dot_nonempty; eauto|].
    cbn in *. destruct t; cbn in *; rewrite <- IH; reflexivity.
Qed.

(** The path that is left for the related class is one segment shorter. *)
Lemma tail_of_path s :
  has_dot s = true ->
  (length (split_dot (join_dot (tl (split_dot s)))) < length (split_dot s))%nat.
Proof.
  intros H. destruct (split_dot_has_dot s H) as (a & rest & Hs & _ & _).
  rewrite Hs. cbn [tl]. rewrite join_split_dot. cbn. lia.
Qed.

(** ** Fuel *)

(** X19: [get_model_attribute] follows one relationship per segment of the path,
    so with titles that are plain attribute names a depth of one frame per
    segment is enough: the recursion limit is never hit, whatever cycles
    the relationships of the model have. *)
Theorem get_model_attribute_needs_one_frame_per_segment
    (dm : gmap string ModelClass) (depth : nat) (cname attr_name : string) :
  (forall n c, dm !! n = Some c -> has_dot (_title c) = false) ->
  (length (split_dot attr_name) <= depth)%nat ->
  get_model_attribute dm depth cname attr_name <> Raise RecursionError.
Proof.
  intros Htitles. revert cname attr_name.
  induction depth as [|d IH]; intros cname attr_name Hlen.
  - pose proof (split_dot_nonempty attr_name). destruct (split_dot attr_name); [congruence|].
    cbn in Hlen. lia.
  - cbn [get_model_attribute].
    destruct (dm !! cname) as [cls|] eqn:Ec; [|discriminate].
    specialize (Htitles _ _ Ec).
    destruct (String.eqb attr_name "_title") eqn:Et.
    + destruct (assoc (_title cls) (_attributes cls)); [discriminate|].
      destruct (assoc (_title cls) (_computes cls)); [discriminate|].
      rewrite Htitles. discriminate.
    + destruct (assoc attr_name (_attributes cls)); [discriminate|].
      destruct (assoc attr_name (_computes cls)); [discriminate|].
      destruct (has_dot attr_name) eqn:Hd; [|discriminate].
      destruct (assoc (hd "" (split_dot attr_name)) (_attributes cls)); [discriminate|].
      destruct (assoc (hd "" (split_dot attr_name)) (_relationships cls)) as [r|];
        [|discriminate].
      pose proof (tail_of_path attr_name Hd) as Ht.
      specialize (IH (class_name r) (join_dot (tl (split_dot attr_name)))).
      destruct (get_model_attribute dm d (class_name r) _) as [[a n]|e]; [discriminate|].
      intros H. inversion H; subst. apply IH; [lia | reflexivity].
Qed.

Lemma get_model_attribute_needs_one_frame_per_segment_witness :
  get_model_attribute (data_models app_env) 2 "Order" "customer.name"
  <> Raise RecursionError.
Proof.
  apply (get_model_attribute_needs_one_frame_per_segment
           (data_models app_env) 2 "Order" "customer.name").
  - intros n c H. unfold app_env, data_models in H.
    apply lookup_insert_Some in H as [[_ <-]|[_ H]]; [reflexivity|].
    apply lookup_singleton_Some in H as [_ <-]. reflexivity.
  - vm_compute. lia.
Defined.

(** ** Dotted paths *)

Lemma split_dot_app first rest :
  has_dot first = false ->
  split_dot (first +:+ "." +:+ rest) = first :: split_dot rest.
Proof.
  induction first as [|c r IH]; simpl; [reflexivity|].
  destruct (Ascii.eqb c "."); simpl; [discriminate|].
  intros H. rewrite (IH H). reflexivity.
Qed.

Lemma has_dot_app first rest : has_dot (first +:+ "." +:+ rest) = true.
Proof.
  induction first as [|c r IH]; simpl; [reflexivity|].
  rewrite IH. apply orb_true_r.
Qed.

Lemma dotted_is_not_title first rest :
  String.eqb (first +:+ "." +:+ rest) "_title" = false.
Proof.
  destruct (String.eqb _ _) eqn:E; [|reflexivity].
  apply String.eqb_eq in E.
  pose proof (has_dot_app first rest) as H. rewrite E in H. discriminate H.
Qed.

(** X20: a dotted path that is not itself the name of an attribute goes by its
    first segment.  If that names an attribute, the attribute is the answer
    and the rest of the path is not looked at; if it names a relationship,
    the answer is what the rest of the path resolves to on the related
    class; otherwise there is none.  The name comes back split into its
    segments. *)
Theorem dotted_path_goes_by_its_first_segment
    (dm : gmap string ModelClass) (depth : nat) (cname first rest : string)
    (cls : ModelClass) :
  dm !! cname = Some cls ->
  has_dot first = false ->
  assoc (first +:+ "." +:+ rest) (_attributes cls) = None ->
  assoc (first +:+ "." +:+ rest) (_computes cls) = None ->
  get_model_attribute dm (S depth) cname (first +:+ "." +:+ rest)
  = match assoc first (_attributes cls) with
    | Some a => Ok (Some a, Segments (first :: split_dot rest))
    | None =>
        match assoc first (_relationships cls) with
        | Some r =>
            match get_model_attribute dm depth (class_name r) rest with
            | Ok (attr, _) => Ok (attr, Segments (first :: split_dot rest))
            | Raise e => Raise e
            end
        | None => Ok (None, Segments (first :: split_dot rest))
        end
    end.
Proof.
  intros Hc Hf Ha Hcomp. cbn [get_model_attribute]. rewrite Hc.
  rewrite dotted_is_not_title, Ha, Hcomp, has_dot_app, (split_dot_app first rest Hf).
  cbn [hd tl]. rewrite join_split_dot. reflexivity.
Qed.

Lemma dotted_path_goes_by_its_first_segment_witness :
  get_model_attribute (data_models app_env) 2 "Order" "name.anything"
  = Ok (Some {| field_type := string_type |}, Segments ["name"; "anything"]) /\
  get_model_attribute (data_models app_env) 2 "Order" "customer.name"
  = Ok (Some {| field_type := string_type |}, Segments ["customer"; "name"]).
Proof.
  assert (H : data_models app_env !! "Order" = Some Order) by (vm_compute; reflexivity).
  split.
  - exact (dotted_path_goes_by_its_first_segment (data_models app_env) 1 "Order"
             "name" "anything" Order H eq_refl eq_refl eq_refl).
  - exact (dotted_path_goes_by_its_first_segment (data_models app_env) 1 "Order"
             "customer" "name" Order H eq_refl eq_refl eq_refl).
Defined.

(** ** The grid configuration *)

Lemma assoc_setitem {A} (k k' : string) (v : A) (d : list (string * A)) :
  assoc k' (setitem k v d) = if String.eqb k' k then Some v else assoc k' d.
Proof.
  induction d as [|[k0 v0] d IH]; cbn.
  - destruct (String.eqb k' k); reflexivity.
  - destruct (String.eqb k k0) eqn:E; cbn.
    + apply String.eqb_eq in E. subst k0.
      destruct (String.eqb k' k); reflexivity.
    + destruct (String.eqb k' k0) eqn:E'.
      * apply String.eqb_eq in E'. subst k0.
        rewrite String.eqb_sym in E. rewrite E. reflexivity.
      * exact IH.
Qed.

Lemma switched_on_setitem (sw k : string) (v : PyVal) (d : list (string * PyVal)) :
  assoc sw d = Some (PyBool true) ->
  String.eqb sw k = false \/ v = PyBool true ->
  assoc sw (setitem k v d) = Some (PyBool true).
Proof.
  intros H Hk. rewrite assoc_setitem.
  destruct (String.eqb sw k); [|exact H].
  destruct Hk as [Hk | ->]; [discriminate Hk | reflexivity].
Qed.

Lemma apply_modes_switches (modes : list PyVal) : forall cfg cfg',
  apply_modes modes cfg = Ok cfg' ->
  (forall sw, assoc sw cfg = Some (PyBool true) -> assoc sw cfg' = Some (PyBool true)) /\
  (forall m sw, PyStr m ∈ modes -> assoc m GRID_MODE_TO_SWITCH = Some sw ->
                assoc sw cfg' = Some (PyBool true)).
Proof.
  induction modes as [|mode rest IH]; intros cfg cfg' H; cbn [apply_modes] in H.
  - inversion H; subst. split; [auto|]. intros m sw Hin. inversion Hin.
  - destruct mode; try discriminate H;
      try (destruct (IH _ _ H) as [K1 K2]; split; [exact K1|];
           intros m sw Hin Hsw; apply elem_of_cons in Hin as [Hin|Hin];
           [discriminate Hin | eauto]).
    destruct (assoc s GRID_MODE_TO_SWITCH) as [switch|] eqn:Es.
    + destruct (IH _ _ H) as [K1 K2]. split.
      * intros sw Hsw. apply K1. apply switched_on_setitem; auto.
      * intros m sw Hin Hsw. apply elem_of_cons in Hin as [Hin|Hin]; [|eauto].
        injection Hin as ->. rewrite Es in Hsw. injection Hsw as ->.
        apply K1. rewrite assoc_setitem, String.eqb_refl. reflexivity.
    + destruct (IH _ _ H) as [K1 K2]. split; [exact K1|].
      intros m sw Hin Hsw. apply elem_of_cons in Hin as [Hin|Hin]; [|eauto].
      injection Hin as ->. rewrite Es in Hsw. discriminate Hsw.
Qed.

(** The switches of [GRID_MODE_TO_SWITCH] are none of the other keys that
    the constructor writes to the grid configuration. *)
Lemma switch_names (m sw : string) :
  assoc m GRID_MODE_TO_SWITCH = Some sw ->
  sw ∈ ["allowSorting"; "allowFiltering"; "allowGrouping"; "allowPaging";
        "enableInfiniteScrolling"; "allowExcelExport"; "allowPdfExport";
        "allowReordering"; "allowResizing"; "allowRowDragAndDrop"; "allowSelection"].
Proof.
  unfold GRID_MODE_TO_SWITCH. cbn [assoc].
  repeat (destruct (String.eqb m _);
          [intros H; injection H as <-; set_solver|]).
  discriminate.
Qed.

(** What the constructor does after the columns are built, laid out step by
    step. *)
Lemma init_steps P env cid title model vn vcfg sq fl gm ti gv :
  __init__ P env cid title model vn vcfg sq fl gm ti = Ok gv ->
  exists vc gc vcl modes mode_list cfg0 items0 (paged edit with_toolbar filter selection : bool),
    resolve_view_config P env model vn vcfg = Ok (vc, GridView.model gv) /\
    build_grid_columns P env (GridView.model gv) vc = Ok gc /\
    vc = PyDict vcl /\
    view_config gv = vc /\
    grid_view_config gv
    = match assoc "modes" vcl with
      | Some _ => vcl
      | None =>
          setitem "modes"
            (py_or gm (default GRID_DEFAULT_MODES (assoc "modes" (grid_settings env)))) vcl
      end /\
    getitem (PyDict (grid_view_config gv)) "modes" = Ok modes /\
    py_iter modes = Ok mode_list /\
    apply_modes mode_list [] = Ok cfg0 /\
    py_in "Page" modes = Ok paged /\
    py_in "Edit" modes = Ok edit /\
    py_in "Toolbar" modes = Ok with_toolbar /\
    py_in "Filter" modes = Ok filter /\
    py_in "Selection" modes = Ok selection /\
    (paged = true -> is_Some (assoc "pageSize" (grid_view_config gv))) /\
    grid_title gv = match title with Some t => t | None => camel_to_title (GridView.model gv) end /\
    toolbar_items gv = title_item (grid_title gv) :: items0 /\
    (with_toolbar = false -> items0 = []) /\
    toolbar (grid gv) = toolbar_items gv /\
    config (grid gv) = grid_config gv /\
    grid_config gv
    = setitem "actionComplete" (PyFunc "grid_action_handler")
        (setitem "actionBegin" (PyFunc "grid_action_handler")
           (setitem "height" (PyStr "100%")
              (setitem "width" (PyStr "100%")
                 (setitem "allowTextWrap" (PyBool true)
                    (setitem "showColumnMenu" (PyBool true)
                       ((if selection
                         then setitem "selectionSettings" GRID_DEFAULT_SELECTION_SETTINGS
                         else fun c => c)
                          ((if filter
                            then setitem "filterSettings" GRID_DEFAULT_FILTER_SETTINGS
                            else fun c => c)
                             (setitem "toolbarClick" (PyFunc "toolbar_click")
                                ((if edit
                                  then setitem "editSettings"
                                         (default GRID_DEFAULT_EDIT_SETTINGS
                                            (assoc "editSettings" (grid_view_config gv)))
                                  else fun c => c)
                                   (if paged
                                    then setitem "pageSettings"
                                           (PyDict [("pageSize",
                                               default PyNone
                                                 (assoc "pageSize" (grid_view_config gv)))])
                                           (setitem "allowPaging" (PyBool true) cfg0)
                                    else setitem "pageSettings"
                                           (PyDict [("pageSize", PyInt 1000000)]) cfg0)))))))))).
Proof.
  unfold __init__. intros H.
  destruct (resolve_view_config P env model vn vcfg) as [[vc mname]|] eqn:R;
    [cbn [and_then fst snd] in H | discriminate H].
  destruct (build_grid_columns P env mname vc) as [gc|] eqn:B;
    [cbn [and_then] in H | discriminate H].
  destruct vc as [| | | | | | | |vcl|]; try discriminate H. cbn [and_then] in H.
  set (gvc := match assoc "modes" vcl with Some _ => vcl | None => _ end) in H.
  destruct (getitem (PyDict gvc) "modes") as [modes|] eqn:Em;
    [cbn [and_then] in H | discriminate H].
  destruct (py_iter modes) as [mode_list|] eqn:Ei; [cbn [and_then] in H | discriminate H].
  destruct (apply_modes mode_list []) as [cfg0|] eqn:Ea;
    [cbn [and_then] in H | discriminate H].
  destruct (py_in "Page" modes) as [paged|] eqn:Ep; [cbn [and_then] in H | discriminate H].
  assert (Hpage : exists cfg1,
    (if paged
     then let? size := getitem (PyDict gvc) "pageSize" in
          Ok (setitem "pageSettings" (PyDict [("pageSize", size)])
                (setitem "allowPaging" (PyBool true) cfg0))
     else Ok (setitem "pageSettings" (PyDict [("pageSize", PyInt 1000000)]) cfg0)) = Ok cfg1 /\
    (paged = true -> is_Some (assoc "pageSize" gvc)) /\
    cfg1 = (if paged
            then setitem "pageSettings"
                   (PyDict [("pageSize", default PyNone (assoc "pageSize" gvc))])
                   (setitem "allowPaging" (PyBool true) cfg0)
            else setitem "pageSettings" (PyDict [("pageSize", PyInt 1000000)]) cfg0)).
  { destruct paged.
    - cbn [getitem] in H |- *. destruct (assoc "pageSize" gvc) as [size|];
        [|discriminate H]. cbn. eauto.
    - eexists. split; [reflexivity|]. split; [discriminate | reflexivity]. }
  destruct Hpage as (cfg1 & E1 & Hsize & Hcfg1). rewrite E1 in H. cbn [and_then] in H.
  destruct (py_in "Edit" modes) as [edit|] eqn:Ee; [cbn [and_then] in H | discriminate H].
  destruct (py_in "Toolbar" modes) as [with_toolbar|] eqn:Et;
    [cbn [and_then] in H | discriminate H].
  match type of H with
  | and_then ?r _ = _ => destruct r as [items0|] eqn:Eitems
  end; [cbn [and_then] in H | discriminate H].
  destruct (py_in "Filter" modes) as [filter|] eqn:Ef; [cbn [and_then] in H | discriminate H].
  destruct (py_in "Selection" modes) as [selection|] eqn:Es;
    [cbn [and_then] in H | discriminate H].
  inversion H; subst gv; clear H. cbn.
  exists (PyDict vcl), gc, vcl, modes, mode_list, cfg0, items0,
    paged, edit, with_toolbar, filter, selection.
  repeat (split; [first [reflexivity | assumption]|]).
  split.
  { intros ->. inversion Eitems. reflexivity. }
  repeat (split; [first [reflexivity | assumption]|]).
  rewrite Hcfg1. destruct selection, filter, edit; reflexivity.
Qed.

(** X21: every mode of the view that [GRID_MODE_TO_SWITCH] knows has its switch
    set in the configuration the grid is created with; nothing the
    constructor writes afterwards takes it back. *)
Theorem listed_modes_are_switched_on
    P env cid title model vn vcfg sq fl gm ti gv modes mode_list m sw :
  __init__ P env cid title model vn vcfg sq fl gm ti = Ok gv ->
  getitem (PyDict (grid_view_config gv)) "modes" = Ok modes ->
  py_iter modes = Ok mode_list ->
  PyStr m ∈ mode_list ->
  assoc m GRID_MODE_TO_SWITCH = Some sw ->
  assoc sw (config (grid gv)) = Some (PyBool true).
Proof.
  intros H Hm Hi Hin Hsw.
  apply init_steps in H
    as (vc & gc & vcl & modes' & mode_list' & cfg0 & items0 & paged & edit & tb & flt & sel
        & _ & _ & _ & _ & _ & Hm' & Hi' & Ha & _ & _ & _ & _ & _ & _ & _ & _ & _ & _
        & Hcfg & Hgc).
  rewrite Hm in Hm'. injection Hm' as <-.
  rewrite Hi in Hi'. injection Hi' as <-.
  apply apply_modes_switches in Ha as [_ Ha].
  specialize (Ha m sw Hin Hsw).
  apply switch_names in Hsw.
  rewrite Hcfg, Hgc. clear Hcfg Hgc Hin Hm Hi.
  repeat (apply elem_of_cons in Hsw as [->|Hsw]);
    [..|inversion Hsw];
    destruct sel, flt, edit, paged; cbn beta iota;
    repeat first
      [ exact Ha
      | apply switched_on_setitem; [|first [left; reflexivity | right; reflexivity]] ].
Qed.

Lemma listed_modes_are_switched_on_witness :
  assoc "enableInfiniteScrolling" (config (grid order_grid)) = Some (PyBool true).
Proof.
  apply (listed_modes_are_switched_on utc app_env (PyStr "box") None (PyStr "Order")
           PyNone PyNone PyNone PyNone PyNone PyNone order_grid
           GRID_DEFAULT_MODES
           (map PyStr ["Sort"; "Filter"; "InfiniteScroll"; "Toolbar"; "Edit";
                       "ForeignKey"; "Selection"])
           "InfiniteScroll" "enableInfiniteScrolling");
    first [exact order_grid_ok | reflexivity | set_solver | vm_compute; reflexivity].
Defined.

(** X22: without the [Page] mode the grid is given a page size of a million
    rows; with it, the page size of the view. *)
Theorem page_size_of_the_grid
    P env cid title model vn vcfg sq fl gm ti gv modes (paged : bool) :
  __init__ P env cid title model vn vcfg sq fl gm ti = Ok gv ->
  getitem (PyDict (grid_view_config gv)) "modes" = Ok modes ->
  py_in "Page" modes = Ok paged ->
  assoc "pageSettings" (config (grid gv))
  = Some (PyDict [("pageSize",
                   if paged then default PyNone (assoc "pageSize" (grid_view_config gv))
                   else PyInt 1000000)]) /\
  (paged = true -> is_Some (assoc "pageSize" (grid_view_config gv))).
Proof.
  intros H Hm Hp.
  apply init_steps in H
    as (vc & gc & vcl & modes' & mode_list' & cfg0 & items0 & paged' & edit & tb & flt & sel
        & _ & _ & _ & _ & _ & Hm' & _ & _ & Hp' & _ & _ & _ & _ & Hsize & _ & _ & _ & _
        & Hcfg & Hgc).
  rewrite Hm in Hm'. injection Hm' as <-.
  rewrite Hp in Hp'. injection Hp' as <-.
  split; [|exact Hsize].
  rewrite Hcfg, Hgc.
  destruct sel, flt, edit, paged; cbn beta iota;
    repeat (rewrite assoc_setitem; cbn [String.eqb Ascii.eqb Bool.eqb]); reflexivity.
Qed.

Lemma page_size_of_the_grid_witness :
  assoc "pageSettings" (config (grid order_grid))
  = Some (PyDict [("pageSize",
                   if false then default PyNone (assoc "pageSize" (grid_view_config order_grid))
                   else PyInt 1000000)]) /\
  (false = true -> is_Some (assoc "pageSize" (grid_view_config order_grid))).
Proof.
  apply (page_size_of_the_grid utc app_env (PyStr "box") None (PyStr "Order")
           PyNone PyNone PyNone PyNone PyNone PyNone order_grid GRID_DEFAULT_MODES false);
    first [exact order_grid_ok | reflexivity | vm_compute; reflexivity].
Defined.

Lemma apply_modes_strings (ms : list string) : forall cfg,
  exists cfg', apply_modes (map PyStr ms) cfg = Ok cfg'.
Proof.
  induction ms as [|m t IH]; intros cfg; cbn [map apply_modes]; [eauto|].
  destruct (assoc m GRID_MODE_TO_SWITCH); apply IH.
Qed.

Lemma py_in_strings (k : string) (ms : list string) :
  k ∈ ms -> py_in k (PyList (map PyStr ms)) = Ok true.
Proof.
  intros H. cbn [py_in]. f_equal.
  apply existsb_exists. exists (PyStr k). split.
  - apply in_map. apply list_elem_of_In. exact H.
  - cbn. apply String.eqb_refl.
Qed.

(** X23: asking for the [Page] mode through [grid_modes] on a view that names no
    [pageSize], as every view derived from the model alone is, makes the
    constructor fail with [KeyError: 'pageSize']. *)
Theorem paging_needs_a_page_size
    P env cid title model vn vcfg sq fl ti vcl mname gc (ms : list string) :
  resolve_view_config P env model vn vcfg = Ok (PyDict vcl, mname) ->
  build_grid_columns P env mname (PyDict vcl) = Ok gc ->
  assoc "modes" vcl = None ->
  assoc "pageSize" vcl = None ->
  "Page" ∈ ms ->
  __init__ P env cid title model vn vcfg sq fl (PyList (map PyStr ms)) ti
  = Raise (KeyError "pageSize").
Proof.
  intros R B Hm Hs Hin. unfold __init__.
  rewrite R. cbn [and_then fst snd]. rewrite B. cbn [and_then]. rewrite Hm.
  assert (Ht : py_or (PyList (map PyStr ms))
                 (default GRID_DEFAULT_MODES (assoc "modes" (grid_settings env)))
               = PyList (map PyStr ms)).
  { unfold py_or. destruct ms; [inversion Hin | reflexivity]. }
  rewrite Ht.
  cbn [getitem]. rewrite assoc_setitem, String.eqb_refl. cbn [and_then py_iter].
  destruct (apply_modes_strings ms []) as [cfg0 ->]. cbn [and_then].
  rewrite (py_in_strings "Page" ms Hin). cbn [and_then].
  rewrite assoc_setitem. cbn [String.eqb Ascii.eqb Bool.eqb]. rewrite Hs. reflexivity.
Qed.

Lemma paging_needs_a_page_size_witness :
  __init__ utc app_env (PyStr "box") None (PyStr "Order") PyNone PyNone PyNone PyNone
    (PyList (map PyStr ["Sort"; "Page"])) PyNone
  = Raise (KeyError "pageSize").
Proof.
  apply (paging_needs_a_page_size utc app_env (PyStr "box") None (PyStr "Order")
           PyNone PyNone PyNone PyNone PyNone order_view "Order" order_columns
           ["Sort"; "Page"]);
    first [reflexivity | set_solver | vm_compute; reflexivity].
Defined.

(** X24: the toolbar of the grid always begins with the item that shows the
    title, which is the title given or else the model name split at its
    capitals; with the [Toolbar] mode off there is nothing after it. *)
Theorem toolbar_begins_with_the_title
    P env cid title model vn vcfg sq fl gm ti gv :
  __init__ P env cid title model vn vcfg sq fl gm ti = Ok gv ->
  exists rest,
    toolbar (grid gv) = title_item (grid_title gv) :: rest /\
    grid_title gv
    = match title with Some t => t | None => camel_to_title (GridView.model gv) end /\
    (forall modes,
       getitem (PyDict (grid_view_config gv)) "modes" = Ok modes ->
       py_in "Toolbar" modes = Ok false -> rest = []).
Proof.
  intros H.
  apply init_steps in H
    as (vc & gc & vcl & modes' & mode_list' & cfg0 & items0 & paged' & edit & tb & flt & sel
        & _ & _ & _ & _ & _ & Hm' & _ & _ & _ & _ & Ht & _ & _ & _ & Htitle & Hitems & Hoff
        & Htb & _).
  exists items0. split; [rewrite Htb; exact Hitems|]. split; [exact Htitle|].
  intros modes Hm Hp. rewrite Hm in Hm'. injection Hm' as <-.
  rewrite Hp in Ht. injection Ht as <-. apply Hoff. reflexivity.
Qed.

Lemma toolbar_begins_with_the_title_witness :
  exists rest,
    toolbar (grid order_grid) = title_item (grid_title order_grid) :: rest /\
    grid_title order_grid
    = match @None string with
      | Some t => t
      | None => camel_to_title (GridView.model order_grid)
      end /\
    (forall modes,
       getitem (PyDict (grid_view_config order_grid)) "modes" = Ok modes ->
       py_in "Toolbar" modes = Ok false -> rest = []).
Proof.
  apply (toolbar_begins_with_the_title utc app_env (PyStr "box") None (PyStr "Order")
           PyNone PyNone PyNone PyNone PyNone PyNone order_grid).
  exact order_grid_ok.
Defined.

(** ** One grid column per view column *)

Lemma grid_column_of_Some P env m column c :
  grid_column_of P env m column = Ok (Some c) ->
  is_row_action column = false /\
  exists name header,
    getitem column "name" = Ok (PyStr name) /\
    getitem column "label" = Ok header /\
    getitem c "field" = Ok (PyStr (hd "" (split_dot name))) /\
    getitem c "headerText" = Ok header.
Proof.
  unfold grid_column_of, is_row_action. intros H.
  destruct (dict_get column "row_action" (PyBool false)) as [ra|] eqn:Era;
    [cbn [and_then] in H | discriminate H].
  destruct (truthy ra) eqn:Etr; [discriminate H|]. split; [reflexivity|].
  destruct (getitem column "name") as [cname|] eqn:En; [cbn [and_then] in H | discriminate H].
  destruct cname; try discriminate H. cbn [and_then as_str] in H.
  destruct (get_model_attribute _ _ _ _) as [r|]; [cbn [and_then] in H | discriminate H].
  destruct (getitem column "label") as [header|] eqn:El;
    [cbn [and_then] in H | discriminate H].
  destruct (fst r) as [col_attr|]; [|discriminate H].
  destruct (dict_get column "format" PyNone); [cbn [and_then] in H | discriminate H].
  destruct (dict_get column "width" PyNone); [cbn [and_then] in H | discriminate H].
  injection H as <-. exists s, header.
  split; [reflexivity|]. split; [reflexivity|]. split; [|reflexivity].
  cbn. destruct (has_dot s) eqn:Hd; [reflexivity|].
  rewrite (split_dot_no_dot s Hd). reflexivity.
Qed.

Lemma grid_column_of_None P env m column :
  grid_column_of P env m column = Ok None -> is_row_action column = true.
Proof.
  unfold grid_column_of, is_row_action. intros H.
  destruct (dict_get column "row_action" (PyBool false)) as [ra|] eqn:Era;
    [cbn [and_then] in H | discriminate H].
  destruct (truthy ra) eqn:Etr; [reflexivity|].
  inv_ok H. all: discriminate H.
Qed.

Lemma append_grid_columns_fields P env m cols : forall acc gc,
  append_grid_columns P env m cols acc = Ok gc ->
  exists derived, gc = (acc ++ derived)%list /\
    Forall2 (fun column c =>
      exists name header,
        getitem column "name" = Ok (PyStr name) /\
        getitem column "label" = Ok header /\
        getitem c "field" = Ok (PyStr (hd "" (split_dot name))) /\
        getitem c "headerText" = Ok header)
      (List.filter (fun column => negb (is_row_action column)) cols) derived.
Proof.
  induction cols as [|column rest IH]; intros acc gc H; cbn [append_grid_columns] in H.
  - inversion H. exists []. split; [symmetry; apply app_nil_r | constructor].
  - destruct (grid_column_of P env m column) as [[g|]|e] eqn:E; cbn [and_then] in H;
      [| |discriminate H].
    + apply IH in H as (derived & -> & Hd).
      apply grid_column_of_Some in E as (Hra & Hg).
      exists (g :: derived). split; [rewrite <- app_assoc; reflexivity|].
      cbn [List.filter]. rewrite Hra. cbn [negb]. constructor; assumption.
    + apply IH in H as (derived & -> & Hd).
      apply grid_column_of_None in E.
      exists derived. split; [reflexivity|].
      cbn [List.filter]. rewrite E. exact Hd.
Qed.

(** X25: the grid has one column for each column of the view that is not a row
    action, in the order of the view, after the hidden key column: it is
    bound to the first segment of the view column's path, so
    [customer.name] shows the field [customer], and headed by its label. *)
Theorem one_grid_column_per_view_column
    P env cid title model vn vcfg sq fl gm ti gv :
  __init__ P env cid title model vn vcfg sq fl gm ti = Ok gv ->
  exists view_columns before derived,
    (let? cols := getitem (view_config gv) "columns" in py_iter cols) = Ok view_columns /\
    columns (grid gv) = (before ++ uid_column :: derived)%list /\
    Forall2 (fun column c =>
      exists name header,
        getitem column "name" = Ok (PyStr name) /\
        getitem column "label" = Ok header /\
        getitem c "field" = Ok (PyStr (hd "" (split_dot name))) /\
        getitem c "headerText" = Ok header)
      (List.filter (fun column => negb (is_row_action column)) view_columns) derived.
Proof.
  intros H.
  pose proof (init_columns _ _ _ _ _ _ _ _ _ _ _ _ H)
    as (vc0 & gc0 & selection & R0 & B & Hc & Hg).
  apply init_steps in H
    as (vc & gc & vcl & modes' & mode_list' & cfg0 & items0 & paged' & edit & tb & flt & sel
        & R & _ & _ & Hvc & _).
  rewrite R in R0. injection R0 as <-.
  unfold build_grid_columns in B.
  destruct (getitem vc "columns") as [cols|] eqn:E1; [cbn [and_then] in B | discriminate B].
  destruct (py_iter cols) as [l|] eqn:E2; [cbn [and_then] in B | discriminate B].
  apply append_grid_columns_fields in B as (derived & -> & Hd).
  exists l, (if selection then [checkbox_column] else []), derived.
  rewrite Hvc, E1. cbn [and_then]. split; [exact E2|].
  split; [|exact Hd].
  rewrite Hg, Hc. destruct selection; reflexivity.
Qed.

Lemma one_grid_column_per_view_column_witness :
  exists view_columns before derived,
    (let? cols := getitem (view_config order_grid) "columns" in py_iter cols)
    = Ok view_columns /\
    columns (grid order_grid) = (before ++ uid_column :: derived)%list /\
    Forall2 (fun column c =>
      exists name header,
        getitem column "name" = Ok (PyStr name) /\
        getitem column "label" = Ok header /\
        getitem c "field" = Ok (PyStr (hd "" (split_dot name))) /\
        getitem c "headerText" = Ok header)
      (List.filter (fun column => negb (is_row_action column)) view_columns) derived.
Proof.
  apply (one_grid_column_per_view_column utc app_env (PyStr "box") None (PyStr "Order")
           PyNone PyNone PyNone PyNone PyNone PyNone order_grid).
  exact order_grid_ok.
Defined.

(** ** What the action handler leaves alone *)

Lemma emit_frame (e : Event) (u : unit) (w w' : World) :
  emit e w = Ok (u, w') -> this w' = this w /\ store w' = store w.
Proof. unfold emit, modify. intros H. inversion H. split; reflexivity. Qed.

Lemma add_edit_row_frame P env (args : option ActionArgs) (w w' : World) :
  add_edit_row P env args w = Ok (tt, w') -> this w' = this w /\ store w' = store w.
Proof.
  unfold add_edit_row. intros H.
  apply FormInputsFacts.bind_Ok in H as ([action r] & w1 & H1 & H).
  assert (F1 : this w1 = this w /\ store w1 = store w).
  { destruct args as [a|].
    - destruct (py_eq (requestType a) (PyStr "beginEdit")).
      + apply FormInputsFacts.bind_Ok in H1 as (u & w2 & H2 & H1).
        unfold lift in H2. destruct (js_attr P (rowData a) "uid"); inversion H2; subst.
        apply FormInputsFacts.bind_Ok in H1 as (r' & w3 & H3 & H1).
        unfold grid_class_get in H3. inversion H3; subst.
        inversion H1; subst. split; reflexivity.
      + apply FormInputsFacts.bind_Ok in H1 as (u & w2 & H2 & H1).
        apply emit_frame in H2. inversion H1; subst. exact H2.
    - apply FormInputsFacts.bind_Ok in H1 as (u & w2 & H2 & H1).
      apply emit_frame in H2. inversion H1; subst. exact H2. }
  destruct F1 as [F1 F1'].
  apply FormInputsFacts.bind_Ok in H as (w2 & w3 & H2 & H). inversion H2; subst w2 w3; clear H2.
  destruct (decide _).
  - apply FormInputsFacts.bind_Ok in H as (u & w2 & H2 & H).
    apply emit_frame in H2 as [A B]. apply emit_frame in H as [C D].
    split; congruence.
  - apply emit_frame in H as [C D]. split; congruence.
Qed.

Lemma delete_loop_frame P (rows : list PyVal) : forall w w',
  for_each rows (fun gird_row =>
    let* u := lift (js_attr P gird_row "uid") in
    let* db_row := grid_class_get u in
    match db_row with
    | Some r => delete_row r
    | None => ret tt
    end) w = Ok (tt, w') ->
  this w' = this w /\ store w' ⊆ store w.
Proof.
  induction rows as [|row rest IH]; intros w w' H; cbn [for_each] in H.
  - inversion H. split; reflexivity.
  - apply FormInputsFacts.bind_Ok in H as (u0 & w1 & H1 & H).
    apply IH in H as [A B].
    assert (F : this w1 = this w /\ store w1 ⊆ store w).
    { apply FormInputsFacts.bind_Ok in H1 as (u & w2 & H2 & H1).
      unfold lift in H2. destruct (js_attr P row "uid"); inversion H2; subst.
      apply FormInputsFacts.bind_Ok in H1 as (r & w3 & H3 & H1).
      unfold grid_class_get in H3. inversion H3; subst w3. clear H3.
      destruct r as [r|].
      - unfold delete_row in H1. apply FormInputsFacts.bind_Ok in H1 as (u1 & w4 & H4 & H1).
        unfold modify in H4. inversion H4; subst. apply emit_frame in H1 as [C D].
        cbn in C, D. split; [exact C|]. rewrite D. apply delete_subseteq.
      - inversion H1; subst. split; reflexivity. }
    destruct F as [C D]. split; [congruence|]. etrans; eassumption.
Qed.

(** X26: the action handler never touches the grid view itself, and all it ever
    does to the backing store is to delete records: it adds and changes
    none, and a request other than [delete] leaves the store as it was. *)
Theorem grid_action_handler_only_deletes P env (args : ActionArgs) (w w' : World) :
  grid_action_handler P env args w = Ok (tt, w') ->
  this w' = this w /\
  store w' ⊆ store w /\
  (py_eq (requestType args) (PyStr "delete") = false -> store w' = store w).
Proof.
  unfold grid_action_handler. intros H.
  destruct (one_of (requestType args) ["beginEdit"; "add"; "delete"]
            && py_eq (type args) (PyStr "actionComplete")).
  - destruct (one_of (requestType args) ["beginEdit"; "add"]).
    + apply FormInputsFacts.bind_Ok in H as (u & w1 & H1 & H).
      apply emit_frame in H1 as [A B]. apply add_edit_row_frame in H as [C D].
      split; [congruence|]. split; [rewrite D, B; reflexivity|]. intros _. congruence.
    + destruct (py_eq (requestType args) (PyStr "delete")).
      * apply FormInputsFacts.bind_Ok in H as (rows & w1 & H1 & H).
        unfold lift in H1. destruct (py_iter (data args)); inversion H1; subst.
        apply delete_loop_frame in H as [A B].
        split; [exact A|]. split; [exact B|]. discriminate.
      * apply emit_frame in H as [A B]. split; [exact A|].
        split; [rewrite B; reflexivity|]. intros _. exact B.
  - inversion H. split; [reflexivity|]. split; [reflexivity|]. reflexivity.
Qed.

Lemma grid_action_handler_only_deletes_witness :
  this after_delete_o1 = this order_world /\
  store after_delete_o1 ⊆ store order_world /\
  (py_eq (requestType delete_o1) (PyStr "delete") = false ->
   store after_delete_o1 = store order_world).
Proof.
  apply (grid_action_handler_only_deletes utc app_env delete_o1 order_world after_delete_o1).
  vm_compute. reflexivity.
Defined.

End GridFacts.

(** * Properties of the name helpers *)

Module NamesFacts.

Import GridView Utils.

(** ** camel_to_title *)

Lemma findall_words_nonempty (w s : string) : findall_words (Some w) s <> [].
Proof.
  revert w. induction s as [|a r IH]; intros w; cbn; [discriminate|].
  destruct (is_upper a); [discriminate | apply IH].
Qed.

Lemma append_assoc (a b c : string) : (a +:+ b) +:+ c = a +:+ (b +:+ c).
Proof.
  induction a as [|x a IH]; [reflexivity|].
  change (String x ((a +:+ b) +:+ c) = String x (a +:+ (b +:+ c))).
  rewrite IH. reflexivity.
Qed.

Lemma concat_findall_words (s : string) : forall w,
  String.concat " " (findall_words (Some w) s) = w +:+ space_capitals s.
Proof.
  induction s as [|a r IH]; intros w; cbn [findall_words space_capitals].
  - change (w = w +:+ "").
    induction w as [|x w IHw]; [reflexivity|].
    change (String x w = String x (w +:+ "")). rewrite <- IHw. reflexivity.
  - destruct (is_upper a).
    + pose proof (findall_words_nonempty (String a "") r) as Hne.
      specialize (IH (String a "")).
      destruct (findall_words (Some (String a "")) r) as [|h t]; [congruence|].
      cbn [String.concat]. cbn [String.concat] in IH. rewrite IH. reflexivity.
    + rewrite IH. rewrite append_assoc. reflexivity.
Qed.

Lemma findall_words_skips (s : string) :
  findall_words None s = findall_words None (from_first_capital s).
Proof.
  induction s as [|a r IH]; [reflexivity|]. cbn [from_first_capital].
  destruct (is_upper a) eqn:E; [reflexivity|].
  cbn [findall_words]. rewrite E. exact IH.
Qed.

(** X27: [camel_to_title] gives the name from its first capital on, with one
    space before every later capital: what comes before the first capital
    is dropped, and a name without capitals gives the empty title. *)
Theorem camel_to_title_is_title_case (s : string) : camel_to_title s = title_case s.
Proof.
  unfold camel_to_title, title_case. rewrite findall_words_skips.
  destruct (from_first_capital s) as [|a r] eqn:E; [reflexivity|].
  assert (Ha : is_upper a = true).
  { clear -E. induction s as [|b t IH]; [discriminate E|].
    cbn [from_first_capital] in E. destruct (is_upper b) eqn:Eb.
    - injection E as -> ->. exact Eb.
    - apply IH. exact E. }
  cbn [findall_words]. rewrite Ha. rewrite concat_findall_words. reflexivity.
Qed.

Lemma camel_to_title_examples :
  camel_to_title "OrderItem" = "Order Item" /\
  camel_to_title "orderItem" = "Item" /\
  camel_to_title "HTTPServer" = "H T T P Server" /\
  camel_to_title "order" = "".
Proof. repeat split; reflexivity. Qed.

(** ** Suffixes *)

Lemma append_nil_r (s : string) : s +:+ "" = s.
Proof.
  induction s as [|x s IH]; [reflexivity|].
  change (String x (s +:+ "") = String x s). rewrite IH. reflexivity.
Qed.

Lemma length_append (p t : string) :
  String.length (p +:+ t) = (String.length p + String.length t)%nat.
Proof.
  induction p as [|x p IH]; [reflexivity|].
  change (S (String.length (p +:+ t)) = S (String.length p + String.length t)).
  rewrite IH. reflexivity.
Qed.

Lemma substring_prefix (p t : string) :
  String.substring 0 (String.length p) (p +:+ t) = p.
Proof.
  induction p as [|x p IH]; [destruct t; reflexivity|].
  change (String x (String.substring 0 (String.length p) (p +:+ t)) = String x p).
  rewrite IH. reflexivity.
Qed.

Lemma substring_all (t : string) : String.substring 0 (String.length t) t = t.
Proof.
  rewrite <- (append_nil_r t) at 2. apply substring_prefix.
Qed.

Lemma substring_suffix (p t : string) :
  String.substring (String.length p) (String.length t) (p +:+ t) = t.
Proof.
  induction p as [|x p IH]; [apply substring_all|]. exact IH.
Qed.

Lemma drop_end_append (p t : string) : drop_end (String.length t) (p +:+ t) = p.
Proof.
  unfold drop_end. rewrite length_append.
  replace (String.length p + String.length t - String.length t)%nat
    with (String.length p) by lia.
  apply substring_prefix.
Qed.

Lemma take_end_append (p t : string) : take_end (String.length t) (p +:+ t) = t.
Proof.
  unfold take_end. rewrite length_append.
  replace (String.length p + String.length t - String.length t)%nat
    with (String.length p) by lia.
  apply substring_suffix.
Qed.

Lemma drop_end_suffix (k : nat) (p t : string) :
  String.length t = k -> drop_end k (p +:+ t) = p.
Proof. intros <-. apply drop_end_append. Qed.

Lemma take_end_suffix (k : nat) (p t : string) :
  String.length t = k -> take_end k (p +:+ t) = t.
Proof. intros <-. apply take_end_append. Qed.

Lemma endswith_spec (s t : string) : endswith s t = true <-> exists p, s = p +:+ t.
Proof.
  split.
  - induction s as [|a r IH]; cbn [endswith]; intros H.
    + rewrite orb_false_r in H. apply String.eqb_eq in H. subst. exists "". reflexivity.
    + apply orb_true_iff in H as [H|H].
      * apply String.eqb_eq in H. subst. exists "". reflexivity.
      * destruct (IH H) as [p ->]. exists (String a p). reflexivity.
  - intros [p ->]. induction p as [|a p IH].
    + change ("" +:+ t) with t. destruct t; cbn [endswith]; rewrite String.eqb_refl; reflexivity.
    + change (String a p +:+ t) with (String a (p +:+ t)). cbn [endswith].
      rewrite IH. apply orb_true_r.
Qed.

Lemma snoc_cases (s : string) : s = "" \/ exists p c, s = p +:+ String c "".
Proof.
  induction s as [|a r IH]; [left; reflexivity|]. right.
  destruct IH as [->|(p & c & ->)].
  - exists "", a. reflexivity.
  - exists (String a p), c. reflexivity.
Qed.

Lemma snoc_inj (p q : string) (c d : ascii) :
  p +:+ String c "" = q +:+ String d "" -> p = q /\ c = d.
Proof.
  revert q. induction p as [|a p IH]; intros [|b q] H.
  - injection H as ->. auto.
  - change (String c "" = String b (q +:+ String d "")) in H. injection H as -> H.
    destruct q; discriminate H.
  - change (String a (p +:+ String c "") = String d "") in H. injection H as -> H.
    destruct p; discriminate H.
  - change (String a (p +:+ String c "") = String b (q +:+ String d "")) in H.
    injection H as -> H. apply IH in H as [-> ->]. auto.
Qed.

Lemma endswith_snoc (p q : string) (c d : ascii) :
  endswith (p +:+ String c "") (q +:+ String d "") = Ascii.eqb c d && endswith p q.
Proof.
  destruct (Ascii.eqb c d && endswith p q) eqn:E.
  - apply andb_true_iff in E as [E1 E2]. apply Ascii.eqb_eq in E1. subst d.
    apply endswith_spec in E2 as [x ->]. apply endswith_spec. exists x.
    apply append_assoc.
  - destruct (endswith (p +:+ String c "") (q +:+ String d "")) eqn:E'; [|reflexivity].
    apply endswith_spec in E' as [x Hx].
    rewrite <- append_assoc in Hx. apply snoc_inj in Hx as [-> ->].
    rewrite Ascii.eqb_refl in E. cbn in E.
    assert (endswith (x +:+ q) q = true) by (apply endswith_spec; eauto).
    congruence.
Qed.

Lemma endswith_last (p q t : string) (c d : ascii) :
  t = q +:+ String d "" ->
  endswith (p +:+ String c "") t = Ascii.eqb c d && endswith p q.
Proof. intros ->. apply endswith_snoc. Qed.

Lemma endswith_nil (s : string) : endswith s "" = true.
Proof. apply endswith_spec. exists s. symmetry. apply append_nil_r. Qed.

Lemma endswith_char (p : string) (c d : ascii) :
  endswith (p +:+ String c "") (String d "") = Ascii.eqb c d.
Proof.
  change (String d "") with ("" +:+ String d "").
  rewrite endswith_snoc, endswith_nil. apply andb_true_r.
Qed.

(** ** Plural and singular *)

(** [get_plural_name] fails on the empty name only. *)
Lemma get_plural_name_None (name : string) : get_plural_name name = None <-> name = "".
Proof.
  split; [|intros ->; reflexivity].
  destruct (snoc_cases name) as [->|(p & c & ->)]; [reflexivity|].
  unfold get_plural_name. destruct (endswith _ "y"); [discriminate|].
  rewrite (take_end_suffix 1 p (String c "") eq_refl).
  destruct (_ || _ || _); discriminate.
Qed.

(** X28: [get_singular_name] undoes [get_plural_name] exactly on the names that
    do not end in [e]: [name] comes back as [nam], and [pie] as [py]. *)
Theorem singular_of_plural (name plural : string) :
  get_plural_name name = Some plural ->
  (get_singular_name plural = name <-> endswith name "e" = false).
Proof.
  destruct (snoc_cases name) as [->|(q & c & ->)]; [discriminate|].
  unfold get_plural_name. rewrite endswith_char.
  destruct (Ascii.eqb c "y") eqn:Ey.
  - (* ...y *)
    apply Ascii.eqb_eq in Ey. subst c. intros H. injection H as <-.
    rewrite (drop_end_suffix 1 q "y" eq_refl).
    unfold get_singular_name.
    assert (E : endswith (q +:+ "ies") "ies" = true) by (apply endswith_spec; eauto).
    rewrite E. rewrite (drop_end_suffix 3 q "ies" eq_refl).
    rewrite endswith_char. cbn. split; reflexivity.
  - rewrite (take_end_suffix 1 q (String c "") eq_refl).
    assert (Hshch : forall b,
      String.eqb (take_end 2 (q +:+ String c "")) (String b "h") = true -> c = "h"%char).
    { intros b H. apply String.eqb_eq in H.
      destruct (snoc_cases q) as [->|(q' & a & ->)].
      - cbn in H. discriminate H.
      - rewrite append_assoc in H.
        change (String a "" +:+ String c "") with (String a (String c "")) in H.
        rewrite (take_end_suffix 2 q' (String a (String c "")) eq_refl) in H.
        injection H as _ ->. reflexivity. }
    assert (Een : endswith (q +:+ String c "") "e" = Ascii.eqb c "e")
      by apply endswith_char.
    assert (Ein : endswith (q +:+ String c "") "i" = Ascii.eqb c "i")
      by apply endswith_char.
    remember (q +:+ String c "") as n eqn:Hn.
    destruct (infix_of (String c "") "sx" || String.eqb (take_end 2 n) "sh"
              || String.eqb (take_end 2 n) "ch") eqn:Econd.
    + (* ...s, ...x, ...sh, ...ch *)
      assert (Hc : c = "s"%char \/ c = "x"%char \/ c = "h"%char).
      { apply orb_true_iff in Econd as [Econd|Econd];
          [apply orb_true_iff in Econd as [Econd|Econd]|]; eauto.
        cbn in Econd. rewrite !orb_false_r, !andb_true_r in Econd.
        apply orb_true_iff in Econd as [E|E]; apply Ascii.eqb_eq in E; auto. }
      assert (Ei : Ascii.eqb c "i" = false) by (destruct Hc as [->|[->| ->]]; reflexivity).
      assert (Ee : Ascii.eqb c "e" = false) by (destruct Hc as [->|[->| ->]]; reflexivity).
      cbv iota. intros H. injection H as <-. unfold get_singular_name.
      rewrite Een, Ee.
      assert (E1 : endswith (n +:+ "es") "ies" = false).
      { replace (n +:+ "es") with ((n +:+ "e") +:+ "s")
          by (rewrite append_assoc; reflexivity).
        rewrite (endswith_last (n +:+ "e") "ie" "ies" "s" "s" eq_refl).
        rewrite (endswith_last n "i" "ie" "e" "e" eq_refl). rewrite Ein, Ei. reflexivity. }
      assert (E2 : endswith (n +:+ "es") "es" = true) by (apply endswith_spec; eauto).
      rewrite E1, E2. rewrite (drop_end_suffix 2 n "es" eq_refl). split; reflexivity.
    + (* the name gets an s *)
      cbv iota. intros H. injection H as <-. unfold get_singular_name.
      rewrite (endswith_last n "ie" "ies" "s" "s" eq_refl).
      rewrite (endswith_last n "e" "es" "s" "s" eq_refl).
      rewrite (endswith_char n "s" "s").
      cbn [andb Ascii.eqb Bool.eqb].
      destruct (endswith n "ie") eqn:Eie.
      * apply endswith_spec in Eie as [m Hm]. rewrite Hm.
        rewrite append_assoc. change ("ie" +:+ "s") with "ies".
        rewrite (drop_end_suffix 3 m "ies" eq_refl).
        assert (Ee : endswith (m +:+ "ie") "e" = true).
        { apply endswith_spec. exists (m +:+ "i"). rewrite append_assoc. reflexivity. }
        rewrite Ee. split; [|discriminate].
        intros K. apply String.app_inj in K. discriminate K.
      * destruct (endswith n "e") eqn:Ee.
        -- apply endswith_spec in Ee as [m Hm]. rewrite Hm.
           rewrite append_assoc. change ("e" +:+ "s") with "es".
           rewrite (drop_end_suffix 2 m "es" eq_refl).
           split; [|discriminate].
           intros K. rewrite <- (append_nil_r m) in K at 1.
           apply String.app_inj in K. discriminate K.
        -- rewrite (drop_end_suffix 1 n "s" eq_refl).
           split; reflexivity.
Qed.

Lemma singular_of_plural_witness :
  (get_singular_name "cities" = "city" <-> endswith "city" "e" = false) /\
  (get_singular_name "names" = "name" <-> endswith "name" "e" = false).
Proof.
  split.
  - apply (singular_of_plural "city" "cities"). reflexivity.
  - apply (singular_of_plural "name" "names"). reflexivity.
Defined.

End NamesFacts.
